(** * BlindAI client: signed responses, their validation, and the session

    A shallow embedding of [client/blindai/client.py].  Python objects become
    records whose optional attributes are [option]s, exceptions become the
    [Raise] branch of [result], and every call that leaves the client (the
    policy file, the attestation verifier, the Ed25519 check, the gRPC
    channels) is recorded in a log, so that statements such as "before
    touching the channel" can be read off the log.

    Modelled: [SignedResponse], [UploadModelResponse], [TensorInfo],
    [Tensor], [RunModelResponse], the decorator
    [raise_exception_if_conn_closed] and [BlindAiConnection] with
    [_connect_server], the three operations and [close].  Left out: the
    file variants [save_to_file] and [load_from_file], [Tensor.as_flat],
    and the construction of the gRPC requests ([_get_input_output_tensors],
    the torch adapters of [run_model]), which no statement depends on. *)

From Stdlib Require Import List String Ascii NArith ZArith Bool Lia.
From Stdlib Require Import Strings.Byte.
Import ListNotations.
Open Scope string_scope.
Open Scope list_scope.

Set Implicit Arguments.

(** ** Bytes and strings *)

Definition bytes := list byte.

Fixpoint bytes_eqb (a b : bytes) : bool :=
  match a, b with
  | [], [] => true
  | x :: a', y :: b' => Byte.eqb x y && bytes_eqb a' b'
  | _, _ => false
  end.

(** ** Exceptions

    The exception classes the client raises or lets through, none of them
    a subclass of another.  [class_name] is the Python class name; the
    specification's taxonomy is a list of names. *)

Inductive exn : Type :=
| SignatureError (msg : string)
| VersionError (msg : string)
| ConnectionError (cause : string)
| AttestationError (msg : string)
| RpcError (status : string)
| SocketError (msg : string)
| ValueError (msg : string)
| FileNotFoundError (path : string)
| AttributeError (msg : string)
| TypeError (msg : string)
| IndexError (msg : string)
| DecodeError (msg : string)
| OtherError (cls : string) (msg : string).

Definition class_name (e : exn) : string :=
  match e with
  | SignatureError _ => "SignatureError"
  | VersionError _ => "VersionError"
  | ConnectionError _ => "ConnectionError"
  | AttestationError _ => "AttestationError"
  | RpcError _ => "RpcError"
  | SocketError _ => "socket.error"
  | ValueError _ => "ValueError"
  | FileNotFoundError _ => "FileNotFoundError"
  | AttributeError _ => "AttributeError"
  | TypeError _ => "TypeError"
  | IndexError _ => "IndexError"
  | DecodeError _ => "DecodeError"
  | OtherError cls _ => cls
  end.

Definition is_SignatureError (e : exn) : bool :=
  match e with SignatureError _ => true | _ => false end.

(** The typed failures of the specification's error-handling section. *)
Definition spec_taxonomy : list string :=
  [ "ConfigError"; "ConnectionError"; "VersionError"; "AttestationError";
    "SignatureError"; "EncodingError"; "InvalidStateError" ].

Definition in_taxonomy (e : exn) : bool :=
  existsb (String.eqb (class_name e)) spec_taxonomy.

Inductive result (A : Type) : Type :=
| Ok (a : A)
| Raise (e : exn).

Arguments Ok {A} a.
Arguments Raise {A} e.

Definition raises {A} (r : result A) : bool :=
  match r with Ok _ => false | Raise _ => true end.

(** ** Messages of the wire protocol

    The classes generated from the proto files are not part of the client
    source; what the client reads from them is modelled with the semantics
    of the Python protobuf API: a bytes or string field that is unset reads
    as empty, a sub-message that is unset reads as the default instance, and
    a keyword argument [None] of a constructor leaves the field unset. *)

(** [GetSgxQuoteWithCollateralReply]: the attestation evidence.  The client
    only hands the three fields to the verifier; the collateral sub-message
    is kept in serialized form. *)
Record GetSgxQuoteWithCollateralReply : Type := {
  quote : bytes;
  collateral : bytes;
  enclave_held_data : bytes
}.

Definition attestation_default : GetSgxQuoteWithCollateralReply :=
  {| quote := []; collateral := []; enclave_held_data := [] |}.

Inductive ModelDatumType : Type :=
| F32 | F64 | I32 | I64 | U32 | U64 | U8 | U16 | I8 | I16 | Bool.

Definition dt_per_type (d : ModelDatumType) : Z :=
  match d with
  | F32 => 4 | F64 => 8 | I32 => 4 | I64 => 8 | U32 => 4 | U64 => 8
  | U8 => 1 | U16 => 2 | I8 => 1 | I16 => 2 | Bool => 1
  end%Z.

Record PbTensorInfo : Type := {
  pb_dims : list Z;
  pb_datum_type : ModelDatumType;
  pb_index : Z;
  pb_index_name : string
}.

Record PbTensorData : Type := {
  pb_info : PbTensorInfo;
  pb_bytes_data : bytes
}.

Record SendModelPayload : Type := {
  smp_model_hash : bytes;
  smp_model_id : string
}.

Record RunModelPayload : Type := {
  rmp_output_tensors : list PbTensorData;
  rmp_input_hash : bytes;
  rmp_model_id : string
}.

Definition SendModelPayload_default : SendModelPayload :=
  {| smp_model_hash := []; smp_model_id := "" |}.

Definition RunModelPayload_default : RunModelPayload :=
  {| rmp_output_tensors := []; rmp_input_hash := []; rmp_model_id := "" |}.

(** [Payload] carries one of the two operation payloads. *)
Inductive PbPayload : Type :=
| PayloadUnset
| PayloadSendModel (p : SendModelPayload)
| PayloadRunModel (p : RunModelPayload).

Definition send_model_payload (p : PbPayload) : SendModelPayload :=
  match p with PayloadSendModel s => s | _ => SendModelPayload_default end.

Definition run_model_payload (p : PbPayload) : RunModelPayload :=
  match p with PayloadRunModel r => r | _ => RunModelPayload_default end.

(** [ResponseProof], the persisted form of a signed response: two bytes
    fields and an optional attestation sub-message. *)
Record ResponseProof : Type := {
  proof_payload : bytes;
  proof_signature : bytes;
  proof_attestation_field : option GetSgxQuoteWithCollateralReply
}.

(** The constructor call [ResponseProof(payload=.., signature=..,
    attestation=..)]: an argument [None] leaves its field unset. *)
Definition ResponseProof_new (payload signature : option bytes)
    (attestation : option GetSgxQuoteWithCollateralReply) : ResponseProof :=
  {| proof_payload := match payload with Some p => p | None => [] end;
     proof_signature := match signature with Some s => s | None => [] end;
     proof_attestation_field := attestation |}.

(** Reading [proof.attestation]: never [None]. *)
Definition proof_attestation (m : ResponseProof) : GetSgxQuoteWithCollateralReply :=
  match proof_attestation_field m with
  | Some a => a
  | None => attestation_default
  end.

(** ** Keys, channels and the log of outside calls *)

Record Ed25519PublicKey : Type := { raw_key : bytes }.

Inductive rpc_method : Type :=
| GetServerInfo | GetCertificate | GetSgxQuoteWithCollateral
| SendModel | RunModel | DeleteModel.

Definition method_name (m : rpc_method) : string :=
  match m with
  | GetServerInfo => "GetServerInfo"
  | GetCertificate => "GetCertificate"
  | GetSgxQuoteWithCollateral => "GetSgxQuoteWithCollateral"
  | SendModel => "SendModel"
  | RunModel => "RunModel"
  | DeleteModel => "DeleteModel"
  end.

(** A channel handle is the number the transport gave it when it was opened. *)
Definition Channel := nat.

Inductive event : Type :=
| EvPolicyFile (path : string)
| EvQuoteVerification (att : GetSgxQuoteWithCollateralReply)
| EvVerify (key : Ed25519PublicKey) (signature payload : bytes)
| EvWarning (msg : string)
| EvFileRead (path : string)
| EvTlsCertificateFetch (addr : string) (port : Z)
| EvChannelOpen (c : Channel) (target : string)
| EvChannelClose (c : Channel)
| EvRpc (c : Channel) (m : rpc_method).

Definition trace := list event.

(** ** The monad of client code: a log and exceptions *)

Definition M (A : Type) : Type := trace -> trace * result A.

Definition ret {A} (a : A) : M A := fun t => (t, Ok a).

Definition raise {A} (e : exn) : M A := fun t => (t, Raise e).

Definition bind {A B} (m : M A) (f : A -> M B) : M B :=
  fun t => match m t with
           | (t', Ok a) => f a t'
           | (t', Raise e) => (t', Raise e)
           end.

Definition emit (ev : event) : M unit := fun t => (t ++ [ev], Ok tt).

Definition lift {A} (r : result A) : M A := fun t => (t, r).

(** [try: body except <class>: handler]: [handler e] is [None] when the
    except clauses do not match [e]. *)
Definition try_except {A} (body : M A) (handler : exn -> option (M A)) : M A :=
  fun t => match body t with
           | (t', Ok a) => (t', Ok a)
           | (t', Raise e) =>
               match handler e with
               | Some h => h t'
               | None => (t', Raise e)
               end
           end.

Notation "x <- m ;; k" := (bind m (fun x => k))
  (at level 61, m at next level, right associativity).
Notation "m ;;; k" := (bind m (fun _ => k))
  (at level 61, right associativity).

(** Running a computation from an empty log. *)
Definition run {A} (m : M A) : trace * result A := m [].
Definition outcome {A} (m : M A) : result A := snd (run m).
Definition log_of {A} (m : M A) : trace := fst (run m).

(** ** What the client imports

    The libraries and generated classes the client calls are parameters:
    the Ed25519 check ([verify] returns, or raises [InvalidSignature]),
    SHA-256, the attestation verifier and policy loader of
    [blindai.dcap_attestation], the helpers of [blindai.utils], the tensor
    codec, and the protobuf codecs ([FromString] fails with [DecodeError]
    on bytes that are not a message). *)

Class External : Type := {
  Policy : Type;
  Claims : Type;
  scalar : Type;
  ed25519_verify : Ed25519PublicKey -> bytes -> bytes -> bool;
  sha256_digest : bytes -> bytes;
  Policy_from_file : string -> result Policy;
  verify_dcap_attestation : bytes -> bytes -> bytes -> result Claims;
  verify_claims : Claims -> option Policy -> result unit;
  get_server_cert : Claims -> bytes;
  get_enclave_signing_key : bytes -> result Ed25519PublicKey;
  serialize_tensor : list scalar -> ModelDatumType -> result (list bytes);
  PbPayload_FromString : bytes -> option PbPayload;
  ResponseProof_SerializeToString : ResponseProof -> bytes;
  ResponseProof_FromString : bytes -> option ResponseProof
}.

Definition decode_error : exn := DecodeError "Error parsing message".

Definition none_has_no_attribute (attr : string) : exn :=
  AttributeError ("'NoneType' object has no attribute '" ++ attr ++ "'")%string.

Section Validation.
Context `{External}.

(** [_validate_quote]: returns the enclave signing key. *)
Definition _validate_quote (attestation : option GetSgxQuoteWithCollateralReply)
    (policy : option Policy) : M Ed25519PublicKey :=
  match attestation with
  | None => raise (none_has_no_attribute "quote")
  | Some att =>
      emit (EvQuoteVerification att) ;;;
      claims <- lift (verify_dcap_attestation (quote att) (collateral att)
                        (enclave_held_data att)) ;;
      lift (verify_claims claims policy) ;;;
      lift (get_enclave_signing_key (get_server_cert claims))
  end.

(** [PbPayload.FromString(self.payload)] *)
Definition parse_payload (payload : option bytes) : result PbPayload :=
  match payload with
  | None => Raise (TypeError "a bytes-like object is required, not 'NoneType'")
  | Some b =>
      match PbPayload_FromString b with
      | Some p => Ok p
      | None => Raise decode_error
      end
  end.

(** [try: enclave_signing_key.verify(self.signature, self.payload)
     except InvalidSignature: raise SignatureError("Invalid signature")] *)
Definition verify_signature (enclave_signing_key : option Ed25519PublicKey)
    (signature payload : option bytes) : M unit :=
  match enclave_signing_key with
  | None => raise (none_has_no_attribute "verify")
  | Some key =>
      match signature, payload with
      | Some s, Some p =>
          emit (EvVerify key s p) ;;;
          if ed25519_verify key s p then ret tt
          else raise (SignatureError "Invalid signature")
      | _, _ => raise (TypeError "signature and data must be bytes-like")
      end
  end.

(** [if not self.is_simulation_mode() and validate_quote and policy_file is not None:
       policy = Policy.from_file(policy_file)] *)
Definition resolve_policy (simulation validate_quote : bool)
    (policy_file : option string) (policy : option Policy) : M (option Policy) :=
  if negb simulation && validate_quote then
    match policy_file with
    | Some f =>
        emit (EvPolicyFile f) ;;;
        p <- lift (Policy_from_file f) ;; ret (Some p)
    | None => ret policy
    end
  else ret policy.

(** [if not self.is_simulation_mode() and validate_quote:
       enclave_signing_key = _validate_quote(self.attestation, policy)] *)
Definition resolve_signing_key (simulation validate_quote : bool)
    (attestation : option GetSgxQuoteWithCollateralReply) (policy : option Policy)
    (enclave_signing_key : option Ed25519PublicKey) : M (option Ed25519PublicKey) :=
  if negb simulation && validate_quote then
    k <- _validate_quote attestation policy ;; ret (Some k)
  else ret enclave_signing_key.

(** The two steps together: the key the signature is checked with. *)
Definition key_resolution (simulation validate_quote : bool)
    (attestation : option GetSgxQuoteWithCollateralReply)
    (policy_file : option string) (policy : option Policy)
    (enclave_signing_key : option Ed25519PublicKey) : M (option Ed25519PublicKey) :=
  policy <- resolve_policy simulation validate_quote policy_file policy ;;
  resolve_signing_key simulation validate_quote attestation policy enclave_signing_key.

End Validation.

(** ** [SignedResponse] *)

Module SignedResponse.

Record t : Type := {
  payload : option bytes;
  signature : option bytes;
  attestation : option GetSgxQuoteWithCollateralReply
}.

(** A fresh instance: the class attributes, all [None]. *)
Definition new : t := {| payload := None; signature := None; attestation := None |}.

Definition is_simulation_mode (self : t) : bool :=
  match attestation self with None => true | Some _ => false end.

Definition is_signed (self : t) : bool :=
  match signature self with None => false | Some _ => true end.

Section Codec.
Context `{External}.

Definition as_bytes (self : t) : bytes :=
  ResponseProof_SerializeToString
    (ResponseProof_new (payload self) (signature self) (attestation self)).

(** The base class's [_load_payload]: [pass]. *)
Definition _load_payload (self : t) : result t := Ok self.

Definition load_from_bytes (self : t) (b : bytes) : result t :=
  match ResponseProof_FromString b with
  | None => Raise decode_error
  | Some proof =>
      let self := {| payload := Some (proof_payload proof);
                     signature := Some (proof_signature proof);
                     attestation := Some (proof_attestation proof) |} in
      _load_payload self
  end.

End Codec.
End SignedResponse.

(** ** [UploadModelResponse] *)

Module UploadModelResponse.

Record t : Type := {
  base : SignedResponse.t;
  model_id : option string
}.

Definition new : t := {| base := SignedResponse.new; model_id := None |}.

Section Methods.
Context `{External}.

Definition validate (self : t) (model_hash : bytes)
    (policy_file : option string) (policy : option Policy)
    (validate_quote : bool) (enclave_signing_key : option Ed25519PublicKey)
    (allow_simulation_mode : bool) : M unit :=
  let r := base self in
  if negb (SignedResponse.is_signed r) then
    raise (SignatureError "Response is not signed")
  else if negb allow_simulation_mode && SignedResponse.is_simulation_mode r then
    raise (SignatureError "Response was produced using simulation mode")
  else
    policy <- resolve_policy (SignedResponse.is_simulation_mode r) validate_quote
                policy_file policy ;;
    (* Quote validation *)
    enclave_signing_key <-
      resolve_signing_key (SignedResponse.is_simulation_mode r) validate_quote
        (SignedResponse.attestation r) policy enclave_signing_key ;;
    (* Payload validation *)
    pb <- lift (parse_payload (SignedResponse.payload r)) ;;
    let payload := send_model_payload pb in
    (if negb (SignedResponse.is_simulation_mode r) then
       verify_signature enclave_signing_key (SignedResponse.signature r)
         (SignedResponse.payload r)
     else ret tt) ;;;
    (* Input validation *)
    if negb (bytes_eqb model_hash (smp_model_hash payload)) then
      raise (SignatureError "Invalid returned model_hash")
    else ret tt.

Definition _load_payload (self : t) : result t :=
  match parse_payload (SignedResponse.payload (base self)) with
  | Raise e => Raise e
  | Ok pb =>
      Ok {| base := base self;
            model_id := Some (smp_model_id (send_model_payload pb)) |}
  end.

(** Inherited from [SignedResponse]; [_load_payload] is the override. *)
Definition load_from_bytes (self : t) (b : bytes) : result t :=
  match ResponseProof_FromString b with
  | None => Raise decode_error
  | Some proof =>
      _load_payload
        {| base := {| SignedResponse.payload := Some (proof_payload proof);
                      SignedResponse.signature := Some (proof_signature proof);
                      SignedResponse.attestation := Some (proof_attestation proof) |};
           model_id := model_id self |}
  end.

End Methods.
End UploadModelResponse.

(** ** [TensorInfo] and [Tensor]

    An attribute that was never assigned is [None]; reading it raises
    [AttributeError]. *)

Definition getattr {A} (cls attr : string) (field : option A) : result A :=
  match field with
  | Some v => Ok v
  | None =>
      Raise (AttributeError
               ("'" ++ cls ++ "' object has no attribute '" ++ attr ++ "'")%string)
  end.

Module TensorInfo.

Record t : Type := {
  dims : option (list Z);
  datum_type : option ModelDatumType;
  index : option Z;
  index_name : option string
}.

Definition __init__ (dims_arg : list Z) (datum_type_arg : ModelDatumType)
    (index_arg : Z) (index_name_arg : string) : t :=
  {| dims := Some dims_arg;
     datum_type := Some datum_type_arg;
     index := None;
     index_name := None |}.

Definition get_dims (self : t) := getattr "TensorInfo" "dims" (dims self).
Definition get_datum_type (self : t) := getattr "TensorInfo" "datum_type" (datum_type self).
Definition get_index (self : t) := getattr "TensorInfo" "index" (index self).
Definition get_index_name (self : t) := getattr "TensorInfo" "index_name" (index_name self).

End TensorInfo.

Module Tensor.

Record t : Type := {
  info : TensorInfo.t;
  bytes_data : bytes
}.

Definition __init__ (info_arg : TensorInfo.t) (bytes_data_arg : bytes) : t :=
  {| info := info_arg; bytes_data := bytes_data_arg |}.

Definition shape (self : t) : result (list Z) := TensorInfo.get_dims (info self).

Definition datum_type (self : t) : result ModelDatumType :=
  TensorInfo.get_datum_type (info self).

End Tensor.

(** ** Arguments that are a list or a list of lists

    [run_model] and [RunModelResponse.validate] accept one tensor or a list
    of tensors, and test [type(x[0]) != list] to tell them apart. *)

Inductive flat_or_nested (A : Type) : Type :=
| Flat (xs : list A)
| Nested (xss : list (list A)).

Arguments Flat {A} xs.
Arguments Nested {A} xss.

Inductive one_or_list (A : Type) : Type :=
| One (a : A)
| Many (l : list A).

Arguments One {A} a.
Arguments Many {A} l.

Definition index_out_of_range : exn := IndexError "list index out of range".

(** [if type(x[0]) != list: x = [x]] *)
Definition wrap_unless_nested {A} (x : flat_or_nested A) : result (list (list A)) :=
  match x with
  | Flat [] => Raise index_out_of_range
  | Flat xs => Ok [xs]
  | Nested [] => Raise index_out_of_range
  | Nested xss => Ok xss
  end.

(** [if type(x) != list: x = [x]] *)
Definition wrap_unless_list {A} (x : one_or_list A) : list A :=
  match x with
  | One a => [a]
  | Many l => l
  end.

(** The reply of [SendModel] and of [RunModel]: two bytes fields. *)
Record PbReply : Type := {
  reply_payload : bytes;
  reply_signature : bytes
}.

(** ** [RunModelResponse] *)

Module RunModelResponse.

Record t : Type := {
  base : SignedResponse.t;
  output_tensors : option (list Tensor.t);
  model_id : option string
}.

Section Methods.
Context `{External}.

(** A [hashlib] object is the bytes fed to it so far. *)
Definition hash_update (h : bytes) (chunk : bytes) : bytes := h ++ chunk.

(** [for i, tensor in enumerate(tensors):
       for chunk in serialize_tensor(tensor, dtype[i]): hash.update(chunk)] *)
Fixpoint hash_tensors (tensors : list (list scalar)) (dtype : list ModelDatumType)
    (i : nat) (h : bytes) : result bytes :=
  match tensors with
  | [] => Ok h
  | tensor :: rest =>
      match nth_error dtype i with
      | None => Raise index_out_of_range
      | Some d =>
          match serialize_tensor tensor d with
          | Raise e => Raise e
          | Ok chunks => hash_tensors rest dtype (S i) (fold_left hash_update chunks h)
          end
      end
  end.

(** The chunks [run_model] streams for the same tensors:
    [for i, tensor in enumerate(tensors)
       for chunk in serialize_tensor(tensor, dtype[i])]. *)
Fixpoint chunk_sequence (tensors : list (list scalar)) (dtype : list ModelDatumType)
    (i : nat) : result (list bytes) :=
  match tensors with
  | [] => Ok []
  | tensor :: rest =>
      match nth_error dtype i with
      | None => Raise index_out_of_range
      | Some d =>
          match serialize_tensor tensor d with
          | Raise e => Raise e
          | Ok chunks =>
              match chunk_sequence rest dtype (S i) with
              | Raise e => Raise e
              | Ok more => Ok (chunks ++ more)
              end
          end
      end
  end.

(** The content descriptor of a run request: SHA-256 over the chunks of
    every input tensor, in order. *)
Definition input_digest (tensors : flat_or_nested scalar)
    (dtype : one_or_list ModelDatumType) (shape : flat_or_nested Z) : result bytes :=
  match wrap_unless_nested tensors with
  | Raise e => Raise e
  | Ok tensors =>
      let dtype := wrap_unless_list dtype in
      match wrap_unless_nested shape with
      | Raise e => Raise e
      | Ok _ =>
          match hash_tensors tensors dtype 0 [] with
          | Raise e => Raise e
          | Ok h => Ok (sha256_digest h)
          end
      end
  end.

Definition validate (self : t) (model_id_arg : string)
    (tensors : flat_or_nested scalar) (dtype : one_or_list ModelDatumType)
    (shape : flat_or_nested Z)
    (policy_file : option string) (policy : option Policy)
    (validate_quote : bool) (enclave_signing_key : option Ed25519PublicKey)
    (allow_simulation_mode : bool) : M unit :=
  let r := base self in
  if negb (SignedResponse.is_signed r) then
    raise (SignatureError "Response is not signed")
  else if negb allow_simulation_mode && SignedResponse.is_simulation_mode r then
    raise (SignatureError "Response was produced using simulation mode")
  else
    policy <- resolve_policy (SignedResponse.is_simulation_mode r) validate_quote
                policy_file policy ;;
    (* Quote validation *)
    enclave_signing_key <-
      resolve_signing_key (SignedResponse.is_simulation_mode r) validate_quote
        (SignedResponse.attestation r) policy enclave_signing_key ;;
    (* Payload validation *)
    pb <- lift (parse_payload (SignedResponse.payload r)) ;;
    let payload := run_model_payload pb in
    (if negb (SignedResponse.is_simulation_mode r) then
       verify_signature enclave_signing_key (SignedResponse.signature r)
         (SignedResponse.payload r)
     else ret tt) ;;;
    (* Input validation *)
    digest <- lift (input_digest tensors dtype shape) ;;
    if negb (bytes_eqb digest (rmp_input_hash payload)) then
      raise (SignatureError "Invalid returned input_hash")
    else if negb (String.eqb model_id_arg (rmp_model_id payload)) then
      raise (SignatureError "Invalid returned model_id")
    else ret tt.

Definition tensor_of_pb (tensor : PbTensorData) : Tensor.t :=
  Tensor.__init__
    (TensorInfo.__init__ (pb_dims (pb_info tensor)) (pb_datum_type (pb_info tensor))
       (pb_index (pb_info tensor)) (pb_index_name (pb_info tensor)))
    (pb_bytes_data tensor).

Definition __init__ (input_tensors : flat_or_nested scalar)
    (input_datum_type : one_or_list ModelDatumType) (input_shape : flat_or_nested Z)
    (response : PbReply) (sign : bool)
    (attestation : option GetSgxQuoteWithCollateralReply)
    (enclave_signing_key : option Ed25519PublicKey)
    (allow_simulation_mode : bool) : M t :=
  pb <- lift (parse_payload (Some (reply_payload response))) ;;
  let payload := run_model_payload pb in
  let self :=
    {| base := SignedResponse.new;
       output_tensors := Some (map tensor_of_pb (rmp_output_tensors payload));
       model_id := Some (rmp_model_id payload) |} in
  (* Response Verification *)
  if sign then
    let self :=
      {| base := {| SignedResponse.payload := Some (reply_payload response);
                    SignedResponse.signature := Some (reply_signature response);
                    SignedResponse.attestation := attestation |};
         output_tensors := output_tensors self;
         model_id := model_id self |} in
    validate self (rmp_model_id payload) input_tensors input_datum_type input_shape
      None None false enclave_signing_key allow_simulation_mode ;;;
    ret self
  else ret self.

End Methods.
End RunModelResponse.

(** ** The platform: helpers, files and servers

    [blindai.utils], the file system, the TLS certificate fetch and the
    replies of the servers.  A reply is what the call returns or the
    exception it raises ([RpcError] for a transport failure).  The requests
    of [SendModel] and [RunModel] are built from the caller's arguments by
    code no statement below depends on; they are summarized by the data
    sent. *)

Record ClientInfo : Type := {
  uid : string;
  platform_name : string;
  platform_arch : string;
  platform_version : string;
  platform_release : string;
  user_agent : string;
  user_agent_version : string
}.

Class Platform `{External} : Type := {
  strip_https : string -> string;
  str_of_port : Z -> string;
  supported_server_version : string -> bool;
  encode_certificate : bytes -> bytes;
  check_rpc_exception : exn -> string;
  check_socket_exception : exn -> string;
  read_file : string -> result bytes;
  ssl_get_server_certificate : string -> Z -> result string;
  this_client : ClientInfo;
  (* whether [import torch] succeeds *)
  is_torch_installed : bool;
  reply_GetServerInfo : string -> result string;
  reply_GetCertificate : string -> result bytes;
  reply_GetSgxQuoteWithCollateral : string -> result GetSgxQuoteWithCollateralReply;
  upload_arguments : Type;
  reply_SendModel : bytes -> bool -> upload_arguments -> result PbReply;
  reply_RunModel :
    string -> flat_or_nested scalar -> one_or_list ModelDatumType ->
    flat_or_nested Z -> bool -> result PbReply;
  reply_DeleteModel : string -> result unit
}.

Definition is_RpcError (e : exn) : bool :=
  match e with RpcError _ => true | _ => false end.

Definition is_SocketError (e : exn) : bool :=
  match e with SocketError _ => true | _ => false end.

Definition is_open_event (ev : event) : bool :=
  match ev with EvChannelOpen _ _ => true | _ => false end.

(** [secure_channel(target, ...)]: a fresh handle; gRPC connects lazily, so
    opening does not fail. *)
Definition secure_channel (target : string) : M Channel :=
  fun t =>
    let c := List.length (filter is_open_event t) in
    (t ++ [EvChannelOpen c target], Ok c).

Definition channel_close (c : Channel) : M unit := emit (EvChannelClose c).

Definition version_error : exn :=
  VersionError
    "Incompatible client/server versions. Please use the correct client for your server.".

Definition closed_connection_error : exn :=
  ValueError "Illegal operation on closed connection.".

(** [class DeleteModelResponse: pass] *)
Inductive DeleteModelResponse : Type := DeleteModelResponse_new.

Module BlindAiConnection.

Section Session.
Context `{Platform}.

Record t : Type := {
  _channel : option Channel;
  policy : option Policy;
  _stub : option Channel;
  enclave_signing_key : option Ed25519PublicKey;
  simulation_mode : bool;
  _disable_untrusted_server_cert_check : bool;
  attestation : option GetSgxQuoteWithCollateralReply;
  server_version : option string;
  client_info : option ClientInfo;
  closed : bool
}.

(** The class attributes' defaults. *)
Definition new : t :=
  {| _channel := None; policy := None; _stub := None;
     enclave_signing_key := None; simulation_mode := false;
     _disable_untrusted_server_cert_check := false;
     attestation := None; server_version := None;
     client_info := None; closed := false |}.

(** [raise_exception_if_conn_closed]: the decorator of the three
    operations. *)
Definition raise_exception_if_conn_closed {Args A : Type}
    (f : t -> Args -> M A) : t -> Args -> M A :=
  fun self args =>
    if closed self then raise closed_connection_error
    else f self args.

(** A call on [self._stub]. *)
Definition stub_call {A} (stub : option Channel) (m : rpc_method)
    (reply : result A) : M A :=
  match stub with
  | None => raise (none_has_no_attribute (method_name m))
  | Some c => emit (EvRpc c m) ;;; lift reply
  end.

(** [except RpcError as rpc_error:
       raise ConnectionError(check_rpc_exception(rpc_error))] *)
Definition rpc_to_connection_error {A} (e : exn) : option (M A) :=
  if is_RpcError e then Some (raise (ConnectionError (check_rpc_exception e)))
  else None.

Definition set_mode (self : t) (simulation : bool) : t :=
  {| _channel := _channel self; policy := policy self; _stub := _stub self;
     enclave_signing_key := enclave_signing_key self;
     simulation_mode := simulation;
     _disable_untrusted_server_cert_check := simulation;
     attestation := attestation self; server_version := server_version self;
     client_info := client_info self; closed := closed self |}.

Definition set_policy (self : t) (p : option Policy) : t :=
  {| _channel := _channel self; policy := p; _stub := _stub self;
     enclave_signing_key := enclave_signing_key self;
     simulation_mode := simulation_mode self;
     _disable_untrusted_server_cert_check := _disable_untrusted_server_cert_check self;
     attestation := attestation self; server_version := server_version self;
     client_info := client_info self; closed := closed self |}.

Definition set_server_version (self : t) (v : option string) : t :=
  {| _channel := _channel self; policy := policy self; _stub := _stub self;
     enclave_signing_key := enclave_signing_key self;
     simulation_mode := simulation_mode self;
     _disable_untrusted_server_cert_check := _disable_untrusted_server_cert_check self;
     attestation := attestation self; server_version := v;
     client_info := client_info self; closed := closed self |}.

Definition set_attestation (self : t) (a : option GetSgxQuoteWithCollateralReply) : t :=
  {| _channel := _channel self; policy := policy self; _stub := _stub self;
     enclave_signing_key := enclave_signing_key self;
     simulation_mode := simulation_mode self;
     _disable_untrusted_server_cert_check := _disable_untrusted_server_cert_check self;
     attestation := a; server_version := server_version self;
     client_info := client_info self; closed := closed self |}.

Definition set_client_info (self : t) (ci : option ClientInfo) : t :=
  {| _channel := _channel self; policy := policy self; _stub := _stub self;
     enclave_signing_key := enclave_signing_key self;
     simulation_mode := simulation_mode self;
     _disable_untrusted_server_cert_check := _disable_untrusted_server_cert_check self;
     attestation := attestation self; server_version := server_version self;
     client_info := ci; closed := closed self |}.

(** The last three assignments of a successful bootstrap. *)
Definition set_attested (self : t) (key : Ed25519PublicKey) (channel : Channel) : t :=
  {| _channel := Some channel; policy := policy self; _stub := Some channel;
     enclave_signing_key := Some key;
     simulation_mode := simulation_mode self;
     _disable_untrusted_server_cert_check := _disable_untrusted_server_cert_check self;
     attestation := attestation self; server_version := server_version self;
     client_info := client_info self; closed := closed self |}.

(** [open(path, "rb").read()] and [Policy.from_file(path)] on an optional
    path: [None] is a type error. *)
Definition path_required (path : option string) : result string :=
  match path with
  | Some p => Ok p
  | None => Raise (TypeError "expected str, bytes or os.PathLike object, not NoneType")
  end.

Definition open_and_read (path : option string) : M bytes :=
  p <- lift (path_required path) ;;
  emit (EvFileRead p) ;;;
  lift (read_file p).

Definition load_policy (path : option string) : M Policy :=
  p <- lift (path_required path) ;;
  emit (EvPolicyFile p) ;;;
  lift (Policy_from_file p).

Definition secure_channel_with (target : string) (root_certificates : bytes)
    (server_name : string) : M Channel :=
  secure_channel target.

(** The part of [_connect_server] before the [try]: the policy is loaded
    (hardware mode) and the credentials of the discovery channel are
    obtained, from the server itself in simulation mode, from the
    certificate file otherwise. *)
Definition discovery_credentials (self : t) (addr : string)
    (policy_arg certificate : option string) (untrusted_port : Z) : M (t * bytes) :=
  self <-
    (if negb (simulation_mode self) then
       p <- load_policy policy_arg ;; ret (set_policy self (Some p))
     else ret self) ;;
  untrusted_server_creds <-
    (if _disable_untrusted_server_cert_check self then
       emit (EvWarning "Untrusted server certificate check bypassed") ;;;
       try_except
         (emit (EvTlsCertificateFetch addr untrusted_port) ;;;
          cert <- lift (ssl_get_server_certificate addr untrusted_port) ;;
          ret (list_byte_of_string cert))
         (fun e =>
            if is_RpcError e then
              Some (raise (ConnectionError (check_rpc_exception e)))
            else if is_SocketError e then
              Some (raise (ConnectionError (check_socket_exception e)))
            else None)
     else open_and_read certificate) ;;
  ret (self, untrusted_server_creds).

(** The [try] block of [_connect_server] with its [except RpcError]
    clause.  The discovery channel is opened first; the handler closes the
    channel the variable [channel] names. *)
Definition attested_handshake (self : t)
    (untrusted_client_to_enclave attested_client_to_enclave : string)
    (untrusted_server_creds : bytes) (server_name : string) : M t :=
  channel <- secure_channel_with untrusted_client_to_enclave untrusted_server_creds
               server_name ;;
  try_except
    (let stub := Some channel in
     version <- stub_call stub GetServerInfo
                  (reply_GetServerInfo untrusted_client_to_enclave) ;;
     let self := set_server_version self (Some version) in
     if negb (supported_server_version version) then raise version_error
     else
       self_cert <-
         (if simulation_mode self then
            emit (EvWarning
                    "Attestation process is bypassed: running without requesting and checking attestation") ;;;
            cert <- stub_call stub GetCertificate
                      (reply_GetCertificate untrusted_client_to_enclave) ;;
            ret (self, encode_certificate cert)
          else
            att <- stub_call stub GetSgxQuoteWithCollateral
                     (reply_GetSgxQuoteWithCollateral untrusted_client_to_enclave) ;;
            let self := set_attestation self (Some att) in
            emit (EvQuoteVerification att) ;;;
            claims <- lift (verify_dcap_attestation (quote att) (collateral att)
                              (enclave_held_data att)) ;;
            lift (verify_claims claims (policy self)) ;;;
            ret (self, get_server_cert claims)) ;;
       let self := fst self_cert in
       let server_cert := snd self_cert in
       channel_close channel ;;;
       key <- lift (get_enclave_signing_key server_cert) ;;
       channel <- secure_channel_with attested_client_to_enclave server_cert
                    server_name ;;
       ret (set_attested self key channel))
    (fun e =>
       if is_RpcError e then
         Some (channel_close channel ;;;
               raise (ConnectionError (check_rpc_exception e)))
       else None).

Definition _connect_server (self : t) (addr server_name : string)
    (policy_arg certificate : option string) (simulation : bool)
    (untrusted_port attested_port : Z) : M t :=
  let self := set_mode self simulation in
  let addr := strip_https addr in
  let untrusted_client_to_enclave := (addr ++ ":" ++ str_of_port untrusted_port)%string in
  let attested_client_to_enclave := (addr ++ ":" ++ str_of_port attested_port)%string in
  prepared <- discovery_credentials self addr policy_arg certificate untrusted_port ;;
  attested_handshake (fst prepared) untrusted_client_to_enclave
    attested_client_to_enclave (snd prepared) server_name.

Definition __init__ (addr server_name : string)
    (policy_arg certificate : option string) (simulation : bool)
    (untrusted_port attested_port : Z) : M t :=
  let self := set_client_info new (Some this_client) in
  _connect_server self addr server_name policy_arg certificate simulation
    untrusted_port attested_port.

(** [connect] forwards its arguments to the constructor. *)
Definition connect := __init__.

Definition upload_model_body (self : t)
    (args : string * bool * upload_arguments) : M UploadModelResponse.t :=
  let '(model, sign, rest) := args in
  data_response <-
    try_except
      (data <- open_and_read (Some model) ;;
       response <- stub_call (_stub self) SendModel (reply_SendModel data sign rest) ;;
       ret (data, response))
      rpc_to_connection_error ;;
  let data := fst data_response in
  let response := snd data_response in
  (* Response Verification *)
  pb <- lift (parse_payload (Some (reply_payload response))) ;;
  let payload := send_model_payload pb in
  let res :=
    {| UploadModelResponse.base := SignedResponse.new;
       UploadModelResponse.model_id := Some (smp_model_id payload) |} in
  if sign then
    let res :=
      {| UploadModelResponse.base :=
           {| SignedResponse.payload := Some (reply_payload response);
              SignedResponse.signature := Some (reply_signature response);
              SignedResponse.attestation := attestation self |};
         UploadModelResponse.model_id := UploadModelResponse.model_id res |} in
    UploadModelResponse.validate res (sha256_digest data) None None false
      (enclave_signing_key self) (simulation_mode self) ;;;
    ret res
  else ret res.

Definition upload_model := raise_exception_if_conn_closed upload_model_body.

(** [torch] is a local name of [run_model], bound by [import torch] only
    when [is_torch_installed()] holds; without torch, reading it raises
    [UnboundLocalError]. *)
Definition torch_unbound : exn :=
  OtherError "UnboundLocalError" "local variable 'torch' referenced before assignment".

(** The tests at the head of [run_model]'s [try], for tensors given as
    lists.  [tensors[0]] comes first and fails on an empty list.  For a
    flat list [type(tensors[0]) != list] holds and
    [isinstance(tensors[0], torch.Tensor)] is evaluated; for a list of
    lists the first test fails and [isinstance(tensors, torch.Tensor)] of
    the [elif] is evaluated: either way [torch] is read.  With torch
    installed a single tensor is wrapped, together with its type and shape,
    and a list of tensors is passed on as it is (the two [elif] tests fail
    on lists). *)
Definition wrap_single_tensor (torch_installed : bool) (tensors : flat_or_nested scalar)
    (dtype : one_or_list ModelDatumType) (shape : flat_or_nested Z)
  : result (flat_or_nested scalar * one_or_list ModelDatumType * flat_or_nested Z) :=
  match tensors with
  | Flat [] => Raise index_out_of_range
  | Nested [] => Raise index_out_of_range
  | Flat xs =>
      if negb torch_installed then Raise torch_unbound
      else
        match wrap_unless_nested shape with
        | Raise e => Raise e
        | Ok sh => Ok (Nested [xs], Many (wrap_unless_list dtype), Nested sh)
        end
  | Nested _ =>
      if negb torch_installed then Raise torch_unbound
      else Ok (tensors, dtype, shape)
  end.

(** [run_model] on tensors given as lists.  [if is_torch_installed():
    import torch] binds the local name [torch] or leaves it unbound, which
    the tests that follow depend on. *)
Definition run_model_body (self : t)
    (args : string * flat_or_nested scalar * one_or_list ModelDatumType
            * flat_or_nested Z * bool) : M RunModelResponse.t :=
  let '(model_id, tensors, dtype, shape, sign) := args in
  wrapped_response <-
    try_except
      (wrapped <- lift (wrap_single_tensor is_torch_installed tensors dtype shape) ;;
       let '(tensors, dtype, shape) := wrapped in
       response <- stub_call (_stub self) RunModel
                     (reply_RunModel model_id tensors dtype shape sign) ;;
       ret (wrapped, response))
      rpc_to_connection_error ;;
  let '(tensors, dtype, shape) := fst wrapped_response in
  RunModelResponse.__init__ tensors dtype shape (snd wrapped_response) sign
    (attestation self) (enclave_signing_key self) (simulation_mode self).

Definition run_model := raise_exception_if_conn_closed run_model_body.

Definition delete_model_body (self : t) (model_id : string) : M DeleteModelResponse :=
  try_except
    (stub_call (_stub self) DeleteModel (reply_DeleteModel model_id))
    rpc_to_connection_error ;;;
  ret DeleteModelResponse_new.

Definition delete_model := raise_exception_if_conn_closed delete_model_body.

Definition close (self : t) : M t :=
  if negb (closed self) then
    match _channel self with
    | None => raise (none_has_no_attribute "close")
    | Some c =>
        channel_close c ;;;
        ret {| _channel := None; policy := None; _stub := None;
               enclave_signing_key := enclave_signing_key self;
               simulation_mode := simulation_mode self;
               _disable_untrusted_server_cert_check :=
                 _disable_untrusted_server_cert_check self;
               attestation := attestation self; server_version := None;
               client_info := client_info self; closed := true |}
    end
  else ret self.

Definition __enter__ (self : t) : M t := ret self.

Definition __exit__ (self : t) : M t := close self.

End Session.
End BlindAiConnection.

(** ** Notions used in the statements *)

Definition is_verification (ev : event) : bool :=
  match ev with EvVerify _ _ _ => true | _ => false end.

(** The signature checks a log records. *)
Definition verifications (t : trace) : list event := filter is_verification t.

(** The last step of [UploadModelResponse.validate]. *)
Definition upload_input_validation (model_hash : bytes) (pb : PbPayload) : result unit :=
  if bytes_eqb model_hash (smp_model_hash (send_model_payload pb)) then Ok tt
  else Raise (SignatureError "Invalid returned model_hash").

(** The last step of [RunModelResponse.validate], given the digest of the
    caller's tensors (or the exception its computation raised). *)
Definition run_input_validation (model_id : string) (pb : PbPayload)
    (digest : result bytes) : result unit :=
  match digest with
  | Raise e => Raise e
  | Ok d =>
      if bytes_eqb d (rmp_input_hash (run_model_payload pb)) then
        if String.eqb model_id (rmp_model_id (run_model_payload pb)) then Ok tt
        else Raise (SignatureError "Invalid returned model_id")
      else Raise (SignatureError "Invalid returned input_hash")
  end.

Definition typed_failure_or_success {A} (res : result A) : Prop :=
  match res with
  | Ok _ => True
  | Raise e => in_taxonomy e = true
  end.

Section ValidationNotions.
Context `{External}.

(** The checks of [validate] other than the simulation gate, for a
    response in simulation mode: it is signed, its payload decodes, and the
    content descriptor matches. *)
Definition upload_other_checks (r : SignedResponse.t) (model_hash : bytes) : result unit :=
  if SignedResponse.is_signed r then
    match parse_payload (SignedResponse.payload r) with
    | Ok pb => upload_input_validation model_hash pb
    | Raise e => Raise e
    end
  else Raise (SignatureError "Response is not signed").

Definition run_other_checks (r : SignedResponse.t) (model_id : string)
    (tensors : flat_or_nested scalar) (dtype : one_or_list ModelDatumType)
    (shape : flat_or_nested Z) : result unit :=
  if SignedResponse.is_signed r then
    match parse_payload (SignedResponse.payload r) with
    | Ok pb =>
        run_input_validation model_id pb
          (RunModelResponse.input_digest tensors dtype shape)
    | Raise e => Raise e
    end
  else Raise (SignatureError "Response is not signed").

(** The policy the quote is validated against when [validate_quote] is
    set: the one loaded from [policy_file] when a file is named, the
    [policy] argument otherwise. *)
Definition policy_for_quote (policy_file : option string) (policy : option Policy)
  : result (option Policy) :=
  match policy_file with
  | Some f =>
      match Policy_from_file f with
      | Ok p => Ok (Some p)
      | Raise e => Raise e
      end
  | None => Ok policy
  end.

(** The log entry of loading it. *)
Definition policy_file_read (policy_file : option string) : trace :=
  match policy_file with
  | Some f => [EvPolicyFile f]
  | None => []
  end.

(** The key the verifier's three calls give for an attestation and a
    policy, or the first exception among them. *)
Definition key_of_quote (att : GetSgxQuoteWithCollateralReply) (policy : option Policy)
  : result Ed25519PublicKey :=
  match verify_dcap_attestation (quote att) (collateral att) (enclave_held_data att) with
  | Raise e => Raise e
  | Ok claims =>
      match verify_claims claims policy with
      | Raise e => Raise e
      | Ok _ => get_enclave_signing_key (get_server_cert claims)
      end
  end.

End ValidationNotions.

(** What [load_from_bytes] stores when the bytes are those of [as_bytes]:
    every attribute is set, an absent one to the empty value. *)
Definition reloaded (r : SignedResponse.t) : SignedResponse.t :=
  {| SignedResponse.payload :=
       Some (match SignedResponse.payload r with Some p => p | None => [] end);
     SignedResponse.signature :=
       Some (match SignedResponse.signature r with Some s => s | None => [] end);
     SignedResponse.attestation :=
       Some (match SignedResponse.attestation r with
             | Some a => a
             | None => attestation_default
             end) |}.

(** The discovery channel's handle: the number of channels opened before. *)
Definition next_channel (t : trace) : Channel := List.length (filter is_open_event t).

(** The channels a log leaves open: opened, and not closed since. *)
Definition track_channel (opened : list Channel) (ev : event) : list Channel :=
  match ev with
  | EvChannelOpen c _ => opened ++ [c]
  | EvChannelClose c => filter (fun c' => negb (Nat.eqb c c')) opened
  | _ => opened
  end.

Definition open_channels (t : trace) : list Channel := fold_left track_channel t [].

Section SessionNotions.
Context `{Platform}.

(** What a caller can do with a session. *)
Inductive operation : Type :=
| Upload (args : string * bool * upload_arguments)
| Run (args : string * flat_or_nested scalar * one_or_list ModelDatumType
              * flat_or_nested Z * bool)
| Delete (model_id : string)
| Close.

Definition perform (self : BlindAiConnection.t) (o : operation) : M BlindAiConnection.t :=
  match o with
  | Upload args => BlindAiConnection.upload_model self args ;;; ret self
  | Run args => BlindAiConnection.run_model self args ;;; ret self
  | Delete model_id => BlindAiConnection.delete_model self model_id ;;; ret self
  | Close => BlindAiConnection.close self
  end.

(** A caller that performs the operations one after the other and goes on
    after an exception; the session and the log at the end. *)
Fixpoint perform_all (self : BlindAiConnection.t) (ops : list operation) (t : trace)
  : BlindAiConnection.t * trace :=
  match ops with
  | [] => (self, t)
  | o :: rest =>
      match perform self o t with
      | (t', Ok self') => perform_all self' rest t'
      | (t', Raise _) => perform_all self rest t'
      end
  end.

End SessionNotions.

(** ** An instance of the parameters

    The general statements hold for every [External] and [Platform].  To
    run the definitions on concrete inputs this section fixes one: messages
    are read and written in the protobuf wire format (a sequence of fields,
    each a varint tag followed by a value whose extent the wire type
    gives), and small stand-ins take the place of SHA-256, of Ed25519 and
    of the attestation verifier. *)

Module Wire.

Inductive value : Type :=
| Varint (n : N)
| Fixed64 (b : bytes)
| Len (b : bytes)
| Fixed32 (b : bytes).

Record field : Type := { number : N; content : value }.

(** A base-128 varint, least significant group first, at most [fuel] bytes. *)
Fixpoint read_varint (fuel : nat) (bs : bytes) : option (N * bytes) :=
  match fuel, bs with
  | S fuel', b :: rest =>
      let n := Byte.to_N b in
      if (n <? 128)%N then Some (n, rest)
      else
        match read_varint fuel' rest with
        | Some (hi, rest') => Some ((n - 128) + 128 * hi, rest')%N
        | None => None
        end
  | _, _ => None
  end.

Definition take (n : nat) (bs : bytes) : option (bytes * bytes) :=
  if Nat.leb n (List.length bs) then Some (firstn n bs, skipn n bs) else None.

Definition read_field (bs : bytes) : option (field * bytes) :=
  match read_varint 10 bs with
  | None => None
  | Some (tag, rest) =>
      let num := N.shiftr tag 3 in
      if (num =? 0)%N then None
      else
        match N.land tag 7 with
        | 0%N =>
            match read_varint 10 rest with
            | Some (n, rest') => Some ({| number := num; content := Varint n |}, rest')
            | None => None
            end
        | 1%N =>
            match take 8 rest with
            | Some (b, rest') => Some ({| number := num; content := Fixed64 b |}, rest')
            | None => None
            end
        | 2%N =>
            match read_varint 10 rest with
            | Some (len, rest') =>
                match take (N.to_nat len) rest' with
                | Some (b, rest'') => Some ({| number := num; content := Len b |}, rest'')
                | None => None
                end
            | None => None
            end
        | 5%N =>
            match take 4 rest with
            | Some (b, rest') => Some ({| number := num; content := Fixed32 b |}, rest')
            | None => None
            end
        | _ => None
        end
  end.

Fixpoint read_fields (fuel : nat) (bs : bytes) : option (list field) :=
  match bs with
  | [] => Some []
  | _ :: _ =>
      match fuel with
      | O => None
      | S fuel' =>
          match read_field bs with
          | None => None
          | Some (f, rest) =>
              match read_fields fuel' rest with
              | Some fs => Some (f :: fs)
              | None => None
              end
          end
      end
  end.

(** The fields of a message, or [None] when the bytes are not a sequence of
    fields (the case in which [FromString] raises [DecodeError]). *)
Definition fields (bs : bytes) : option (list field) :=
  read_fields (List.length bs) bs.

Definition byte_of_N (n : N) : byte :=
  match Byte.of_N n with Some b => b | None => x00 end.

Fixpoint write_varint (fuel : nat) (n : N) : bytes :=
  match fuel with
  | O => []
  | S fuel' =>
      if (n <? 128)%N then [byte_of_N n]
      else byte_of_N (128 + n mod 128) :: write_varint fuel' (n / 128)
  end.

Definition write_len (num : N) (b : bytes) : bytes :=
  write_varint 10 (num * 8 + 2) ++ write_varint 10 (N.of_nat (List.length b)) ++ b.

(** A bytes or string field is written only when it is not empty. *)
Definition write_bytes_field (num : N) (b : bytes) : bytes :=
  match b with [] => [] | _ => write_len num b end.

(** The last length-delimited value of field [num], empty when absent. *)
Fixpoint bytes_field (num : N) (fs : list field) (default : bytes) : bytes :=
  match fs with
  | [] => default
  | {| number := n; content := Len b |} :: rest =>
      bytes_field num rest (if (n =? num)%N then b else default)
  | _ :: rest => bytes_field num rest default
  end.

Fixpoint message_field (num : N) (fs : list field) (default : option bytes) : option bytes :=
  match fs with
  | [] => default
  | {| number := n; content := Len b |} :: rest =>
      message_field num rest (if (n =? num)%N then Some b else default)
  | _ :: rest => message_field num rest default
  end.

End Wire.

Module Demo.

(** [Payload]: field 2 is the upload payload (model hash 1, model id 3),
    field 3 the run payload (input hash 3, model id 4).  Output tensors
    are not read. *)
Definition SendModelPayload_of (b : bytes) : option SendModelPayload :=
  match Wire.fields b with
  | None => None
  | Some fs =>
      Some {| smp_model_hash := Wire.bytes_field 1 fs [];
              smp_model_id := string_of_list_byte (Wire.bytes_field 3 fs []) |}
  end.

Definition RunModelPayload_of (b : bytes) : option RunModelPayload :=
  match Wire.fields b with
  | None => None
  | Some fs =>
      Some {| rmp_output_tensors := [];
              rmp_input_hash := Wire.bytes_field 3 fs [];
              rmp_model_id := string_of_list_byte (Wire.bytes_field 4 fs []) |}
  end.

Fixpoint payload_of_fields (fs : list Wire.field) (acc : PbPayload) : option PbPayload :=
  match fs with
  | [] => Some acc
  | {| Wire.number := 2%N; Wire.content := Wire.Len b |} :: rest =>
      match SendModelPayload_of b with
      | Some p => payload_of_fields rest (PayloadSendModel p)
      | None => None
      end
  | {| Wire.number := 3%N; Wire.content := Wire.Len b |} :: rest =>
      match RunModelPayload_of b with
      | Some p => payload_of_fields rest (PayloadRunModel p)
      | None => None
      end
  | _ :: rest => payload_of_fields rest acc
  end.

Definition Payload_FromString (b : bytes) : option PbPayload :=
  match Wire.fields b with
  | None => None
  | Some fs => payload_of_fields fs PayloadUnset
  end.

Definition write_SendModelPayload (p : SendModelPayload) : bytes :=
  Wire.write_len 2
    (Wire.write_bytes_field 1 (smp_model_hash p)
     ++ Wire.write_bytes_field 3 (list_byte_of_string (smp_model_id p))).

Definition write_RunModelPayload (p : RunModelPayload) : bytes :=
  Wire.write_len 3
    (Wire.write_bytes_field 3 (rmp_input_hash p)
     ++ Wire.write_bytes_field 4 (list_byte_of_string (rmp_model_id p))).

(** [GetSgxQuoteWithCollateralReply]: collateral 1, quote 2, held data 3. *)
Definition write_attestation (a : GetSgxQuoteWithCollateralReply) : bytes :=
  Wire.write_bytes_field 1 (collateral a)
  ++ Wire.write_bytes_field 2 (quote a)
  ++ Wire.write_bytes_field 3 (enclave_held_data a).

Definition attestation_of (b : bytes) : option GetSgxQuoteWithCollateralReply :=
  match Wire.fields b with
  | None => None
  | Some fs =>
      Some {| quote := Wire.bytes_field 2 fs [];
              collateral := Wire.bytes_field 1 fs [];
              enclave_held_data := Wire.bytes_field 3 fs [] |}
  end.

(** [ResponseProof]: payload 1, signature 2, attestation 3. *)
Definition Proof_SerializeToString (m : ResponseProof) : bytes :=
  Wire.write_bytes_field 1 (proof_payload m)
  ++ Wire.write_bytes_field 2 (proof_signature m)
  ++ match proof_attestation_field m with
     | Some a => Wire.write_len 3 (write_attestation a)
     | None => []
     end.

Definition Proof_FromString (b : bytes) : option ResponseProof :=
  match Wire.fields b with
  | None => None
  | Some fs =>
      match Wire.message_field 3 fs None with
      | None =>
          Some {| proof_payload := Wire.bytes_field 1 fs [];
                  proof_signature := Wire.bytes_field 2 fs [];
                  proof_attestation_field := None |}
      | Some ab =>
          match attestation_of ab with
          | None => None
          | Some a =>
              Some {| proof_payload := Wire.bytes_field 1 fs [];
                      proof_signature := Wire.bytes_field 2 fs [];
                      proof_attestation_field := Some a |}
          end
      end
  end.

(** Stand-ins: the digest is the byte count followed by the bytes' sum
    modulo 256; a signature is accepted when it is the digest of key and
    message; the verifier accepts a quote that is not empty and reads the
    certificate from the held data; the key is the certificate. *)
Definition digest (b : bytes) : bytes :=
  [ Wire.byte_of_N (N.of_nat (List.length b) mod 256);
    Wire.byte_of_N (fold_left (fun s x => (s + Byte.to_N x) mod 256)%N b 0%N) ].

Definition sign (key : Ed25519PublicKey) (message : bytes) : bytes :=
  digest (raw_key key ++ message).

Definition verify (key : Ed25519PublicKey) (signature message : bytes) : bool :=
  bytes_eqb signature (sign key message).

Definition verify_quote (q c held : bytes) : result bytes :=
  match q with
  | [] => Raise (AttestationError "empty quote")
  | _ => Ok held
  end.

Definition serialize (tensor : list Z) (d : ModelDatumType) : result (list bytes) :=
  Ok (map (fun z => [Wire.byte_of_N (Z.to_N (z mod 256))]) tensor).

#[export] Instance external : External := {|
  Policy := string;
  Claims := bytes;
  scalar := Z;
  ed25519_verify := verify;
  sha256_digest := digest;
  Policy_from_file := fun path =>
    if String.eqb path "policy.toml" then Ok "policy" else Raise (FileNotFoundError path);
  verify_dcap_attestation := verify_quote;
  verify_claims := fun _ _ => Ok tt;
  get_server_cert := fun claims => claims;
  get_enclave_signing_key := fun cert => Ok {| raw_key := cert |};
  serialize_tensor := serialize;
  PbPayload_FromString := Payload_FromString;
  ResponseProof_SerializeToString := Proof_SerializeToString;
  ResponseProof_FromString := Proof_FromString
|}.

(** A server, by its replies; every path is a file holding its name, except
    [missing], which does not exist. *)
Record server : Type := {
  version : result string;
  certificate : result bytes;
  sgx_quote : result GetSgxQuoteWithCollateralReply;
  send_model : bytes -> bool -> result PbReply;
  run_model : string -> bool -> result PbReply;
  delete_model_reply : result unit
}.

Definition platform (srv : server) : Platform := {|
  strip_https := fun addr => addr;
  str_of_port := fun port => if (port =? 50052)%Z then "50052" else "50051";
  supported_server_version := fun v => String.prefix "0.5." v;
  encode_certificate := fun cert => cert;
  check_rpc_exception := fun e =>
    match e with RpcError status => status | _ => "unknown" end;
  check_socket_exception := fun e =>
    match e with SocketError msg => msg | _ => "unknown" end;
  read_file := fun path =>
    if String.eqb path "missing" then Raise (FileNotFoundError path)
    else Ok (list_byte_of_string path);
  ssl_get_server_certificate := fun _ _ => Ok "certificate";
  this_client :=
    {| uid := "0f"; platform_name := "Linux"; platform_arch := "x86_64";
       platform_version := "1"; platform_release := "6";
       user_agent := "blindai_python"; user_agent_version := "0.5.0" |};
  is_torch_installed := true;
  reply_GetServerInfo := fun _ => version srv;
  reply_GetCertificate := fun _ => certificate srv;
  reply_GetSgxQuoteWithCollateral := fun _ => sgx_quote srv;
  upload_arguments := unit;
  reply_SendModel := fun data sign _ => send_model srv data sign;
  reply_RunModel := fun model_id _ _ _ sign => run_model srv model_id sign;
  reply_DeleteModel := fun _ => delete_model_reply srv
|}.

(** The enclave of the examples: its key, its attestation, and the replies
    it signs. *)
Definition key : Ed25519PublicKey := {| raw_key := [x4b; x45; x59] |}.

Definition evidence : GetSgxQuoteWithCollateralReply :=
  {| quote := [x51]; collateral := []; enclave_held_data := raw_key key |}.

Definition model_file : string := "model.onnx".
Definition model_hash : bytes := digest (list_byte_of_string model_file).

Definition upload_payload : bytes :=
  write_SendModelPayload {| smp_model_hash := model_hash; smp_model_id := "m1" |}.

Definition input : flat_or_nested Z := Flat [1; 2; 3; 4]%Z.
Definition input_hash : bytes := digest [x01; x02; x03; x04].

Definition run_payload : bytes :=
  write_RunModelPayload
    {| rmp_output_tensors := []; rmp_input_hash := input_hash; rmp_model_id := "m1" |}.

Definition signed_reply (payload : bytes) : PbReply :=
  {| reply_payload := payload; reply_signature := sign key payload |}.

Definition enclave (reported_version : string) : server :=
  {| version := Ok reported_version;
     certificate := Ok (raw_key key);
     sgx_quote := Ok evidence;
     send_model := fun _ _ => Ok (signed_reply upload_payload);
     run_model := fun _ _ => Ok (signed_reply run_payload);
     delete_model_reply := Ok tt |}.

(** Saved responses: attested, and from a simulation-mode session. *)
Definition attested_upload : SignedResponse.t :=
  {| SignedResponse.payload := Some upload_payload;
     SignedResponse.signature := Some (sign key upload_payload);
     SignedResponse.attestation := Some evidence |}.

Definition simulated_upload : SignedResponse.t :=
  {| SignedResponse.payload := Some upload_payload;
     SignedResponse.signature := Some (sign key upload_payload);
     SignedResponse.attestation := None |}.

Definition attested_run : SignedResponse.t :=
  {| SignedResponse.payload := Some run_payload;
     SignedResponse.signature := Some (sign key run_payload);
     SignedResponse.attestation := Some evidence |}.

Definition simulated_run : SignedResponse.t :=
  {| SignedResponse.payload := Some run_payload;
     SignedResponse.signature := Some (sign key run_payload);
     SignedResponse.attestation := None |}.

Definition as_upload (r : SignedResponse.t) : UploadModelResponse.t :=
  {| UploadModelResponse.base := r; UploadModelResponse.model_id := Some "m1" |}.

Definition as_run (r : SignedResponse.t) : RunModelResponse.t :=
  {| RunModelResponse.base := r;
     RunModelResponse.output_tensors := Some [];
     RunModelResponse.model_id := Some "m1" |}.

(** One byte of a payload changed. *)
Fixpoint set_byte (i : nat) (b : byte) (bs : bytes) : bytes :=
  match bs, i with
  | [], _ => []
  | _ :: rest, O => b :: rest
  | x :: rest, S i' => x :: set_byte i' b rest
  end.

(** The number of positions at which two byte strings differ. *)
Fixpoint differences (a b : bytes) : nat :=
  match a, b with
  | x :: a', y :: b' => (if Byte.eqb x y then 0 else 1) + differences a' b'
  | [], [] => 0
  | [], rest => List.length rest
  | rest, [] => List.length rest
  end.

(** The upload payload with its second byte, the length of the enclosed
    message, changed from 8 to 127: the field now announces more bytes
    than follow, which is the encoding of no message, whatever the
    schema. *)
Definition tampered_payload : bytes := set_byte 1 x7f upload_payload.

Definition tampered_upload : SignedResponse.t :=
  {| SignedResponse.payload := Some tampered_payload;
     SignedResponse.signature := Some (sign key upload_payload);
     SignedResponse.attestation := Some evidence |}.

(** Sessions: one bootstrapped in hardware mode, and the same after
    [close]. *)
Definition open_session (srv : server) : @BlindAiConnection.t external :=
  {| BlindAiConnection._channel := Some 1;
     BlindAiConnection.policy := Some "policy";
     BlindAiConnection._stub := Some 1;
     BlindAiConnection.enclave_signing_key := Some key;
     BlindAiConnection.simulation_mode := false;
     BlindAiConnection._disable_untrusted_server_cert_check := false;
     BlindAiConnection.attestation := Some evidence;
     BlindAiConnection.server_version := Some "0.5.0";
     BlindAiConnection.client_info := Some (@this_client external (platform srv));
     BlindAiConnection.closed := false |}.

Definition closed_session (srv : server) : @BlindAiConnection.t external :=
  {| BlindAiConnection._channel := None;
     BlindAiConnection.policy := None;
     BlindAiConnection._stub := None;
     BlindAiConnection.enclave_signing_key := Some key;
     BlindAiConnection.simulation_mode := false;
     BlindAiConnection._disable_untrusted_server_cert_check := false;
     BlindAiConnection.attestation := Some evidence;
     BlindAiConnection.server_version := None;
     BlindAiConnection.client_info := Some (@this_client external (platform srv));
     BlindAiConnection.closed := true |}.

(** Servers that make the bootstrap fail: one whose first call fails in
    the transport, one that reports a version the client does not know,
    and one whose quote is empty. *)
Definition unreachable : server :=
  {| version := Raise (RpcError "UNAVAILABLE");
     certificate := Raise (RpcError "UNAVAILABLE");
     sgx_quote := Raise (RpcError "UNAVAILABLE");
     send_model := fun _ _ => Raise (RpcError "UNAVAILABLE");
     run_model := fun _ _ => Raise (RpcError "UNAVAILABLE");
     delete_model_reply := Raise (RpcError "UNAVAILABLE") |}.

Definition outdated : server := enclave "9.9.9".

Definition rogue : server :=
  {| version := Ok "0.5.0";
     certificate := Ok (raw_key key);
     sgx_quote := Ok {| quote := []; collateral := []; enclave_held_data := [] |};
     send_model := fun _ _ => Ok (signed_reply upload_payload);
     run_model := fun _ _ => Ok (signed_reply run_payload);
     delete_model_reply := Ok tt |}.

(** A response that was not signed, as [upload_model] returns it when
    [sign] is false, with the payload kept. *)
Definition unsigned_upload : SignedResponse.t :=
  {| SignedResponse.payload := Some upload_payload;
     SignedResponse.signature := None;
     SignedResponse.attestation := Some evidence |}.

End Demo.

(** ** Responses saved to files

    [save_to_file] and [load_from_file] go through the file system, which
    is passed along: what each path holds, and which paths can be opened
    for writing. *)

Record file_system : Type := {
  content : string -> option bytes;
  can_write : string -> bool
}.

Definition write_file (fs : file_system) (path : string) (data : bytes) : file_system :=
  {| content := fun p => if String.eqb p path then Some data else content fs p;
     can_write := can_write fs |}.

Module Files.

Section Methods.
Context `{External}.

(** [with open(path, mode="wb") as file: file.write(self.as_bytes())] *)
Definition save_to_file (self : SignedResponse.t) (path : string) (fs : file_system)
  : file_system * result unit :=
  if can_write fs path then (write_file fs path (SignedResponse.as_bytes self), Ok tt)
  else (fs, Raise (OtherError "OSError" path)).


(** The same method on an [UploadModelResponse], whose [_load_payload]
    reads the model id. *)
Definition upload_load_from_file (self : UploadModelResponse.t) (path : string)
    (fs : file_system) : result UploadModelResponse.t :=
  match content fs path with
  | None => Raise (FileNotFoundError path)
  | Some b => UploadModelResponse.load_from_bytes self b
  end.

End Methods.
End Files.

(** ** [_get_input_output_tensors]

    The helper takes what the caller of [upload_model] passed and works on
    it with [is None], [type(x) != list], indexing and [enumerate], so its
    arguments are Python values: [None], integers, datum types, lists and
    tuples.  The constructor of the generated [TensorInfo] message is a
    parameter; it may reject its arguments. *)

Module Requests.

#[warnings="-register-all"]
Inductive pyval : Type :=
| PyNone
| PyInt (z : Z)
| PyDatum (d : ModelDatumType)
| PyList (items : list pyval)
| PyTuple (items : list pyval).

Definition is_None (x : pyval) : bool :=
  match x with PyNone => true | _ => false end.

(** [type(x) == list] *)
Definition is_list (x : pyval) : bool :=
  match x with PyList _ => true | _ => false end.

Definition not_subscriptable : exn := TypeError "object is not subscriptable".
Definition not_iterable : exn := TypeError "object is not iterable".

(** [x[i]] *)
Definition getitem (x : pyval) (i : nat) : result pyval :=
  match x with
  | PyList items | PyTuple items =>
      match nth_error items i with
      | Some v => Ok v
      | None => Raise index_out_of_range
      end
  | _ => Raise not_subscriptable
  end.

(** The items [for ... in x] goes through. *)
Definition iter (x : pyval) : result (list pyval) :=
  match x with
  | PyList items | PyTuple items => Ok items
  | _ => Raise not_iterable
  end.

Section Builder.
Variable TensorInfoMessage : Type.

(** [PbTensorInfo(dims=.., datum_type=.., index=..)]; [dims] is absent for
    an output. *)
Variable PbTensorInfo_new : option pyval -> pyval -> nat -> result TensorInfoMessage.

(** [for i, tensor_input in enumerate(tensor_inputs):
       inputs.append(PbTensorInfo(dims=tensor_input[0],
                                  datum_type=tensor_input[1], index=i))] *)
Fixpoint build_inputs (items : list pyval) (i : nat) : result (list TensorInfoMessage) :=
  match items with
  | [] => Ok []
  | tensor_input :: rest =>
      match getitem tensor_input 0 with
      | Raise e => Raise e
      | Ok dims =>
          match getitem tensor_input 1 with
          | Raise e => Raise e
          | Ok datum_type =>
              match PbTensorInfo_new (Some dims) datum_type i with
              | Raise e => Raise e
              | Ok info =>
                  match build_inputs rest (S i) with
                  | Raise e => Raise e
                  | Ok more => Ok (info :: more)
                  end
              end
          end
      end
  end.

(** [for i, tensor_output in enumerate(tensor_outputs):
       outputs.append(PbTensorInfo(datum_type=tensor_output[0], index=i))] *)
Fixpoint build_outputs (items : list pyval) (i : nat) : result (list TensorInfoMessage) :=
  match items with
  | [] => Ok []
  | tensor_output :: rest =>
      match getitem tensor_output 0 with
      | Raise e => Raise e
      | Ok datum_type =>
          match PbTensorInfo_new None datum_type i with
          | Raise e => Raise e
          | Ok info =>
              match build_outputs rest (S i) with
              | Raise e => Raise e
              | Ok more => Ok (info :: more)
              end
          end
      end
  end.

(** [if type(x[0]) != list: x = [x]] *)
Definition wrap_unless_first_is_list (x : pyval) : result pyval :=
  match getitem x 0 with
  | Raise e => Raise e
  | Ok first => Ok (if negb (is_list first) then PyList [x] else x)
  end.

Definition _get_input_output_tensors (tensor_inputs tensor_outputs shape datum_type
    dtype_out : pyval) : result (list TensorInfoMessage * list TensorInfoMessage) :=
  let defaulted := is_None tensor_inputs || is_None tensor_outputs in
  let tensor_inputs :=
    if defaulted then PyList [shape; datum_type] else tensor_inputs in
  let tensor_outputs :=
    if defaulted then PyList [dtype_out] else tensor_outputs in
  match wrap_unless_first_is_list tensor_inputs with
  | Raise e => Raise e
  | Ok tensor_inputs =>
      match wrap_unless_first_is_list tensor_outputs with
      | Raise e => Raise e
      | Ok tensor_outputs =>
          match iter tensor_inputs with
          | Raise e => Raise e
          | Ok input_items =>
              match build_inputs input_items 0 with
              | Raise e => Raise e
              | Ok inputs =>
                  match iter tensor_outputs with
                  | Raise e => Raise e
                  | Ok output_items =>
                      match build_outputs output_items 0 with
                      | Raise e => Raise e
                      | Ok outputs => Ok (inputs, outputs)
                      end
                  end
              end
          end
      end
  end.

End Builder.
End Requests.

(** ** [convert_dt]

    The function looks at [tensor[0]] and at the [dtype] of
    [tensor[0][0]].  [tensor[0]] is a Python float, a Python int, a row of a
    torch tensor of two or more dimensions (its first element has a
    [dtype]), or an element of a torch tensor of one dimension (a tensor of
    dimension zero, which cannot be indexed); an empty argument has no
    [tensor[0]].  The [torch] module is taken as installed.  The result is
    a datum type or [None]. *)

Module Torch.

Inductive dtype : Type :=
| float16 | bfloat16 | float32 | float64
| uint8 | int8 | int16 | int32 | int64
| bool_ | complex64 | complex128.

Definition dtype_eqb (a b : dtype) : bool :=
  match a, b with
  | float16, float16 | bfloat16, bfloat16 | float32, float32 | float64, float64
  | uint8, uint8 | int8, int8 | int16, int16 | int32, int32 | int64, int64
  | bool_, bool_ | complex64, complex64 | complex128, complex128 => true
  | _, _ => false
  end.

Inductive first_item : Type :=
| PythonFloat
| PythonInt
| Row (d : dtype)
| ZeroDim (d : dtype).

Inductive argument : Type :=
| Empty
| FirstIs (x : first_item).

(** [tensor[0]] *)
Definition first (tensor : argument) : result first_item :=
  match tensor with
  | Empty => Raise index_out_of_range
  | FirstIs x => Ok x
  end.

(** [isinstance(tensor[0], float)] and [isinstance(tensor[0], int)] *)
Definition is_float (x : first_item) : bool :=
  match x with PythonFloat => true | _ => false end.

Definition is_int (x : first_item) : bool :=
  match x with PythonInt => true | _ => false end.

(** [tensor[0][0].dtype] *)
Definition first_dtype (x : first_item) : result dtype :=
  match x with
  | PythonFloat => Raise (TypeError "'float' object is not subscriptable")
  | PythonInt => Raise (TypeError "'int' object is not subscriptable")
  | Row d => Ok d
  | ZeroDim _ => Raise (IndexError "invalid index of a 0-dim tensor")
  end.

(** [a or b], with [b] evaluated only when [a] is false. *)
Definition or_else (a : bool) (b : result bool) : result bool :=
  if a then Ok true else b.

Definition dtype_is (x : first_item) (d : dtype) : result bool :=
  match first_dtype x with
  | Raise e => Raise e
  | Ok d' => Ok (dtype_eqb d' d)
  end.

Definition convert_dt (tensor : argument) : result (option ModelDatumType) :=
  match first tensor with
  | Raise e => Raise e
  | Ok x =>
      match or_else (is_float x) (dtype_is x float32) with
      | Raise e => Raise e
      | Ok true => Ok (Some F32)
      | Ok false =>
          match dtype_is x float64 with
          | Raise e => Raise e
          | Ok true => Ok (Some F64)
          | Ok false =>
              match or_else (is_int x) (dtype_is x int32) with
              | Raise e => Raise e
              | Ok true => Ok (Some I32)
              | Ok false =>
                  match dtype_is x int64 with
                  | Raise e => Raise e
                  | Ok true => Ok (Some I64)
                  | Ok false =>
                      match dtype_is x uint8 with
                      | Raise e => Raise e
                      | Ok true => Ok (Some U8)
                      | Ok false =>
                          match dtype_is x int16 with
                          | Raise e => Raise e
                          | Ok true => Ok (Some I16)
                          | Ok false => Ok None
                          end
                      end
                  end
              end
          end
      end
  end.

End Torch.

(** ** Further examples

    A session as a simulation-mode bootstrap returns it, a server whose
    replies carry a signature that verifies under no key, a file system
    that holds nothing yet and has one directory that cannot be written
    to, and a [TensorInfo] constructor that records its arguments. *)

Module Scenario.

Definition simulation_session (srv : Demo.server) : @BlindAiConnection.t Demo.external :=
  {| BlindAiConnection._channel := Some 1;
     BlindAiConnection.policy := None;
     BlindAiConnection._stub := Some 1;
     BlindAiConnection.enclave_signing_key := Some Demo.key;
     BlindAiConnection.simulation_mode := true;
     BlindAiConnection._disable_untrusted_server_cert_check := true;
     BlindAiConnection.attestation := None;
     BlindAiConnection.server_version := Some "0.5.0";
     BlindAiConnection.client_info :=
       Some (@this_client Demo.external (Demo.platform srv));
     BlindAiConnection.closed := false |}.

Definition forged_reply : PbReply :=
  {| reply_payload := Demo.upload_payload; reply_signature := [x00] |}.

Definition forging : Demo.server :=
  {| Demo.version := Ok "0.5.0";
     Demo.certificate := Ok (raw_key Demo.key);
     Demo.sgx_quote := Ok Demo.evidence;
     Demo.send_model := fun _ _ => Ok forged_reply;
     Demo.run_model := fun _ _ => Ok (Demo.signed_reply Demo.run_payload);
     Demo.delete_model_reply := Ok tt |}.

(** The platform of the examples on a machine where torch is not
    installed. *)
Definition without_torch (srv : Demo.server) : @Platform Demo.external :=
  let installed := Demo.platform srv in
  {| strip_https := @strip_https _ installed;
     str_of_port := @str_of_port _ installed;
     supported_server_version := @supported_server_version _ installed;
     encode_certificate := @encode_certificate _ installed;
     check_rpc_exception := @check_rpc_exception _ installed;
     check_socket_exception := @check_socket_exception _ installed;
     read_file := @read_file _ installed;
     ssl_get_server_certificate := @ssl_get_server_certificate _ installed;
     this_client := @this_client _ installed;
     is_torch_installed := false;
     reply_GetServerInfo := @reply_GetServerInfo _ installed;
     reply_GetCertificate := @reply_GetCertificate _ installed;
     reply_GetSgxQuoteWithCollateral := @reply_GetSgxQuoteWithCollateral _ installed;
     upload_arguments := @upload_arguments _ installed;
     reply_SendModel := @reply_SendModel _ installed;
     reply_RunModel := @reply_RunModel _ installed;
     reply_DeleteModel := @reply_DeleteModel _ installed |}.

Definition disk : file_system :=
  {| content := fun _ => None;
     can_write := fun path => negb (String.prefix "/proc/" path) |}.

Definition TensorInfoMessage : Type := (option Requests.pyval * Requests.pyval * nat)%type.

Definition PbTensorInfo_new (dims : option Requests.pyval) (datum_type : Requests.pyval)
    (index : nat) : result TensorInfoMessage :=
  Ok (dims, datum_type, index).

End Scenario.

(** ** Further notions used in the statements *)

(** A computation that never lets a transport exception out. *)
Definition never_RpcError {A} (m : M A) : Prop :=
  forall (t : trace) (status : string), snd (m t) <> Raise (RpcError status).

Section BootstrapNotions.
Context `{Platform}.

(** What a session looks like when [connect] has returned it. *)
Definition bootstrapped (simulation : bool) (s : BlindAiConnection.t) : Prop :=
  BlindAiConnection.closed s = false
  /\ (exists c, BlindAiConnection._channel s = Some c
                /\ BlindAiConnection._stub s = Some c)
  /\ BlindAiConnection.simulation_mode s = simulation
  /\ (BlindAiConnection.attestation s = None <-> simulation = true)
  /\ (exists key, BlindAiConnection.enclave_signing_key s = Some key)
  /\ (simulation = false -> exists p, BlindAiConnection.policy s = Some p)
  /\ (exists v, BlindAiConnection.server_version s = Some v
                /\ supported_server_version v = true).

End BootstrapNotions.

(** ** Proof tools: unfolding the monad *)

Ltac run_steps :=
  unfold bind, lift, ret, raise, emit, verify_signature, parse_payload; simpl.

Ltac run_handshake :=
  unfold BlindAiConnection.attested_handshake, BlindAiConnection.secure_channel_with,
    secure_channel, try_except, bind, BlindAiConnection.stub_call, emit, lift,
    raise, ret, channel_close; simpl.

Ltac run_operation :=
  unfold BlindAiConnection.upload_model, BlindAiConnection.run_model,
    BlindAiConnection.delete_model, BlindAiConnection.raise_exception_if_conn_closed,
    BlindAiConnection.upload_model_body, BlindAiConnection.run_model_body,
    BlindAiConnection.delete_model_body, BlindAiConnection.open_and_read,
    BlindAiConnection.path_required, BlindAiConnection.stub_call,
    BlindAiConnection.rpc_to_connection_error, try_except, bind, lift, emit, ret,
    raise; simpl.

Ltac run_bootstrap :=
  unfold BlindAiConnection.connect, BlindAiConnection.__init__,
    BlindAiConnection._connect_server, BlindAiConnection.discovery_credentials,
    BlindAiConnection.load_policy, BlindAiConnection.open_and_read,
    BlindAiConnection.path_required;
  run_handshake.

(** * Properties *)

(** ** Bytes *)

Lemma bytes_eqb_refl (a : bytes) : bytes_eqb a a = true.
Proof.
  induction a as [|x a IH]; simpl; [reflexivity|].
  rewrite IH, andb_true_r. apply Byte.byte_dec_lb. reflexivity.
Qed.



(** ** The monad *)

Lemma bind_assoc {A B C} (m : M A) (f : A -> M B) (g : B -> M C) (t : trace) :
  bind (bind m f) g t = bind m (fun a => bind (f a) g) t.
Proof.
  unfold bind. destruct (m t) as [t' [a|e]]; reflexivity.
Qed.

Lemma bind_run {A B} (m : M A) (f : A -> M B) (t t' : trace) (a : A) :
  m t = (t', Ok a) -> bind m f t = f a t'.
Proof. intros E. unfold bind. rewrite E. reflexivity. Qed.

Lemma bind_raise {A B} (m : M A) (f : A -> M B) (t t' : trace) (e : exn) :
  m t = (t', Raise e) -> bind m f t = (t', Raise e).
Proof. intros E. unfold bind. rewrite E. reflexivity. Qed.

Section ValidationFacts.
Context `{External}.

Lemma key_resolution_supplied simulation att policy_file policy key t :
  key_resolution simulation false att policy_file policy key t = (t, Ok key).
Proof.
  unfold key_resolution, resolve_policy, resolve_signing_key, bind.
  rewrite andb_false_r. reflexivity.
Qed.

(** What is left of [UploadModelResponse.validate] once the two gates are
    passed: the key is resolved, the payload decoded, the signature checked
    and the model hash compared. *)
Lemma upload_validate_unfold (self : UploadModelResponse.t) model_hash policy_file
    policy validate_quote key allow t :
  let r := UploadModelResponse.base self in
  SignedResponse.is_signed r = true ->
  negb allow && SignedResponse.is_simulation_mode r = false ->
  UploadModelResponse.validate self model_hash policy_file policy validate_quote key allow t =
  bind (key_resolution (SignedResponse.is_simulation_mode r) validate_quote
          (SignedResponse.attestation r) policy_file policy key)
       (fun key =>
          pb <- lift (parse_payload (SignedResponse.payload r)) ;;
          (if negb (SignedResponse.is_simulation_mode r) then
             verify_signature key (SignedResponse.signature r) (SignedResponse.payload r)
           else ret tt) ;;;
          if negb (bytes_eqb model_hash (smp_model_hash (send_model_payload pb))) then
            raise (SignatureError "Invalid returned model_hash")
          else ret tt) t.
Proof.
  intros r Hs Hg. unfold UploadModelResponse.validate. fold r.
  rewrite Hs, Hg. simpl negb. cbv iota.
  unfold key_resolution. rewrite bind_assoc. reflexivity.
Qed.

Lemma run_validate_unfold (self : RunModelResponse.t) model_id tensors dtype shape
    policy_file policy validate_quote key allow t :
  let r := RunModelResponse.base self in
  SignedResponse.is_signed r = true ->
  negb allow && SignedResponse.is_simulation_mode r = false ->
  RunModelResponse.validate self model_id tensors dtype shape policy_file policy
    validate_quote key allow t =
  bind (key_resolution (SignedResponse.is_simulation_mode r) validate_quote
          (SignedResponse.attestation r) policy_file policy key)
       (fun key =>
          pb <- lift (parse_payload (SignedResponse.payload r)) ;;
          (if negb (SignedResponse.is_simulation_mode r) then
             verify_signature key (SignedResponse.signature r) (SignedResponse.payload r)
           else ret tt) ;;;
          digest <- lift (RunModelResponse.input_digest tensors dtype shape) ;;
          if negb (bytes_eqb digest (rmp_input_hash (run_model_payload pb))) then
            raise (SignatureError "Invalid returned input_hash")
          else if negb (String.eqb model_id (rmp_model_id (run_model_payload pb))) then
            raise (SignatureError "Invalid returned model_id")
          else ret tt) t.
Proof.
  intros r Hs Hg. unfold RunModelResponse.validate. fold r.
  rewrite Hs, Hg. simpl negb. cbv iota.
  unfold key_resolution. rewrite bind_assoc. reflexivity.
Qed.

End ValidationFacts.

Section SignatureStep.
Context `{External}.

(** The signature step of [UploadModelResponse.validate], once the key is
    resolved and the payload decoded. *)
Lemma upload_signature_step (self : UploadModelResponse.t) model_hash policy_file
    policy validate_quote key_arg allow t t1 k sig att bs pb :
  let r := UploadModelResponse.base self in
  SignedResponse.signature r = Some sig ->
  SignedResponse.attestation r = Some att ->
  SignedResponse.payload r = Some bs ->
  PbPayload_FromString bs = Some pb ->
  key_resolution false validate_quote (Some att) policy_file policy key_arg t
    = (t1, Ok (Some k)) ->
  UploadModelResponse.validate self model_hash policy_file policy validate_quote
    key_arg allow t =
  (t1 ++ [EvVerify k sig bs],
   if ed25519_verify k sig bs then
     if bytes_eqb model_hash (smp_model_hash (send_model_payload pb)) then Ok tt
     else Raise (SignatureError "Invalid returned model_hash")
   else Raise (SignatureError "Invalid signature")).
Proof.
  intros r Hsig Hatt Hpay Hdec Hkey.
  rewrite upload_validate_unfold.
  - fold r. unfold SignedResponse.is_simulation_mode. rewrite Hatt, Hsig, Hpay.
    rewrite (bind_run _ _ _ Hkey). run_steps. rewrite Hdec.
    destruct (ed25519_verify k sig bs); [|reflexivity].
    destruct (bytes_eqb model_hash _); reflexivity.
  - fold r. unfold SignedResponse.is_signed. rewrite Hsig. reflexivity.
  - fold r. unfold SignedResponse.is_simulation_mode. rewrite Hatt.
    apply andb_false_r.
Qed.

Lemma run_signature_step (self : RunModelResponse.t) model_id tensors dtype shape
    policy_file policy validate_quote key_arg allow t t1 k sig att bs pb :
  let r := RunModelResponse.base self in
  SignedResponse.signature r = Some sig ->
  SignedResponse.attestation r = Some att ->
  SignedResponse.payload r = Some bs ->
  PbPayload_FromString bs = Some pb ->
  key_resolution false validate_quote (Some att) policy_file policy key_arg t
    = (t1, Ok (Some k)) ->
  RunModelResponse.validate self model_id tensors dtype shape policy_file policy
    validate_quote key_arg allow t =
  (t1 ++ [EvVerify k sig bs],
   if ed25519_verify k sig bs then
     run_input_validation model_id pb (RunModelResponse.input_digest tensors dtype shape)
   else Raise (SignatureError "Invalid signature")).
Proof.
  intros r Hsig Hatt Hpay Hdec Hkey.
  rewrite run_validate_unfold.
  - fold r. unfold SignedResponse.is_simulation_mode. rewrite Hatt, Hsig, Hpay.
    rewrite (bind_run _ _ _ Hkey). run_steps. rewrite Hdec.
    destruct (ed25519_verify k sig bs); [|reflexivity].
    unfold run_input_validation.
    destruct (RunModelResponse.input_digest tensors dtype shape) as [d|e]; [|reflexivity].
    destruct (bytes_eqb d _); [|reflexivity].
    destruct (String.eqb model_id _); reflexivity.
  - fold r. unfold SignedResponse.is_signed. rewrite Hsig. reflexivity.
  - fold r. unfold SignedResponse.is_simulation_mode. rewrite Hatt.
    apply andb_false_r.
Qed.

(** In simulation mode [validate] calls nothing outside: the log is left
    as it was, whatever the arguments. *)
Lemma upload_simulation_log (self : UploadModelResponse.t) model_hash policy_file
    policy validate_quote key allow t :
  SignedResponse.is_simulation_mode (UploadModelResponse.base self) = true ->
  fst (UploadModelResponse.validate self model_hash policy_file policy
         validate_quote key allow t) = t.
Proof.
  intros Hsim. unfold UploadModelResponse.validate. rewrite Hsim.
  destruct (SignedResponse.is_signed _); simpl; [|reflexivity].
  destruct allow; simpl; [|reflexivity].
  run_steps.
  destruct (SignedResponse.payload _) as [bs|]; [|reflexivity].
  destruct (PbPayload_FromString bs) as [pb|]; [|reflexivity].
  simpl. destruct (bytes_eqb model_hash _); reflexivity.
Qed.

Lemma run_simulation_log (self : RunModelResponse.t) model_id tensors dtype shape
    policy_file policy validate_quote key allow t :
  SignedResponse.is_simulation_mode (RunModelResponse.base self) = true ->
  fst (RunModelResponse.validate self model_id tensors dtype shape policy_file
         policy validate_quote key allow t) = t.
Proof.
  intros Hsim. unfold RunModelResponse.validate. rewrite Hsim.
  destruct (SignedResponse.is_signed _); simpl; [|reflexivity].
  destruct allow; simpl; [|reflexivity].
  run_steps.
  destruct (SignedResponse.payload _) as [bs|]; [|reflexivity].
  destruct (PbPayload_FromString bs) as [pb|]; [|reflexivity].
  simpl.
  destruct (RunModelResponse.input_digest tensors dtype shape) as [d|e]; [|reflexivity].
  destruct (bytes_eqb d _); [|reflexivity].
  destruct (String.eqb model_id _); reflexivity.
Qed.

End SignatureStep.


(** ** The simulation gate *)

Section SimulationGate.
Context `{External}.

(** C3. A response without attestation ([is_simulation_mode()] true) is
    refused by [validate] with a [SignatureError] when
    [allow_simulation_mode] is false, for uploads and for runs alike.  With
    [allow_simulation_mode] true the gate lets it through: the outcome is
    that of the other checks, and [validate] returns as soon as they pass
    (the response is signed, its payload decodes, and the content
    descriptor computed from the caller's data is the one in the
    payload). *)
Theorem validate_simulation_gate (r : SignedResponse.t)
    (policy_file : option string) (policy : option Policy) (validate_quote : bool)
    (key : option Ed25519PublicKey) (t : trace) :
  SignedResponse.is_simulation_mode r = true ->
  (forall (self : UploadModelResponse.t) (model_hash : bytes),
     UploadModelResponse.base self = r ->
     (exists msg,
        UploadModelResponse.validate self model_hash policy_file policy
          validate_quote key false t = (t, Raise (SignatureError msg)))
     /\ UploadModelResponse.validate self model_hash policy_file policy
          validate_quote key true t = (t, upload_other_checks r model_hash)
     /\ (forall sig bs pb,
           SignedResponse.signature r = Some sig ->
           SignedResponse.payload r = Some bs ->
           PbPayload_FromString bs = Some pb ->
           model_hash = smp_model_hash (send_model_payload pb) ->
           UploadModelResponse.validate self model_hash policy_file policy
             validate_quote key true t = (t, Ok tt)))
  /\
  (forall (self : RunModelResponse.t) (model_id : string)
          (tensors : flat_or_nested scalar) (dtype : one_or_list ModelDatumType)
          (shape : flat_or_nested Z),
     RunModelResponse.base self = r ->
     (exists msg,
        RunModelResponse.validate self model_id tensors dtype shape policy_file
          policy validate_quote key false t = (t, Raise (SignatureError msg)))
     /\ RunModelResponse.validate self model_id tensors dtype shape policy_file
          policy validate_quote key true t
        = (t, run_other_checks r model_id tensors dtype shape)
     /\ (forall sig bs pb,
           SignedResponse.signature r = Some sig ->
           SignedResponse.payload r = Some bs ->
           PbPayload_FromString bs = Some pb ->
           RunModelResponse.input_digest tensors dtype shape
             = Ok (rmp_input_hash (run_model_payload pb)) ->
           model_id = rmp_model_id (run_model_payload pb) ->
           RunModelResponse.validate self model_id tensors dtype shape policy_file
             policy validate_quote key true t = (t, Ok tt))).
Proof.
  intros Hsim.
  assert (Hup : forall (self : UploadModelResponse.t) model_hash,
             UploadModelResponse.base self = r ->
             UploadModelResponse.validate self model_hash policy_file policy
               validate_quote key true t = (t, upload_other_checks r model_hash)).
  { intros self model_hash Hb. subst r.
    unfold UploadModelResponse.validate, upload_other_checks. rewrite Hsim.
    destruct (SignedResponse.is_signed _); simpl; [|reflexivity].
    run_steps.
    destruct (SignedResponse.payload _) as [bs|]; [|reflexivity].
    destruct (PbPayload_FromString bs) as [pb|]; [|reflexivity].
    simpl. unfold upload_input_validation.
    destruct (bytes_eqb model_hash _); reflexivity. }
  assert (Hrun : forall (self : RunModelResponse.t) model_id tensors dtype shape,
             RunModelResponse.base self = r ->
             RunModelResponse.validate self model_id tensors dtype shape policy_file
               policy validate_quote key true t
             = (t, run_other_checks r model_id tensors dtype shape)).
  { intros self model_id tensors dtype shape Hb. subst r.
    unfold RunModelResponse.validate, run_other_checks. rewrite Hsim.
    destruct (SignedResponse.is_signed _); simpl; [|reflexivity].
    run_steps.
    destruct (SignedResponse.payload _) as [bs|]; [|reflexivity].
    destruct (PbPayload_FromString bs) as [pb|]; [|reflexivity].
    simpl. unfold run_input_validation.
    destruct (RunModelResponse.input_digest tensors dtype shape) as [d|e];
      [|reflexivity].
    destruct (bytes_eqb d _); [|reflexivity].
    destruct (String.eqb model_id _); reflexivity. }
  split.
  - intros self model_hash Hb. split; [|split].
    + subst r. unfold UploadModelResponse.validate. rewrite Hsim.
      destruct (SignedResponse.is_signed _); simpl; unfold raise; eauto.
    + apply Hup, Hb.
    + intros sig bs pb Hsig Hpay Hdec ->. rewrite (Hup _ _ Hb).
      unfold upload_other_checks, SignedResponse.is_signed, parse_payload,
        upload_input_validation.
      rewrite Hsig, Hpay, Hdec, bytes_eqb_refl. reflexivity.
  - intros self model_id tensors dtype shape Hb. split; [|split].
    + subst r. unfold RunModelResponse.validate. rewrite Hsim.
      destruct (SignedResponse.is_signed _); simpl; unfold raise; eauto.
    + apply Hrun, Hb.
    + intros sig bs pb Hsig Hpay Hdec Hdig ->. rewrite (Hrun _ _ _ _ _ Hb).
      unfold run_other_checks, SignedResponse.is_signed, parse_payload,
        run_input_validation.
      rewrite Hsig, Hpay, Hdec, Hdig, bytes_eqb_refl, String.eqb_refl. reflexivity.
Qed.

End SimulationGate.

(** ** The signature check *)

Section SignatureCheck.
Context `{External}.

(** A payload that does not decode stops [validate] before the signature
    is looked at: the decoder's error is what the caller gets. *)
Lemma upload_undecodable_payload (self : UploadModelResponse.t) model_hash
    policy_file policy validate_quote key_arg allow t t1 key sig bs :
  let r := UploadModelResponse.base self in
  SignedResponse.signature r = Some sig ->
  negb allow && SignedResponse.is_simulation_mode r = false ->
  SignedResponse.payload r = Some bs ->
  PbPayload_FromString bs = None ->
  key_resolution (SignedResponse.is_simulation_mode r) validate_quote
    (SignedResponse.attestation r) policy_file policy key_arg t = (t1, Ok key) ->
  UploadModelResponse.validate self model_hash policy_file policy validate_quote
    key_arg allow t = (t1, Raise decode_error).
Proof.
  intros r Hsig Hgate Hpay Hdec Hkey.
  rewrite upload_validate_unfold; fold r; auto.
  - rewrite (bind_run _ _ _ Hkey). run_steps. rewrite Hpay, Hdec. reflexivity.
  - unfold SignedResponse.is_signed. rewrite Hsig. reflexivity.
Qed.

Lemma run_undecodable_payload (self : RunModelResponse.t) model_id tensors dtype
    shape policy_file policy validate_quote key_arg allow t t1 key sig bs :
  let r := RunModelResponse.base self in
  SignedResponse.signature r = Some sig ->
  negb allow && SignedResponse.is_simulation_mode r = false ->
  SignedResponse.payload r = Some bs ->
  PbPayload_FromString bs = None ->
  key_resolution (SignedResponse.is_simulation_mode r) validate_quote
    (SignedResponse.attestation r) policy_file policy key_arg t = (t1, Ok key) ->
  RunModelResponse.validate self model_id tensors dtype shape policy_file policy
    validate_quote key_arg allow t = (t1, Raise decode_error).
Proof.
  intros r Hsig Hgate Hpay Hdec Hkey.
  rewrite run_validate_unfold; fold r; auto.
  - rewrite (bind_run _ _ _ Hkey). run_steps. rewrite Hpay, Hdec. reflexivity.
  - unfold SignedResponse.is_signed. rewrite Hsig. reflexivity.
Qed.

(** C1, as amended.  Take a signed response with an attestation (not in
    simulation mode) whose payload decodes, and let the key be resolved
    (supplied by the caller when [validate_quote] is false, returned by the
    quote validation otherwise).  Then [validate] checks the signature over
    the raw payload bytes with that key, exactly once, and raises
    [SignatureError("Invalid signature")] when the check fails, before the
    content descriptor is looked at; when the check passes that error is
    not raised.  In simulation mode no signature check is made. *)
Theorem validate_signature_check :
  (forall (r : SignedResponse.t) sig att bs pb policy_file policy validate_quote
          key_arg allow t t1 k,
     SignedResponse.signature r = Some sig ->
     SignedResponse.attestation r = Some att ->
     SignedResponse.payload r = Some bs ->
     PbPayload_FromString bs = Some pb ->
     key_resolution false validate_quote (Some att) policy_file policy key_arg t
       = (t1, Ok (Some k)) ->
     (forall (self : UploadModelResponse.t) model_hash,
        UploadModelResponse.base self = r ->
        let res := UploadModelResponse.validate self model_hash policy_file policy
                     validate_quote key_arg allow t in
        fst res = t1 ++ [EvVerify k sig bs]
        /\ (ed25519_verify k sig bs = false ->
            snd res = Raise (SignatureError "Invalid signature"))
        /\ (ed25519_verify k sig bs = true ->
            snd res = upload_input_validation model_hash pb))
     /\
     (forall (self : RunModelResponse.t) model_id tensors dtype shape,
        RunModelResponse.base self = r ->
        let res := RunModelResponse.validate self model_id tensors dtype shape
                     policy_file policy validate_quote key_arg allow t in
        fst res = t1 ++ [EvVerify k sig bs]
        /\ (ed25519_verify k sig bs = false ->
            snd res = Raise (SignatureError "Invalid signature"))
        /\ (ed25519_verify k sig bs = true ->
            snd res = run_input_validation model_id pb
                        (RunModelResponse.input_digest tensors dtype shape))))
  /\
  (forall (r : SignedResponse.t) policy_file policy validate_quote key_arg allow t,
     SignedResponse.is_simulation_mode r = true ->
     (forall (self : UploadModelResponse.t) model_hash,
        UploadModelResponse.base self = r ->
        verifications
          (fst (UploadModelResponse.validate self model_hash policy_file policy
                  validate_quote key_arg allow t)) = verifications t)
     /\
     (forall (self : RunModelResponse.t) model_id tensors dtype shape,
        RunModelResponse.base self = r ->
        verifications
          (fst (RunModelResponse.validate self model_id tensors dtype shape
                  policy_file policy validate_quote key_arg allow t))
        = verifications t)).
Proof.
  split.
  - intros r sig att bs pb policy_file policy validate_quote key_arg allow t t1 k
      Hsig Hatt Hpay Hdec Hkey.
    split.
    + intros self model_hash Hb res. subst r res.
      rewrite (upload_signature_step self model_hash policy_file policy
                 validate_quote key_arg allow t Hsig Hatt Hpay Hdec Hkey).
      simpl. unfold upload_input_validation.
      split; [reflexivity|]. split; intros ->; reflexivity.
    + intros self model_id tensors dtype shape Hb res. subst r res.
      rewrite (run_signature_step self model_id tensors dtype shape policy_file
                 policy validate_quote key_arg allow t Hsig Hatt Hpay Hdec Hkey).
      simpl. split; [reflexivity|]. split; intros ->; reflexivity.
  - intros r policy_file policy validate_quote key_arg allow t Hsim. split.
    + intros self model_hash Hb. subst r. rewrite upload_simulation_log; auto.
    + intros self model_id tensors dtype shape Hb. subst r.
      rewrite run_simulation_log; auto.
Qed.

End SignatureCheck.

(** ** Content binding *)

Section ContentBinding.
Context `{External}.

Lemma fold_hash_update (chunks : list bytes) (h : bytes) :
  fold_left RunModelResponse.hash_update chunks h = h ++ List.concat chunks.
Proof.
  revert h. induction chunks as [|c chunks IH]; intros h; simpl.
  - now rewrite app_nil_r.
  - rewrite IH. unfold RunModelResponse.hash_update. now rewrite <- app_assoc.
Qed.

(** Feeding the hash tensor by tensor, chunk by chunk, hashes the
    concatenation of the chunk sequence. *)
Lemma hash_tensors_chunks (tensors : list (list scalar)) (dtype : list ModelDatumType) :
  forall (i : nat) (h h' : bytes),
    RunModelResponse.hash_tensors tensors dtype i h = Ok h' ->
    exists chunks,
      RunModelResponse.chunk_sequence tensors dtype i = Ok chunks
      /\ h' = h ++ List.concat chunks.
Proof.
  induction tensors as [|tensor rest IH]; intros i h h'; simpl.
  - intros E. injection E as <-. exists []. simpl. now rewrite app_nil_r.
  - destruct (nth_error dtype i) as [d|]; [|discriminate].
    destruct (serialize_tensor tensor d) as [chunks|e]; [|discriminate].
    intros E. apply IH in E. destruct E as [more [Hmore ->]].
    rewrite Hmore. exists (chunks ++ more). split; [reflexivity|].
    rewrite fold_hash_update, List.concat_app. now rewrite app_assoc.
Qed.

Lemma input_digest_chunks tensors dtype shape (digest : bytes) :
  RunModelResponse.input_digest tensors dtype shape = Ok digest ->
  exists tensors' chunks,
    wrap_unless_nested tensors = Ok tensors'
    /\ RunModelResponse.chunk_sequence tensors' (wrap_unless_list dtype) 0 = Ok chunks
    /\ digest = sha256_digest (List.concat chunks).
Proof.
  unfold RunModelResponse.input_digest.
  destruct (wrap_unless_nested tensors) as [tensors'|e]; [|discriminate].
  destruct (wrap_unless_nested shape) as [shape'|e]; [|discriminate].
  destruct (RunModelResponse.hash_tensors tensors' (wrap_unless_list dtype) 0 [])
    as [h|e] eqn:E; [|discriminate].
  intros E'. injection E' as <-.
  apply hash_tensors_chunks in E. destruct E as [chunks [Hc ->]].
  exists tensors', chunks. auto.
Qed.




(** The shape argument of [RunModelResponse.validate] is only looked at to
    tell one shape from a list of shapes: it is not part of the digest, and
    two shapes that are not empty give the same validation. *)
Lemma validate_ignores_shape (self : RunModelResponse.t) model_id tensors dtype
    (shape1 shape2 : flat_or_nested Z) shapes1 shapes2 policy_file policy
    validate_quote key allow t :
  wrap_unless_nested shape1 = Ok shapes1 ->
  wrap_unless_nested shape2 = Ok shapes2 ->
  RunModelResponse.validate self model_id tensors dtype shape1 policy_file policy
    validate_quote key allow t
  = RunModelResponse.validate self model_id tensors dtype shape2 policy_file policy
      validate_quote key allow t.
Proof.
  intros H1 H2.
  assert (E : RunModelResponse.input_digest tensors dtype shape1
              = RunModelResponse.input_digest tensors dtype shape2).
  { unfold RunModelResponse.input_digest. now rewrite H1, H2. }
  unfold RunModelResponse.validate. now rewrite E.
Qed.

End ContentBinding.

(** ** The signing key as a precondition *)

Section SigningKey.
Context `{External}.

(** The two steps that resolve the key when the quote is validated. *)
Lemma key_resolution_quote (att : GetSgxQuoteWithCollateralReply) policy_file policy
    key_arg (t : trace) :
  key_resolution false true (Some att) policy_file policy key_arg t
  = match policy_for_quote policy_file policy with
    | Raise e => (t ++ policy_file_read policy_file, Raise e)
    | Ok p =>
        ((t ++ policy_file_read policy_file) ++ [EvQuoteVerification att],
         match key_of_quote att p with
         | Ok k => Ok (Some k)
         | Raise e => Raise e
         end)
    end.
Proof.
  unfold key_resolution, resolve_policy, resolve_signing_key, _validate_quote,
    policy_for_quote, policy_file_read, key_of_quote, bind, emit, lift, ret.
  simpl. destruct policy_file as [f|]; simpl.
  - destruct (Policy_from_file f) as [p|e]; simpl; [|reflexivity].
    destruct (verify_dcap_attestation _ _ _) as [claims|e]; simpl; [|reflexivity].
    destruct (verify_claims claims (Some p)) as [[]|e]; simpl; [|reflexivity].
    destruct (get_enclave_signing_key _); reflexivity.
  - rewrite app_nil_r.
    destruct (verify_dcap_attestation _ _ _) as [claims|e]; simpl; [|reflexivity].
    destruct (verify_claims claims policy) as [[]|e]; simpl; [|reflexivity].
    destruct (get_enclave_signing_key _); reflexivity.
Qed.

(** C10, as amended.  Validating a response that is signed and attested with
    [validate_quote=False].  When the caller supplies the signing key, the
    signature step is total: once the payload is decoded, [validate] ends
    in success or in a [SignatureError] (for a run, provided the digest of
    the caller's tensors can be computed), both typed outcomes.  Without a
    key [validate] fails with an exception that is no [SignatureError] and
    is outside the taxonomy of the specification; when the payload decodes
    it is the [AttributeError] of calling [verify] on [None].  With
    [validate_quote=True] the key the caller supplies plays no part.  The
    policy is the one loaded from [policy_file] when a file is named and
    the [policy] argument otherwise; a failure of the loader, of the
    verifier on the attestation, of the check of the claims against that
    policy or of the key extraction is raised as it is, before the payload
    is decoded; and when they succeed [validate] goes on as it does with
    [validate_quote=False] and the key of the quote. *)
Theorem validate_signing_key_precondition (r : SignedResponse.t) sig att
    policy_file policy allow t :
  SignedResponse.signature r = Some sig ->
  SignedResponse.attestation r = Some att ->
  (forall k bs pb,
     SignedResponse.payload r = Some bs ->
     PbPayload_FromString bs = Some pb ->
     (forall (self : UploadModelResponse.t) model_hash,
        UploadModelResponse.base self = r ->
        let res := snd (UploadModelResponse.validate self model_hash policy_file
                          policy false (Some k) allow t) in
        typed_failure_or_success res
        /\ (res = Ok tt \/ exists msg, res = Raise (SignatureError msg)))
     /\
     (forall (self : RunModelResponse.t) model_id tensors dtype shape digest,
        RunModelResponse.base self = r ->
        RunModelResponse.input_digest tensors dtype shape = Ok digest ->
        let res := snd (RunModelResponse.validate self model_id tensors dtype shape
                          policy_file policy false (Some k) allow t) in
        typed_failure_or_success res
        /\ (res = Ok tt \/ exists msg, res = Raise (SignatureError msg))))
  /\
  (forall (self : UploadModelResponse.t) model_hash,
     UploadModelResponse.base self = r ->
     exists e,
       UploadModelResponse.validate self model_hash policy_file policy false None
         allow t = (t, Raise e)
       /\ is_SignatureError e = false /\ in_taxonomy e = false
       /\ (forall bs pb,
             SignedResponse.payload r = Some bs ->
             PbPayload_FromString bs = Some pb ->
             e = none_has_no_attribute "verify"))
  /\
  (forall (self : RunModelResponse.t) model_id tensors dtype shape,
     RunModelResponse.base self = r ->
     exists e,
       RunModelResponse.validate self model_id tensors dtype shape policy_file
         policy false None allow t = (t, Raise e)
       /\ is_SignatureError e = false /\ in_taxonomy e = false
       /\ (forall bs pb,
             SignedResponse.payload r = Some bs ->
             PbPayload_FromString bs = Some pb ->
             e = none_has_no_attribute "verify"))
  /\
  (forall key1 key2,
     (forall (self : UploadModelResponse.t) model_hash,
        UploadModelResponse.base self = r ->
        UploadModelResponse.validate self model_hash policy_file policy true key1
          allow t
        = UploadModelResponse.validate self model_hash policy_file policy true key2
            allow t)
     /\
     (forall (self : RunModelResponse.t) model_id tensors dtype shape,
        RunModelResponse.base self = r ->
        RunModelResponse.validate self model_id tensors dtype shape policy_file
          policy true key1 allow t
        = RunModelResponse.validate self model_id tensors dtype shape policy_file
            policy true key2 allow t))
  /\
  (forall key_arg,
     let t1 := t ++ policy_file_read policy_file in
     let t2 := t1 ++ [EvQuoteVerification att] in
     (forall (self : UploadModelResponse.t) model_hash,
        UploadModelResponse.base self = r ->
        let res := UploadModelResponse.validate self model_hash policy_file policy
                     true key_arg allow t in
        match policy_for_quote policy_file policy with
        | Raise e => res = (t1, Raise e)
        | Ok p =>
            match key_of_quote att p with
            | Raise e => res = (t2, Raise e)
            | Ok k =>
                res = UploadModelResponse.validate self model_hash policy_file
                        policy false (Some k) allow t2
            end
        end)
     /\
     (forall (self : RunModelResponse.t) model_id tensors dtype shape,
        RunModelResponse.base self = r ->
        let res := RunModelResponse.validate self model_id tensors dtype shape
                     policy_file policy true key_arg allow t in
        match policy_for_quote policy_file policy with
        | Raise e => res = (t1, Raise e)
        | Ok p =>
            match key_of_quote att p with
            | Raise e => res = (t2, Raise e)
            | Ok k =>
                res = RunModelResponse.validate self model_id tensors dtype shape
                        policy_file policy false (Some k) allow t2
            end
        end)).
Proof.
  intros Hsig Hatt.
  assert (Hsigned : SignedResponse.is_signed r = true)
    by (unfold SignedResponse.is_signed; now rewrite Hsig).
  assert (Hsim : SignedResponse.is_simulation_mode r = false)
    by (unfold SignedResponse.is_simulation_mode; now rewrite Hatt).
  assert (Hgate : negb allow && SignedResponse.is_simulation_mode r = false)
    by (rewrite Hsim; apply andb_false_r).
  assert (Hquote : forall key1 key2 t',
             key_resolution (SignedResponse.is_simulation_mode r) true
               (SignedResponse.attestation r) policy_file policy key1 t'
             = key_resolution (SignedResponse.is_simulation_mode r) true
                 (SignedResponse.attestation r) policy_file policy key2 t').
  { intros key1 key2 t'. unfold key_resolution, resolve_signing_key.
    rewrite Hsim. reflexivity. }
  split; [|split; [|split; [|split]]].
  4: {
    intros key1 key2. split.
    - intros self model_hash Hb. subst r.
      rewrite !upload_validate_unfold; auto.
      unfold bind. now rewrite (Hquote key1 key2).
    - intros self model_id tensors dtype shape Hb. subst r.
      rewrite !run_validate_unfold; auto.
      unfold bind. now rewrite (Hquote key1 key2). }
  4: {
    intros key_arg t1 t2. split.
    - intros self model_hash Hb res. subst r res.
      destruct (policy_for_quote policy_file policy) as [p|e] eqn:Hp;
        [destruct (key_of_quote att p) as [k|e] eqn:Hk|];
        rewrite !upload_validate_unfold; auto;
        try rewrite (bind_run _ _ _ (key_resolution_supplied _ _ _ _ _ _));
        unfold bind; rewrite Hsim, Hatt, key_resolution_quote, Hp; try rewrite Hk;
        reflexivity.
    - intros self model_id tensors dtype shape Hb res. subst r res.
      destruct (policy_for_quote policy_file policy) as [p|e] eqn:Hp;
        [destruct (key_of_quote att p) as [k|e] eqn:Hk|];
        rewrite !run_validate_unfold; auto;
        try rewrite (bind_run _ _ _ (key_resolution_supplied _ _ _ _ _ _));
        unfold bind; rewrite Hsim, Hatt, key_resolution_quote, Hp; try rewrite Hk;
        reflexivity. }
  - intros k bs pb Hpay Hdec. split.
    + intros self model_hash Hb res. subst r res.
      rewrite (upload_signature_step self model_hash policy_file policy false
                 (Some k) allow t Hsig Hatt Hpay Hdec
                 (key_resolution_supplied _ _ _ _ _ _)).
      simpl. destruct (ed25519_verify k sig bs).
      * destruct (bytes_eqb model_hash _); simpl; eauto.
      * simpl; eauto.
    + intros self model_id tensors dtype shape digest Hb Hdig res. subst r res.
      rewrite (run_signature_step self model_id tensors dtype shape policy_file
                 policy false (Some k) allow t Hsig Hatt Hpay Hdec
                 (key_resolution_supplied _ _ _ _ _ _)).
      simpl. rewrite Hdig. unfold run_input_validation.
      destruct (ed25519_verify k sig bs).
      * destruct (bytes_eqb digest _); [|simpl; eauto].
        destruct (String.eqb model_id _); simpl; eauto.
      * simpl; eauto.
  - intros self model_hash Hb. subst r.
    rewrite upload_validate_unfold; auto.
    rewrite (bind_run _ _ _ (key_resolution_supplied _ _ _ _ _ _)).
    rewrite Hsim. run_steps.
    destruct (SignedResponse.payload _) as [bs|].
    + destruct (PbPayload_FromString bs) as [pb|] eqn:Hdec.
      * eexists. split; [reflexivity|]. repeat split; reflexivity.
      * eexists. split; [reflexivity|]. repeat split; try reflexivity.
        intros bs' pb' E. injection E as <-. congruence.
    + eexists. split; [reflexivity|]. repeat split; try reflexivity.
      intros bs' pb' E. discriminate.
  - intros self model_id tensors dtype shape Hb. subst r.
    rewrite run_validate_unfold; auto.
    rewrite (bind_run _ _ _ (key_resolution_supplied _ _ _ _ _ _)).
    rewrite Hsim. run_steps.
    destruct (SignedResponse.payload _) as [bs|].
    + destruct (PbPayload_FromString bs) as [pb|] eqn:Hdec.
      * eexists. split; [reflexivity|]. repeat split; reflexivity.
      * eexists. split; [reflexivity|]. repeat split; try reflexivity.
        intros bs' pb' E. injection E as <-. congruence.
    + eexists. split; [reflexivity|]. repeat split; try reflexivity.
      intros bs' pb' E. discriminate.
Qed.

End SigningKey.

(** ** The session: closed state *)

Section ClosedSession.
Context `{Platform}.

Lemma decorated_closed {Args A : Type} (f : BlindAiConnection.t -> Args -> M A)
    (self : BlindAiConnection.t) (args : Args) (t : trace) :
  BlindAiConnection.closed self = true ->
  BlindAiConnection.raise_exception_if_conn_closed f self args t
  = (t, Raise closed_connection_error).
Proof.
  intros Hc. unfold BlindAiConnection.raise_exception_if_conn_closed.
  rewrite Hc. reflexivity.
Qed.

Lemma decorated_open {Args A : Type} (f : BlindAiConnection.t -> Args -> M A)
    (self : BlindAiConnection.t) (args : Args) (t : trace) :
  BlindAiConnection.closed self = false ->
  BlindAiConnection.raise_exception_if_conn_closed f self args t = f self args t.
Proof.
  intros Hc. unfold BlindAiConnection.raise_exception_if_conn_closed.
  rewrite Hc. reflexivity.
Qed.

Lemma close_closed (self : BlindAiConnection.t) (t : trace) :
  BlindAiConnection.closed self = true ->
  BlindAiConnection.close self t = (t, Ok self).
Proof.
  intros Hc. unfold BlindAiConnection.close. rewrite Hc. reflexivity.
Qed.

Lemma perform_closed (self : BlindAiConnection.t) (o : operation) (t : trace) :
  BlindAiConnection.closed self = true ->
  perform self o t = (t, Ok self)
  \/ perform self o t = (t, Raise closed_connection_error).
Proof.
  intros Hc. destruct o as [args|args|model_id|]; simpl.
  - right. unfold BlindAiConnection.upload_model, bind.
    now rewrite decorated_closed.
  - right. unfold BlindAiConnection.run_model, bind.
    now rewrite decorated_closed.
  - right. unfold BlindAiConnection.delete_model, bind.
    now rewrite decorated_closed.
  - left. now apply close_closed.
Qed.

(** C4, as amended.  On a closed session [upload_model], [run_model] and
    [delete_model] raise [ValueError("Illegal operation on closed
    connection.")] and leave the log as it was: nothing is sent on a
    channel.  The closed state is terminal: whatever operations follow, and
    in whatever order, the session stays as it is, closed, and the log does
    not grow. *)
Theorem closed_session_rejects_operations (self : BlindAiConnection.t) :
  BlindAiConnection.closed self = true ->
  (forall args t,
     BlindAiConnection.upload_model self args t = (t, Raise closed_connection_error))
  /\ (forall args t,
        BlindAiConnection.run_model self args t = (t, Raise closed_connection_error))
  /\ (forall model_id t,
        BlindAiConnection.delete_model self model_id t
        = (t, Raise closed_connection_error))
  /\ (forall ops t, perform_all self ops t = (self, t))
  /\ class_name closed_connection_error = "ValueError".
Proof.
  intros Hc. repeat split.
  - intros args t. now apply decorated_closed.
  - intros args t. now apply decorated_closed.
  - intros model_id t. now apply decorated_closed.
  - intros ops. induction ops as [|o ops IH]; intros t; simpl; [reflexivity|].
    destruct (perform_closed self o t Hc) as [E|E]; rewrite E; apply IH.
Qed.

(** C5, as amended.  [close] on a closed session returns without a call
    and without a change.  On an open session that holds a channel it
    closes that channel, drops the handle and the stub, clears the policy
    and the server version and marks the session closed; a second [close]
    is then a no-op. *)
Theorem close_releases_channel_and_policy (self : BlindAiConnection.t)
    (c : Channel) (t : trace) :
  BlindAiConnection.closed self = false ->
  BlindAiConnection._channel self = Some c ->
  exists self',
    BlindAiConnection.close self t = (t ++ [EvChannelClose c], Ok self')
    /\ BlindAiConnection.closed self' = true
    /\ BlindAiConnection._channel self' = None
    /\ BlindAiConnection._stub self' = None
    /\ BlindAiConnection.policy self' = None
    /\ BlindAiConnection.server_version self' = None
    /\ (forall t', BlindAiConnection.close self' t' = (t', Ok self'))
    /\ open_channels (t ++ [EvChannelClose c])
       = filter (fun c' => negb (Nat.eqb c c')) (open_channels t).
Proof.
  intros Hc Hch. eexists. split.
  - unfold BlindAiConnection.close. rewrite Hc, Hch. simpl.
    unfold bind, channel_close, emit, ret. reflexivity.
  - simpl. repeat split.
    unfold open_channels. rewrite fold_left_app. reflexivity.
Qed.

End ClosedSession.

(** ** The bootstrap *)

Section Bootstrap.
Context `{Platform}.

Lemma handshake_unsupported_version (self : BlindAiConnection.t)
    (untrusted attested : string) (creds : bytes) (server_name version : string)
    (t : trace) :
  reply_GetServerInfo untrusted = Ok version ->
  supported_server_version version = false ->
  BlindAiConnection.attested_handshake self untrusted attested creds server_name t
  = (t ++ [EvChannelOpen (next_channel t) untrusted;
           EvRpc (next_channel t) GetServerInfo],
     Raise version_error).
Proof.
  intros Hreply Hver. run_handshake. rewrite Hreply, Hver. simpl.
  rewrite <- app_assoc. reflexivity.
Qed.

(** A transport failure of the first call: the handler closes the
    discovery channel before [ConnectionError] is raised. *)
Lemma handshake_rpc_failure (self : BlindAiConnection.t)
    (untrusted attested : string) (creds : bytes) (server_name status : string)
    (t : trace) :
  reply_GetServerInfo untrusted = Raise (RpcError status) ->
  BlindAiConnection.attested_handshake self untrusted attested creds server_name t
  = (t ++ [EvChannelOpen (next_channel t) untrusted;
           EvRpc (next_channel t) GetServerInfo;
           EvChannelClose (next_channel t)],
     Raise (ConnectionError (check_rpc_exception (RpcError status)))).
Proof.
  intros Hreply. run_handshake. rewrite Hreply. simpl.
  repeat rewrite <- app_assoc. reflexivity.
Qed.

(** A quote the verifier rejects, in hardware mode: the exception is not
    an [RpcError], the handler does not run. *)
Lemma handshake_attestation_failure (self : BlindAiConnection.t)
    (untrusted attested : string) (creds : bytes) (server_name version : string)
    (att : GetSgxQuoteWithCollateralReply) (e : exn) (t : trace) :
  BlindAiConnection.simulation_mode self = false ->
  reply_GetServerInfo untrusted = Ok version ->
  supported_server_version version = true ->
  reply_GetSgxQuoteWithCollateral untrusted = Ok att ->
  verify_dcap_attestation (quote att) (collateral att) (enclave_held_data att)
    = Raise e ->
  is_RpcError e = false ->
  BlindAiConnection.attested_handshake self untrusted attested creds server_name t
  = (t ++ [EvChannelOpen (next_channel t) untrusted;
           EvRpc (next_channel t) GetServerInfo;
           EvRpc (next_channel t) GetSgxQuoteWithCollateral;
           EvQuoteVerification att],
     Raise e).
Proof.
  intros Hmode Hreply Hver Hquote Hverify Hrpc. run_handshake.
  rewrite Hreply, Hver, Hmode. simpl. rewrite Hquote. simpl. rewrite Hverify, Hrpc.
  repeat rewrite <- app_assoc. reflexivity.
Qed.

Lemma open_channels_app (t : trace) (evs : list event) :
  open_channels (t ++ evs) = fold_left track_channel evs (open_channels t).
Proof. unfold open_channels. apply fold_left_app. Qed.

(** C6. Against a server whose [GetServerInfo] reply carries a version the
    client does not support, the bootstrap never returns a session.  If it
    gets as far as the discovery channel, it raises [VersionError] right
    after the reply: the log then ends with the opening of the discovery
    channel and the one [GetServerInfo] call, so no attested channel is
    opened and no call is repeated.  If it fails earlier (policy or
    certificate), no channel is opened at all. *)
Theorem unsupported_version_stops_bootstrap (self : BlindAiConnection.t)
    (addr server_name : string) (policy_arg certificate : option string)
    (simulation : bool) (untrusted_port attested_port : Z) (version : string)
    (t : trace) :
  let untrusted := (strip_https addr ++ ":" ++ str_of_port untrusted_port)%string in
  let bootstrap :=
    BlindAiConnection._connect_server self addr server_name policy_arg certificate
      simulation untrusted_port attested_port t in
  let discovery :=
    BlindAiConnection.discovery_credentials (BlindAiConnection.set_mode self simulation)
      (strip_https addr) policy_arg certificate untrusted_port t in
  reply_GetServerInfo untrusted = Ok version ->
  supported_server_version version = false ->
  raises (snd bootstrap) = true
  /\ (forall t1 prepared,
        discovery = (t1, Ok prepared) ->
        bootstrap
        = (t1 ++ [EvChannelOpen (next_channel t1) untrusted;
                  EvRpc (next_channel t1) GetServerInfo],
           Raise version_error))
  /\ (forall t1 e, discovery = (t1, Raise e) -> bootstrap = (t1, Raise e)).
Proof.
  intros untrusted bootstrap discovery Hreply Hver.
  assert (Hok : forall t1 prepared,
             discovery = (t1, Ok prepared) ->
             bootstrap
             = (t1 ++ [EvChannelOpen (next_channel t1) untrusted;
                       EvRpc (next_channel t1) GetServerInfo],
                Raise version_error)).
  { intros t1 prepared E. unfold bootstrap, BlindAiConnection._connect_server.
    fold discovery. unfold discovery in E. rewrite (bind_run _ _ _ E).
    now apply handshake_unsupported_version with (version := version). }
  assert (Hfail : forall t1 e, discovery = (t1, Raise e) -> bootstrap = (t1, Raise e)).
  { intros t1 e E. unfold bootstrap, BlindAiConnection._connect_server.
    unfold discovery in E. now rewrite (bind_raise _ _ _ E). }
  split; [|split]; auto.
  destruct discovery as [t1 [prepared|e]] eqn:E.
  - now rewrite (Hok _ _ eq_refl).
  - now rewrite (Hfail _ _ eq_refl).
Qed.

Lemma channel_left_open (opened : list Channel) (c : Channel) :
  In c (opened ++ [c]).
Proof. apply in_or_app. right. now left. Qed.

Lemma channel_closed (opened : list Channel) (c : Channel) :
  ~ In c (filter (fun c' => negb (Nat.eqb c c')) opened).
Proof.
  intros Hin. apply filter_In in Hin. destruct Hin as [_ Hne].
  now rewrite Nat.eqb_refl in Hne.
Qed.

(** C7, on the code.  The [try] block of [_connect_server] opens the
    discovery channel and has one handler, for [RpcError].  When the first
    call fails in the transport, the handler closes the channel before
    [ConnectionError] is raised.  When the server reports an unsupported
    version, or when (hardware mode) its quote is rejected by the
    verifier, the exception is no [RpcError]: it leaves the block with the
    discovery channel still open. *)
Theorem bootstrap_failure_leaves_channel_open (self : BlindAiConnection.t)
    (untrusted attested : string) (creds : bytes) (server_name : string)
    (t : trace) :
  let handshake :=
    BlindAiConnection.attested_handshake self untrusted attested creds server_name t in
  let channel := next_channel t in
  (forall status,
     reply_GetServerInfo untrusted = Raise (RpcError status) ->
     snd handshake = Raise (ConnectionError (check_rpc_exception (RpcError status)))
     /\ ~ In channel (open_channels (fst handshake)))
  /\ (forall version,
        reply_GetServerInfo untrusted = Ok version ->
        supported_server_version version = false ->
        snd handshake = Raise version_error
        /\ In channel (open_channels (fst handshake)))
  /\ (forall version att e,
        BlindAiConnection.simulation_mode self = false ->
        reply_GetServerInfo untrusted = Ok version ->
        supported_server_version version = true ->
        reply_GetSgxQuoteWithCollateral untrusted = Ok att ->
        verify_dcap_attestation (quote att) (collateral att) (enclave_held_data att)
          = Raise e ->
        is_RpcError e = false ->
        snd handshake = Raise e
        /\ In channel (open_channels (fst handshake))).
Proof.
  intros handshake channel. split; [|split].
  - intros status Hreply. unfold handshake.
    rewrite (handshake_rpc_failure _ _ _ _ _ _ Hreply).
    split; [reflexivity|]. simpl fst. rewrite open_channels_app. simpl.
    apply channel_closed.
  - intros version Hreply Hver. unfold handshake.
    rewrite (handshake_unsupported_version _ _ _ _ _ _ Hreply Hver).
    split; [reflexivity|]. simpl fst. rewrite open_channels_app. simpl.
    apply channel_left_open.
  - intros version att e Hmode Hreply Hver Hquote Hverify Hrpc. unfold handshake.
    rewrite (handshake_attestation_failure _ _ _ _ _ _ Hmode Hreply Hver Hquote
               Hverify Hrpc).
    split; [reflexivity|]. simpl fst. rewrite open_channels_app. simpl.
    apply channel_left_open.
Qed.

End Bootstrap.

(** ** Saved responses *)

Section Reload.
Context `{External}.

(** Provided the codec gives back the message it was given, reloading a
    saved response yields [reloaded]: a response that counts as signed and
    as attested, whatever the original was. *)
Lemma load_from_bytes_reloaded (self r : SignedResponse.t) :
  ResponseProof_FromString (SignedResponse.as_bytes r)
  = Some (ResponseProof_new (SignedResponse.payload r) (SignedResponse.signature r)
            (SignedResponse.attestation r)) ->
  SignedResponse.load_from_bytes self (SignedResponse.as_bytes r) = Ok (reloaded r)
  /\ SignedResponse.is_signed (reloaded r) = true
  /\ SignedResponse.is_simulation_mode (reloaded r) = false.
Proof.
  intros Hcodec. unfold SignedResponse.load_from_bytes. rewrite Hcodec.
  repeat split.
Qed.

Lemma reloaded_fixed_point (r : SignedResponse.t) :
  reloaded r = r
  <-> exists p s a,
        SignedResponse.payload r = Some p
        /\ SignedResponse.signature r = Some s
        /\ SignedResponse.attestation r = Some a.
Proof.
  destruct r as [[p|] [s|] [a|]]; unfold reloaded; simpl; split;
    try discriminate; try (intros [p' [s' [a' [? [? ?]]]]]; discriminate).
  - intros _. exists p, s, a. auto.
  - reflexivity.
Qed.

(** C8, on the code.  Provided the codec gives back the [ResponseProof]
    message it serialized, [load_from_bytes] on the bytes of [as_bytes]
    stores the payload, the signature and the attestation with every
    absent one replaced by the empty value.  The loaded response always
    counts as signed and never as simulation mode, so a simulation-mode
    response loses that flag and an unsigned one gains [is_signed()]; the
    round trip is exact if and only if the three attributes were set. *)
Theorem reload_forgets_absent_fields (self r : SignedResponse.t) :
  ResponseProof_FromString (SignedResponse.as_bytes r)
  = Some (ResponseProof_new (SignedResponse.payload r) (SignedResponse.signature r)
            (SignedResponse.attestation r)) ->
  SignedResponse.load_from_bytes self (SignedResponse.as_bytes r) = Ok (reloaded r)
  /\ SignedResponse.is_signed (reloaded r) = true
  /\ SignedResponse.is_simulation_mode (reloaded r) = false
  /\ (SignedResponse.is_simulation_mode r = true ->
      SignedResponse.attestation (reloaded r) = Some attestation_default
      /\ SignedResponse.is_simulation_mode (reloaded r)
         <> SignedResponse.is_simulation_mode r)
  /\ (SignedResponse.is_signed r = false ->
      SignedResponse.signature (reloaded r) = Some []
      /\ SignedResponse.is_signed (reloaded r) <> SignedResponse.is_signed r)
  /\ (SignedResponse.load_from_bytes self (SignedResponse.as_bytes r) = Ok r
      <-> exists p s a,
            SignedResponse.payload r = Some p
            /\ SignedResponse.signature r = Some s
            /\ SignedResponse.attestation r = Some a).
Proof.
  intros Hcodec.
  destruct (load_from_bytes_reloaded self r Hcodec) as [Hload [Hsigned Hsim]].
  split; [exact Hload|]. split; [exact Hsigned|]. split; [exact Hsim|].
  split; [|split].
  - intros Hr. split.
    + unfold SignedResponse.is_simulation_mode in Hr. unfold reloaded. simpl.
      destruct (SignedResponse.attestation r); [discriminate|reflexivity].
    + rewrite Hsim, Hr. discriminate.
  - intros Hr. split.
    + unfold SignedResponse.is_signed in Hr. unfold reloaded. simpl.
      destruct (SignedResponse.signature r); [discriminate|reflexivity].
    + rewrite Hsigned, Hr. discriminate.
  - rewrite Hload. split.
    + intros E. injection E as E. now apply reloaded_fixed_point.
    + intros E. f_equal. now apply reloaded_fixed_point.
Qed.

End Reload.

(** ** [TensorInfo] *)

(** C9, on the code.  The constructor of [TensorInfo] stores the shape and
    the datum type; the positional index and the name it is given are not
    stored, and reading them raises [AttributeError]. *)
Theorem tensor_info_init_drops_index (dims : list Z) (datum_type : ModelDatumType)
    (index : Z) (index_name : string) :
  let info := TensorInfo.__init__ dims datum_type index index_name in
  TensorInfo.get_dims info = Ok dims
  /\ TensorInfo.get_datum_type info = Ok datum_type
  /\ TensorInfo.index info = None
  /\ TensorInfo.index_name info = None
  /\ TensorInfo.get_index info
     = Raise (AttributeError "'TensorInfo' object has no attribute 'index'")
  /\ TensorInfo.get_index_name info
     = Raise (AttributeError "'TensorInfo' object has no attribute 'index_name'").
Proof. repeat split. Qed.

(** * Further properties of the code *)

(** ** Operations on an open session *)

Section OpenSession.
Context `{Platform}.

(** With [sign=False], [upload_model] reads the file, makes the one
    [SendModel] call and returns the model id of the reply's payload
    without any check; the response it returns holds neither payload nor
    signature, and [validate] refuses it as not signed. *)
Theorem upload_model_without_signature (self : BlindAiConnection.t) (c : Channel)
    (model : string) (rest : upload_arguments) (data : bytes) (response : PbReply)
    (pb : PbPayload) (t : trace) :
  BlindAiConnection.closed self = false ->
  BlindAiConnection._stub self = Some c ->
  read_file model = Ok data ->
  reply_SendModel data false rest = Ok response ->
  PbPayload_FromString (reply_payload response) = Some pb ->
  let res :=
    {| UploadModelResponse.base := SignedResponse.new;
       UploadModelResponse.model_id := Some (smp_model_id (send_model_payload pb)) |} in
  BlindAiConnection.upload_model self (model, false, rest) t
  = (t ++ [EvFileRead model; EvRpc c SendModel], Ok res)
  /\ forall model_hash policy_file policy validate_quote key allow t',
       UploadModelResponse.validate res model_hash policy_file policy validate_quote
         key allow t'
       = (t', Raise (SignatureError "Response is not signed")).
Proof.
  intros Hopen Hstub Hread Hreply Hdec res. split.
  - run_operation. rewrite Hopen, Hstub. simpl. rewrite Hread. simpl.
    rewrite Hreply. simpl. unfold parse_payload. rewrite Hdec.
    repeat rewrite <- app_assoc. reflexivity.
  - reflexivity.
Qed.

(** In a session without attestation (simulation mode), [upload_model]
    with [sign=True] never checks the signature of the reply: it succeeds
    exactly when the model hash in the payload is the digest of the file,
    whatever the signature bytes and whatever key the session holds. *)
Theorem upload_model_in_simulation_skips_signature (self : BlindAiConnection.t)
    (c : Channel) (model : string) (rest : upload_arguments) (data : bytes)
    (response : PbReply) (pb : PbPayload) (t : trace) :
  BlindAiConnection.closed self = false ->
  BlindAiConnection._stub self = Some c ->
  BlindAiConnection.simulation_mode self = true ->
  BlindAiConnection.attestation self = None ->
  read_file model = Ok data ->
  reply_SendModel data true rest = Ok response ->
  PbPayload_FromString (reply_payload response) = Some pb ->
  let res :=
    {| UploadModelResponse.base :=
         {| SignedResponse.payload := Some (reply_payload response);
            SignedResponse.signature := Some (reply_signature response);
            SignedResponse.attestation := None |};
       UploadModelResponse.model_id := Some (smp_model_id (send_model_payload pb)) |} in
  BlindAiConnection.upload_model self (model, true, rest) t
  = (t ++ [EvFileRead model; EvRpc c SendModel],
     if bytes_eqb (sha256_digest data) (smp_model_hash (send_model_payload pb))
     then Ok res
     else Raise (SignatureError "Invalid returned model_hash")).
Proof.
  intros Hopen Hstub Hmode Hatt Hread Hreply Hdec res.
  run_operation. rewrite Hopen, Hstub. simpl. rewrite Hread. simpl.
  rewrite Hreply. simpl. unfold parse_payload. rewrite Hdec.
  unfold UploadModelResponse.validate. simpl. rewrite Hatt, Hmode. simpl.
  unfold resolve_policy, resolve_signing_key, bind, lift, ret, raise, parse_payload.
  simpl. rewrite Hdec. repeat rewrite <- app_assoc. simpl.
  destruct (bytes_eqb _ _); reflexivity.
Qed.

(** In an attested session that holds a key, [upload_model] with
    [sign=True] checks the signature of the reply over its payload with
    the session's key, once, and then the model hash against the digest of
    the file that was read. *)
Theorem upload_model_in_attested_session (self : BlindAiConnection.t)
    (c : Channel) (model : string) (rest : upload_arguments) (data : bytes)
    (response : PbReply) (pb : PbPayload) (att : GetSgxQuoteWithCollateralReply)
    (key : Ed25519PublicKey) (t : trace) :
  BlindAiConnection.closed self = false ->
  BlindAiConnection._stub self = Some c ->
  BlindAiConnection.attestation self = Some att ->
  BlindAiConnection.enclave_signing_key self = Some key ->
  read_file model = Ok data ->
  reply_SendModel data true rest = Ok response ->
  PbPayload_FromString (reply_payload response) = Some pb ->
  let res :=
    {| UploadModelResponse.base :=
         {| SignedResponse.payload := Some (reply_payload response);
            SignedResponse.signature := Some (reply_signature response);
            SignedResponse.attestation := Some att |};
       UploadModelResponse.model_id := Some (smp_model_id (send_model_payload pb)) |} in
  BlindAiConnection.upload_model self (model, true, rest) t
  = (t ++ [EvFileRead model; EvRpc c SendModel;
           EvVerify key (reply_signature response) (reply_payload response)],
     if ed25519_verify key (reply_signature response) (reply_payload response) then
       if bytes_eqb (sha256_digest data) (smp_model_hash (send_model_payload pb))
       then Ok res
       else Raise (SignatureError "Invalid returned model_hash")
     else Raise (SignatureError "Invalid signature")).
Proof.
  intros Hopen Hstub Hatt Hkey Hread Hreply Hdec res.
  run_operation. rewrite Hopen, Hstub. simpl. rewrite Hread. simpl.
  rewrite Hreply. simpl. unfold parse_payload. rewrite Hdec.
  unfold UploadModelResponse.validate. simpl. rewrite Hatt, Hkey. simpl.
  rewrite andb_false_r.
  unfold resolve_policy, resolve_signing_key, verify_signature, bind, lift, ret,
    raise, emit, parse_payload.
  simpl. rewrite Hdec. repeat rewrite <- app_assoc. simpl.
  destruct (ed25519_verify _ _ _); [|reflexivity].
  destruct (bytes_eqb _ _); reflexivity.
Qed.

(** A model file that cannot be read stops [upload_model] before anything
    is sent: the log gains the attempt to read and nothing else. *)
Theorem upload_model_unreadable_file (self : BlindAiConnection.t) (model : string)
    (sign : bool) (rest : upload_arguments) (e : exn) (t : trace) :
  BlindAiConnection.closed self = false ->
  read_file model = Raise e ->
  is_RpcError e = false ->
  BlindAiConnection.upload_model self (model, sign, rest) t
  = (t ++ [EvFileRead model], Raise e).
Proof.
  intros Hopen Hread Hrpc. run_operation. rewrite Hopen. simpl.
  rewrite Hread. simpl. rewrite Hrpc. reflexivity.
Qed.

(** [delete_model] on an open session makes exactly one [DeleteModel]
    call; a transport failure of that call comes out as
    [ConnectionError]. *)
Theorem delete_model_makes_one_call (self : BlindAiConnection.t) (c : Channel)
    (model_id : string) (t : trace) :
  BlindAiConnection.closed self = false ->
  BlindAiConnection._stub self = Some c ->
  fst (BlindAiConnection.delete_model self model_id t) = t ++ [EvRpc c DeleteModel]
  /\ (reply_DeleteModel model_id = Ok tt ->
      snd (BlindAiConnection.delete_model self model_id t) = Ok DeleteModelResponse_new)
  /\ (forall status,
        reply_DeleteModel model_id = Raise (RpcError status) ->
        snd (BlindAiConnection.delete_model self model_id t)
        = Raise (ConnectionError (check_rpc_exception (RpcError status)))).
Proof.
  intros Hopen Hstub. run_operation. rewrite Hopen, Hstub. simpl.
  destruct (reply_DeleteModel model_id) as [[]|e]; simpl.
  - repeat split; try reflexivity. intros status E. discriminate.
  - destruct (is_RpcError e) eqn:Hrpc; simpl.
    + repeat split; try reflexivity; try discriminate.
      intros status E. injection E as ->. reflexivity.
    + repeat split; try reflexivity; try discriminate.
      intros status E. injection E as ->. discriminate.
Qed.

(** An empty list of tensors makes [run_model] raise [IndexError] before
    anything is sent; so does, where torch is installed, a single tensor
    with an empty shape. *)
Theorem run_model_empty_input (self : BlindAiConnection.t) (model_id : string)
    (dtype : one_or_list ModelDatumType) (sign : bool) (t : trace) :
  BlindAiConnection.closed self = false ->
  (forall shape,
     BlindAiConnection.run_model self (model_id, Flat [], dtype, shape, sign) t
     = (t, Raise index_out_of_range))
  /\ (forall shape,
        BlindAiConnection.run_model self (model_id, Nested [], dtype, shape, sign) t
        = (t, Raise index_out_of_range))
  /\ (is_torch_installed = true ->
      forall x xs,
        BlindAiConnection.run_model self
          (model_id, Flat (x :: xs), dtype, Flat [], sign) t
        = (t, Raise index_out_of_range)).
Proof.
  intros Hopen. split; [|split].
  - intros shape. run_operation. rewrite Hopen. reflexivity.
  - intros shape. run_operation. rewrite Hopen. reflexivity.
  - intros Htorch x xs. run_operation. rewrite Hopen, Htorch. reflexivity.
Qed.

(** Where torch is not installed, [run_model] cannot be used: on every
    input that is not empty, a single tensor or a list of tensors, the
    test on [torch.Tensor] raises [UnboundLocalError] before anything is
    sent. *)
Theorem run_model_without_torch (self : BlindAiConnection.t) (model_id : string)
    (dtype : one_or_list ModelDatumType) (shape : flat_or_nested Z) (sign : bool)
    (t : trace) :
  BlindAiConnection.closed self = false ->
  is_torch_installed = false ->
  (forall x xs,
     BlindAiConnection.run_model self (model_id, Flat (x :: xs), dtype, shape, sign) t
     = (t, Raise BlindAiConnection.torch_unbound))
  /\ (forall xs xss,
        BlindAiConnection.run_model self
          (model_id, Nested (xs :: xss), dtype, shape, sign) t
        = (t, Raise BlindAiConnection.torch_unbound)).
Proof.
  intros Hopen Htorch.
  split; intros; run_operation; rewrite Hopen, Htorch; reflexivity.
Qed.

(** A single tensor is run as the list that holds it: [run_model] on a
    flat list of numbers, with one datum type and one shape, does what it
    does on the list of that tensor, of that type and of that shape. *)
Theorem run_model_wraps_single_tensor (self : BlindAiConnection.t) (model_id : string)
    (x : scalar) (xs : list scalar) (d : ModelDatumType) (z : Z) (zs : list Z)
    (sign : bool) (t : trace) :
  BlindAiConnection.run_model self
    (model_id, Flat (x :: xs), One d, Flat (z :: zs), sign) t
  = BlindAiConnection.run_model self
      (model_id, Nested [x :: xs], Many [d], Nested [z :: zs], sign) t.
Proof.
  run_operation. destruct (BlindAiConnection.closed self); [reflexivity|].
  destruct is_torch_installed; reflexivity.
Qed.

End OpenSession.

(** ** Transport exceptions *)

Section TransportErrors.
Context `{Platform}.

Lemma never_RpcError_ret {A} (a : A) : never_RpcError (ret a).
Proof. intros t status. discriminate. Qed.

Lemma never_RpcError_raise {A} (e : exn) :
  is_RpcError e = false -> never_RpcError (@raise A e).
Proof.
  intros He t status E. simpl in E. injection E as ->. discriminate.
Qed.

Lemma never_RpcError_bind {A B} (m : M A) (f : A -> M B) :
  never_RpcError m -> (forall a, never_RpcError (f a)) -> never_RpcError (bind m f).
Proof.
  intros Hm Hf t status. unfold bind.
  destruct (m t) as [t' [a|e]] eqn:E.
  - apply Hf.
  - specialize (Hm t status). rewrite E in Hm. simpl in *.
    intros E'. apply Hm. injection E' as ->. reflexivity.
Qed.

(** A [try] whose handler turns every [RpcError] into something else lets
    no [RpcError] out, whatever its body does. *)
Lemma never_RpcError_try {A} (body : M A) (h : exn -> M A) :
  (forall e, never_RpcError (h e)) ->
  never_RpcError
    (try_except body (fun e => if is_RpcError e then Some (h e) else None)).
Proof.
  intros Hh t status. unfold try_except.
  destruct (body t) as [t' [a|e]]; [discriminate|].
  destruct (is_RpcError e) eqn:He.
  - apply Hh.
  - simpl. intros E. injection E as ->. discriminate.
Qed.

Lemma upload_validate_never_RpcError (self : UploadModelResponse.t) model_hash key allow :
  never_RpcError (UploadModelResponse.validate self model_hash None None false key allow).
Proof.
  intros t status. unfold UploadModelResponse.validate.
  destruct (SignedResponse.is_signed _); simpl; [|discriminate].
  destruct (negb allow && _); simpl; [discriminate|].
  unfold resolve_policy, resolve_signing_key. rewrite !andb_false_r.
  run_steps.
  destruct (SignedResponse.payload _) as [bs|]; [|discriminate].
  destruct (PbPayload_FromString bs) as [pb|]; [|discriminate]. simpl.
  destruct (SignedResponse.is_simulation_mode _); simpl.
  - destruct (bytes_eqb _ _); discriminate.
  - destruct key as [k|]; [|discriminate].
    destruct (SignedResponse.signature _) as [sig|]; [|discriminate]. simpl.
    destruct (ed25519_verify _ _ _); [|discriminate].
    destruct (bytes_eqb _ _); discriminate.
Qed.

(** No [RpcError] leaves [upload_model], [delete_model] or the handshake
    of the bootstrap: every transport exception raised inside them, by
    whatever call, comes out as something else ([ConnectionError]). *)
Theorem transport_errors_do_not_escape (self : BlindAiConnection.t) :
  (forall args, never_RpcError (fun t => BlindAiConnection.upload_model self args t))
  /\ (forall model_id,
        never_RpcError (fun t => BlindAiConnection.delete_model self model_id t))
  /\ (forall untrusted attested creds server_name,
        never_RpcError
          (BlindAiConnection.attested_handshake self untrusted attested creds
             server_name)).
Proof.
  split; [|split].
  - intros [[model sign] rest].
    unfold BlindAiConnection.upload_model,
      BlindAiConnection.raise_exception_if_conn_closed.
    destruct (BlindAiConnection.closed self).
    + now apply never_RpcError_raise.
    + unfold BlindAiConnection.upload_model_body.
      apply never_RpcError_bind.
      * unfold BlindAiConnection.rpc_to_connection_error.
        apply never_RpcError_try. intros e. now apply never_RpcError_raise.
      * intros [data response]. apply never_RpcError_bind.
        { intros t status. unfold lift, parse_payload. simpl.
          destruct (PbPayload_FromString _); discriminate. }
        intros pb. destruct sign.
        -- apply never_RpcError_bind.
           ++ apply upload_validate_never_RpcError.
           ++ intros _. apply never_RpcError_ret.
        -- apply never_RpcError_ret.
  - intros model_id.
    unfold BlindAiConnection.delete_model,
      BlindAiConnection.raise_exception_if_conn_closed.
    destruct (BlindAiConnection.closed self).
    + now apply never_RpcError_raise.
    + unfold BlindAiConnection.delete_model_body.
      apply never_RpcError_bind.
      * unfold BlindAiConnection.rpc_to_connection_error.
        apply never_RpcError_try. intros e. now apply never_RpcError_raise.
      * intros _. apply never_RpcError_ret.
  - intros untrusted attested creds server_name.
    unfold BlindAiConnection.attested_handshake.
    apply never_RpcError_bind.
    + intros t status. discriminate.
    + intros channel. apply never_RpcError_try. intros e.
      apply never_RpcError_bind.
      * intros t status. discriminate.
      * intros _. now apply never_RpcError_raise.
Qed.

End TransportErrors.

(** ** The digest of the inputs and the model id of a run *)

Section RunBinding.
Context `{External}.

(** The list [run_model] makes of a single tensor validates as the tensor
    itself: wrapping changes nothing in the digest. *)
Theorem wrapped_tensor_same_digest torch_installed tensors dtype shape tensors' dtype'
    shape' :
  BlindAiConnection.wrap_single_tensor torch_installed tensors dtype shape
  = Ok (tensors', dtype', shape') ->
  RunModelResponse.input_digest tensors' dtype' shape'
  = RunModelResponse.input_digest tensors dtype shape.
Proof.
  unfold BlindAiConnection.wrap_single_tensor.
  destruct tensors as [[|x xs]|[|xs xss]]; try discriminate;
    (destruct torch_installed; simpl; [|discriminate]).
  - destruct (wrap_unless_nested shape) as [sh|e] eqn:Hs; [|discriminate].
    intros E. injection E as <- <- <-.
    unfold RunModelResponse.input_digest. simpl. rewrite Hs.
    destruct shape as [[|z zs]|[|zs zss]]; try discriminate;
      simpl in Hs; injection Hs as <-; reflexivity.
  - intros E. injection E as <- <- <-. reflexivity.
Qed.

Lemma hash_tensors_short_dtype (tensors : list (list scalar))
    (dtype : list ModelDatumType) :
  (forall tensor d, exists chunks, serialize_tensor tensor d = Ok chunks) ->
  forall i h,
    i <= List.length dtype ->
    List.length dtype < i + List.length tensors ->
    RunModelResponse.hash_tensors tensors dtype i h = Raise index_out_of_range.
Proof.
  intros Htotal. induction tensors as [|tensor rest IH]; intros i h Hi Hlen;
    simpl in *.
  - exfalso. lia.
  - destruct (nth_error dtype i) as [d|] eqn:Hd; [|reflexivity].
    destruct (Htotal tensor d) as [chunks ->].
    assert (Hlt : i < List.length dtype)
      by (apply nth_error_Some; rewrite Hd; discriminate).
    apply IH; lia.
Qed.

(** With fewer datum types than tensors the digest cannot be computed:
    [validate]'s loop indexes past the end of [dtype] and the exception is
    an [IndexError], not a [SignatureError]. *)
Theorem fewer_types_than_tensors tensors dtype shape tensor_list :
  (forall tensor d, exists chunks, serialize_tensor tensor d = Ok chunks) ->
  wrap_unless_nested tensors = Ok tensor_list ->
  List.length (wrap_unless_list dtype) < List.length tensor_list ->
  RunModelResponse.input_digest tensors dtype shape = Raise index_out_of_range.
Proof.
  intros Htotal Hw Hlen. unfold RunModelResponse.input_digest. rewrite Hw.
  destruct (wrap_unless_nested shape) as [sh|e] eqn:Hs.
  - rewrite (hash_tensors_short_dtype _ _ Htotal); [reflexivity|lia|exact Hlen].
  - destruct shape as [[|z zs]|[|zs zss]]; simpl in Hs; try discriminate;
      injection Hs as <-; reflexivity.
Qed.

(** The validation [RunModelResponse.__init__] runs on a signed reply
    compares the payload's model id with itself: whenever the digest of
    the inputs can be computed, a reply is never refused for its model
    id, whichever model was asked for. *)
Theorem run_response_never_refused_for_model_id tensors dtype shape response
    attestation key allow digest t :
  RunModelResponse.input_digest tensors dtype shape = Ok digest ->
  snd (RunModelResponse.__init__ tensors dtype shape response true attestation key
         allow t)
  <> Raise (SignatureError "Invalid returned model_id").
Proof.
  intros Hdig. unfold RunModelResponse.__init__, bind, lift, parse_payload.
  destruct (PbPayload_FromString (reply_payload response)) as [pb|] eqn:Hdec;
    [|discriminate].
  simpl. unfold RunModelResponse.validate. simpl.
  destruct (negb allow && _); simpl; [discriminate|].
  unfold resolve_policy, resolve_signing_key. rewrite !andb_false_r.
  run_steps. rewrite Hdec. simpl.
  destruct attestation as [att|]; simpl.
  - destruct key as [k|]; [|discriminate]. simpl.
    destruct (ed25519_verify _ _ _); [|discriminate].
    rewrite Hdig. destruct (bytes_eqb digest _); [|discriminate].
    rewrite String.eqb_refl. discriminate.
  - rewrite Hdig. destruct (bytes_eqb digest _); [|discriminate].
    rewrite String.eqb_refl. discriminate.
Qed.

End RunBinding.

(** ** Successful and failed bootstraps *)

Section BootstrapPaths.
Context `{Platform}.

Lemma next_channel_app (t evs : trace) :
  next_channel (t ++ evs) = next_channel t + List.length (filter is_open_event evs).
Proof. unfold next_channel. now rewrite filter_app, length_app. Qed.

(** [simulation=True]: the [policy] and [certificate] arguments are
    ignored, as the docstring of the constructor says. *)
Theorem simulation_ignores_policy_and_certificate (addr server_name : string)
    (policy1 certificate1 policy2 certificate2 : option string)
    (untrusted_port attested_port : Z) (t : trace) :
  BlindAiConnection.connect addr server_name policy1 certificate1 true
    untrusted_port attested_port t
  = BlindAiConnection.connect addr server_name policy2 certificate2 true
      untrusted_port attested_port t.
Proof. reflexivity. Qed.

Lemma secure_channel_next (target : string) (t : trace) :
  secure_channel target t
  = (t ++ [EvChannelOpen (next_channel t) target], Ok (next_channel t)).
Proof. reflexivity. Qed.

Ltac count_channels t :=
  repeat rewrite <- app_assoc; simpl;
  repeat match goal with
         | |- context [List.length (filter is_open_event (t ++ ?evs))] =>
             change (List.length (filter is_open_event (t ++ evs)))
               with (next_channel (t ++ evs));
             rewrite (next_channel_app t evs); simpl
         end;
  change (List.length (filter is_open_event t)) with (next_channel t);
  repeat rewrite Nat.add_1_r.

Lemma handshake_simulation (self : BlindAiConnection.t) (untrusted attested : string)
    (creds : bytes) (server_name version : string) (enclave_cert : bytes)
    (key : Ed25519PublicKey) (t : trace) :
  BlindAiConnection.simulation_mode self = true ->
  reply_GetServerInfo untrusted = Ok version ->
  supported_server_version version = true ->
  reply_GetCertificate untrusted = Ok enclave_cert ->
  get_enclave_signing_key (encode_certificate enclave_cert) = Ok key ->
  BlindAiConnection.attested_handshake self untrusted attested creds server_name t
  = (t ++ [EvChannelOpen (next_channel t) untrusted;
           EvRpc (next_channel t) GetServerInfo;
           EvWarning
             "Attestation process is bypassed: running without requesting and checking attestation";
           EvRpc (next_channel t) GetCertificate;
           EvChannelClose (next_channel t);
           EvChannelOpen (S (next_channel t)) attested],
     Ok (BlindAiConnection.set_attested
           (BlindAiConnection.set_server_version self (Some version)) key
           (S (next_channel t)))).
Proof.
  intros Hmode Hinfo Hver Hget Hkey. run_handshake.
  rewrite Hinfo. simpl. rewrite Hver. simpl. rewrite Hmode. simpl.
  rewrite Hget. simpl. rewrite Hkey. simpl.
  count_channels t. reflexivity.
Qed.

Lemma handshake_hardware (self : BlindAiConnection.t) (untrusted attested : string)
    (creds : bytes) (server_name version : string)
    (att : GetSgxQuoteWithCollateralReply) (claims : Claims) (key : Ed25519PublicKey)
    (t : trace) :
  BlindAiConnection.simulation_mode self = false ->
  reply_GetServerInfo untrusted = Ok version ->
  supported_server_version version = true ->
  reply_GetSgxQuoteWithCollateral untrusted = Ok att ->
  verify_dcap_attestation (quote att) (collateral att) (enclave_held_data att)
    = Ok claims ->
  verify_claims claims (BlindAiConnection.policy self) = Ok tt ->
  get_enclave_signing_key (get_server_cert claims) = Ok key ->
  BlindAiConnection.attested_handshake self untrusted attested creds server_name t
  = (t ++ [EvChannelOpen (next_channel t) untrusted;
           EvRpc (next_channel t) GetServerInfo;
           EvRpc (next_channel t) GetSgxQuoteWithCollateral;
           EvQuoteVerification att;
           EvChannelClose (next_channel t);
           EvChannelOpen (S (next_channel t)) attested],
     Ok (BlindAiConnection.set_attested
           (BlindAiConnection.set_attestation
              (BlindAiConnection.set_server_version self (Some version)) (Some att))
           key (S (next_channel t)))).
Proof.
  intros Hmode Hinfo Hver Hquote Hdcap Hclaims Hkey. run_handshake.
  rewrite Hinfo. simpl. rewrite Hver. simpl. rewrite Hmode. simpl.
  rewrite Hquote. simpl. rewrite Hdcap. simpl. rewrite Hclaims. simpl.
  rewrite Hkey. simpl.
  count_channels t. reflexivity.
Qed.

Lemma discovery_simulation (self : BlindAiConnection.t) (host : string)
    (policy_arg certificate : option string) (untrusted_port : Z) (cert : string)
    (t : trace) :
  BlindAiConnection.simulation_mode self = true ->
  BlindAiConnection._disable_untrusted_server_cert_check self = true ->
  ssl_get_server_certificate host untrusted_port = Ok cert ->
  BlindAiConnection.discovery_credentials self host policy_arg certificate
    untrusted_port t
  = (t ++ [EvWarning "Untrusted server certificate check bypassed";
           EvTlsCertificateFetch host untrusted_port],
     Ok (self, list_byte_of_string cert)).
Proof.
  intros Hmode Hcheck Hcert.
  unfold BlindAiConnection.discovery_credentials, try_except, bind, emit, lift, ret.
  rewrite Hmode. simpl. rewrite Hcheck. simpl. rewrite Hcert. simpl.
  repeat rewrite <- app_assoc. reflexivity.
Qed.

Lemma discovery_hardware (self : BlindAiConnection.t) (host policy_file
    certificate_file : string) (untrusted_port : Z) (p : Policy) (creds : bytes)
    (t : trace) :
  BlindAiConnection.simulation_mode self = false ->
  BlindAiConnection._disable_untrusted_server_cert_check self = false ->
  Policy_from_file policy_file = Ok p ->
  read_file certificate_file = Ok creds ->
  BlindAiConnection.discovery_credentials self host (Some policy_file)
    (Some certificate_file) untrusted_port t
  = (t ++ [EvPolicyFile policy_file; EvFileRead certificate_file],
     Ok (BlindAiConnection.set_policy self (Some p), creds)).
Proof.
  intros Hmode Hcheck Hpolicy Hread.
  unfold BlindAiConnection.discovery_credentials, BlindAiConnection.load_policy,
    BlindAiConnection.open_and_read, BlindAiConnection.path_required, bind, emit,
    lift, ret.
  rewrite Hmode. simpl. rewrite Hpolicy. simpl. rewrite Hcheck. simpl.
  rewrite Hread. simpl. repeat rewrite <- app_assoc. reflexivity.
Qed.

(** A bootstrap in simulation mode that goes through: the certificate of
    the discovery endpoint is fetched, the discovery channel is opened,
    asked for the version and the enclave certificate and closed, and only
    then is the attested channel opened.  The session holds the key of
    that certificate, no attestation and no policy. *)
Theorem simulation_bootstrap_succeeds (addr server_name : string)
    (policy_arg certificate : option string) (untrusted_port attested_port : Z)
    (cert version : string) (enclave_cert : bytes) (key : Ed25519PublicKey)
    (t : trace) :
  let host := strip_https addr in
  let untrusted := (host ++ ":" ++ str_of_port untrusted_port)%string in
  let attested := (host ++ ":" ++ str_of_port attested_port)%string in
  let discovery := next_channel t in
  ssl_get_server_certificate host untrusted_port = Ok cert ->
  reply_GetServerInfo untrusted = Ok version ->
  supported_server_version version = true ->
  reply_GetCertificate untrusted = Ok enclave_cert ->
  get_enclave_signing_key (encode_certificate enclave_cert) = Ok key ->
  BlindAiConnection.connect addr server_name policy_arg certificate true
    untrusted_port attested_port t
  = (t ++ [EvWarning "Untrusted server certificate check bypassed";
           EvTlsCertificateFetch host untrusted_port;
           EvChannelOpen discovery untrusted;
           EvRpc discovery GetServerInfo;
           EvWarning
             "Attestation process is bypassed: running without requesting and checking attestation";
           EvRpc discovery GetCertificate;
           EvChannelClose discovery;
           EvChannelOpen (S discovery) attested],
     Ok {| BlindAiConnection._channel := Some (S discovery);
           BlindAiConnection.policy := None;
           BlindAiConnection._stub := Some (S discovery);
           BlindAiConnection.enclave_signing_key := Some key;
           BlindAiConnection.simulation_mode := true;
           BlindAiConnection._disable_untrusted_server_cert_check := true;
           BlindAiConnection.attestation := None;
           BlindAiConnection.server_version := Some version;
           BlindAiConnection.client_info := Some this_client;
           BlindAiConnection.closed := false |}).
Proof.
  intros host untrusted attested discovery Hcert Hinfo Hver Hget Hkey.
  unfold BlindAiConnection.connect, BlindAiConnection.__init__,
    BlindAiConnection._connect_server.
  cbv zeta.
  rewrite (bind_run _ _ _
             (discovery_simulation
                (BlindAiConnection.set_mode
                   (BlindAiConnection.set_client_info BlindAiConnection.new
                      (Some this_client)) true)
                _ policy_arg certificate _ t eq_refl eq_refl Hcert)).
  unfold fst, snd.
  rewrite (handshake_simulation
             (BlindAiConnection.set_mode
                (BlindAiConnection.set_client_info BlindAiConnection.new
                   (Some this_client)) true)
             _ _ _ _ _ eq_refl Hinfo Hver Hget Hkey).
  rewrite next_channel_app. simpl. rewrite Nat.add_0_r.
  repeat rewrite <- app_assoc. reflexivity.
Qed.

(** A bootstrap in hardware mode that goes through: the policy and the
    certificate file are read before anything else, the quote is fetched
    over the discovery channel and verified against the policy, the
    discovery channel is closed and then the attested channel is opened.
    The session keeps the policy and the attestation and holds the key of
    the certificate in the verified claims. *)
Theorem hardware_bootstrap_succeeds (addr server_name policy_file
    certificate_file : string) (untrusted_port attested_port : Z) (p : Policy)
    (creds : bytes) (version : string) (att : GetSgxQuoteWithCollateralReply)
    (claims : Claims) (key : Ed25519PublicKey) (t : trace) :
  let host := strip_https addr in
  let untrusted := (host ++ ":" ++ str_of_port untrusted_port)%string in
  let attested := (host ++ ":" ++ str_of_port attested_port)%string in
  let discovery := next_channel t in
  Policy_from_file policy_file = Ok p ->
  read_file certificate_file = Ok creds ->
  reply_GetServerInfo untrusted = Ok version ->
  supported_server_version version = true ->
  reply_GetSgxQuoteWithCollateral untrusted = Ok att ->
  verify_dcap_attestation (quote att) (collateral att) (enclave_held_data att)
    = Ok claims ->
  verify_claims claims (Some p) = Ok tt ->
  get_enclave_signing_key (get_server_cert claims) = Ok key ->
  BlindAiConnection.connect addr server_name (Some policy_file)
    (Some certificate_file) false untrusted_port attested_port t
  = (t ++ [EvPolicyFile policy_file;
           EvFileRead certificate_file;
           EvChannelOpen discovery untrusted;
           EvRpc discovery GetServerInfo;
           EvRpc discovery GetSgxQuoteWithCollateral;
           EvQuoteVerification att;
           EvChannelClose discovery;
           EvChannelOpen (S discovery) attested],
     Ok {| BlindAiConnection._channel := Some (S discovery);
           BlindAiConnection.policy := Some p;
           BlindAiConnection._stub := Some (S discovery);
           BlindAiConnection.enclave_signing_key := Some key;
           BlindAiConnection.simulation_mode := false;
           BlindAiConnection._disable_untrusted_server_cert_check := false;
           BlindAiConnection.attestation := Some att;
           BlindAiConnection.server_version := Some version;
           BlindAiConnection.client_info := Some this_client;
           BlindAiConnection.closed := false |}).
Proof.
  intros host untrusted attested discovery Hpolicy Hread Hinfo Hver Hquote Hdcap
    Hclaims Hkey.
  unfold BlindAiConnection.connect, BlindAiConnection.__init__,
    BlindAiConnection._connect_server.
  cbv zeta.
  rewrite (bind_run _ _ _
             (discovery_hardware
                (BlindAiConnection.set_mode
                   (BlindAiConnection.set_client_info BlindAiConnection.new
                      (Some this_client)) false)
                _ _ _ _ t eq_refl eq_refl Hpolicy Hread)).
  unfold fst, snd.
  rewrite (handshake_hardware
             (BlindAiConnection.set_policy
                (BlindAiConnection.set_mode
                   (BlindAiConnection.set_client_info BlindAiConnection.new
                      (Some this_client)) false) (Some p))
             _ _ _ _ _ eq_refl Hinfo Hver Hquote Hdcap Hclaims Hkey).
  rewrite next_channel_app. simpl. rewrite Nat.add_0_r.
  repeat rewrite <- app_assoc. reflexivity.
Qed.

(** In hardware mode the policy and the certificate file come first: when
    either is missing or cannot be read, the bootstrap fails before a
    channel is opened or a call is made. *)
Theorem hardware_bootstrap_reads_files_first (addr server_name : string)
    (policy_arg certificate : option string) (untrusted_port attested_port : Z)
    (t : trace) :
  let bootstrap :=
    BlindAiConnection.connect addr server_name policy_arg certificate false
      untrusted_port attested_port t in
  (policy_arg = None -> exists e, bootstrap = (t, Raise e))
  /\ (forall policy_file e,
        policy_arg = Some policy_file ->
        Policy_from_file policy_file = Raise e ->
        bootstrap = (t ++ [EvPolicyFile policy_file], Raise e))
  /\ (forall policy_file p,
        policy_arg = Some policy_file ->
        Policy_from_file policy_file = Ok p ->
        (certificate = None ->
         exists e, bootstrap = (t ++ [EvPolicyFile policy_file], Raise e))
        /\ (forall certificate_file e,
              certificate = Some certificate_file ->
              read_file certificate_file = Raise e ->
              bootstrap
              = (t ++ [EvPolicyFile policy_file; EvFileRead certificate_file],
                 Raise e))).
Proof.
  intros bootstrap. unfold bootstrap. split; [|split].
  - intros ->. eexists. reflexivity.
  - intros policy_file e -> Hpolicy. run_bootstrap. rewrite Hpolicy. reflexivity.
  - intros policy_file p -> Hpolicy. split.
    + intros ->. eexists. run_bootstrap. rewrite Hpolicy. reflexivity.
    + intros certificate_file e -> Hread. run_bootstrap. rewrite Hpolicy. simpl.
      rewrite Hread. repeat rewrite <- app_assoc. reflexivity.
Qed.


Lemma discovery_credentials_state (self : BlindAiConnection.t) (host : string)
    (policy_arg certificate : option string) (untrusted_port : Z) (t t1 : trace)
    (s1 : BlindAiConnection.t) (creds : bytes) :
  BlindAiConnection.discovery_credentials self host policy_arg certificate
    untrusted_port t = (t1, Ok (s1, creds)) ->
  (BlindAiConnection.simulation_mode self = true /\ s1 = self)
  \/ (BlindAiConnection.simulation_mode self = false
      /\ exists p, s1 = BlindAiConnection.set_policy self (Some p)).
Proof.
  unfold BlindAiConnection.discovery_credentials, BlindAiConnection.load_policy,
    BlindAiConnection.open_and_read, BlindAiConnection.path_required, try_except,
    bind, emit, lift, ret, raise.
  destruct (BlindAiConnection.simulation_mode self) eqn:Hmode; simpl.
  - intros E. left. split; [reflexivity|].
    repeat match type of E with
           | context [match ?x with _ => _ end] => destruct x; simpl in E
           end; try discriminate; injection E as _ -> _; reflexivity.
  - intros E. right. split; [reflexivity|].
    destruct policy_arg as [pf|]; simpl in E; [|discriminate].
    destruct (Policy_from_file pf) as [p|e]; simpl in E; [|discriminate].
    exists p.
    repeat match type of E with
           | context [match ?x with _ => _ end] => destruct x; simpl in E
           end; try discriminate; injection E as _ -> _; reflexivity.
Qed.

Lemma handshake_result (self : BlindAiConnection.t) (untrusted attested : string)
    (creds : bytes) (server_name : string) (t t' : trace) (s : BlindAiConnection.t) :
  BlindAiConnection.attested_handshake self untrusted attested creds server_name t
    = (t', Ok s) ->
  exists version key c t0,
    t' = t0 ++ [EvChannelOpen c attested]
    /\ supported_server_version version = true
    /\ ((BlindAiConnection.simulation_mode self = true
         /\ s = BlindAiConnection.set_attested
                  (BlindAiConnection.set_server_version self (Some version)) key c)
        \/ (BlindAiConnection.simulation_mode self = false
            /\ exists att,
                 s = BlindAiConnection.set_attested
                       (BlindAiConnection.set_attestation
                          (BlindAiConnection.set_server_version self (Some version))
                          (Some att)) key c)).
Proof.
  run_handshake.
  destruct (reply_GetServerInfo untrusted) as [version|e] eqn:Hinfo; simpl;
    [|destruct (is_RpcError e); discriminate].
  destruct (supported_server_version version) eqn:Hver; simpl; [|discriminate].
  destruct (BlindAiConnection.simulation_mode self) eqn:Hmode; simpl.
  - destruct (reply_GetCertificate untrusted) as [cert|e] eqn:Hget; simpl;
      [|destruct (is_RpcError e); discriminate].
    destruct (get_enclave_signing_key (encode_certificate cert)) as [key|e] eqn:Hkey;
      simpl; [|destruct (is_RpcError e); discriminate].
    intros E. injection E as <- <-.
    eexists version, key, _, _. split; [reflexivity|]. split; [assumption|].
    left. split; reflexivity.
  - destruct (reply_GetSgxQuoteWithCollateral untrusted) as [att|e] eqn:Hquote; simpl;
      [|destruct (is_RpcError e); discriminate].
    destruct (verify_dcap_attestation (quote att) (collateral att)
                (enclave_held_data att)) as [claims|e] eqn:Hdcap; simpl;
      [|destruct (is_RpcError e); discriminate].
    destruct (verify_claims claims (BlindAiConnection.policy self)) as [[]|e]
      eqn:Hclaims; simpl; [|destruct (is_RpcError e); discriminate].
    destruct (get_enclave_signing_key (get_server_cert claims)) as [key|e] eqn:Hkey;
      simpl; [|destruct (is_RpcError e); discriminate].
    intros E. injection E as <- <-.
    eexists version, key, _, _. split; [reflexivity|]. split; [assumption|].
    right. split; [reflexivity|]. exists att. reflexivity.
Qed.

(** Whatever the servers answer, a session that [connect] returns is
    open, holds a channel and a stub on it, a signing key and a supported
    server version, is in the mode that was asked for, holds an
    attestation exactly in hardware mode and a policy in hardware mode;
    the last thing the bootstrap did was to open the session's channel. *)
Theorem bootstrap_establishes_session (addr server_name : string)
    (policy_arg certificate : option string) (simulation : bool)
    (untrusted_port attested_port : Z) (t t' : trace) (s : BlindAiConnection.t) :
  BlindAiConnection.connect addr server_name policy_arg certificate simulation
    untrusted_port attested_port t = (t', Ok s) ->
  bootstrapped simulation s
  /\ exists t0 c target,
       t' = t0 ++ [EvChannelOpen c target]
       /\ BlindAiConnection._channel s = Some c.
Proof.
  unfold BlindAiConnection.connect, BlindAiConnection.__init__,
    BlindAiConnection._connect_server. cbv zeta.
  unfold bind at 1.
  destruct (BlindAiConnection.discovery_credentials _ _ _ _ _ t)
    as [t1 [[s1 creds]|e]] eqn:Hd; [|discriminate].
  unfold fst, snd. intros Hh.
  apply handshake_result in Hh.
  destruct Hh as [version [key [c [t0 [-> [Hver Hs]]]]]].
  apply discovery_credentials_state in Hd. simpl in Hd.
  unfold bootstrapped.
  destruct Hd as [[-> ->]|[-> [p ->]]]; simpl in Hs;
    destruct Hs as [[Hm ->]|[Hm [att ->]]]; try discriminate; simpl;
    (split; [|eexists t0, c, _; split; reflexivity]).
  all: split; [reflexivity|]; split; [exists c; split; reflexivity|];
    split; [reflexivity|];
    split; [split; intros E; first [reflexivity | discriminate]|];
    split; [eexists; reflexivity|];
    split; [intros E; first [discriminate | eexists; reflexivity]|];
    exists version; split; [reflexivity|assumption].
Qed.

End BootstrapPaths.

(** ** Responses saved to a file and loaded again *)

Section SavedResponses.
Context `{External}.


(** An [UploadModelResponse] loaded from a file takes its model id from
    the payload in the file, whatever model id the saved response and the
    loading one held. *)
Theorem loaded_upload_reads_model_id_from_payload (self r : UploadModelResponse.t)
    (path : string) (fs : file_system) (pb : PbPayload) :
  can_write fs path = true ->
  ResponseProof_FromString (SignedResponse.as_bytes (UploadModelResponse.base r))
  = Some (ResponseProof_new
            (SignedResponse.payload (UploadModelResponse.base r))
            (SignedResponse.signature (UploadModelResponse.base r))
            (SignedResponse.attestation (UploadModelResponse.base r))) ->
  parse_payload (SignedResponse.payload (reloaded (UploadModelResponse.base r)))
  = Ok pb ->
  Files.upload_load_from_file self path
    (fst (Files.save_to_file (UploadModelResponse.base r) path fs))
  = Ok {| UploadModelResponse.base := reloaded (UploadModelResponse.base r);
          UploadModelResponse.model_id :=
            Some (smp_model_id (send_model_payload pb)) |}.
Proof.
  intros Hwrite Hcodec Hpb.
  unfold Files.save_to_file, Files.upload_load_from_file. rewrite Hwrite. simpl.
  rewrite String.eqb_refl. unfold UploadModelResponse.load_from_bytes.
  rewrite Hcodec. unfold UploadModelResponse._load_payload. simpl.
  unfold reloaded in *. simpl in Hpb.
  destruct (UploadModelResponse.base r) as [[p|] [sg|] [a|]];
    simpl in *; rewrite Hpb; reflexivity.
Qed.

End SavedResponses.

(** ** The tensor descriptions of an upload *)

Section RequestTensors.
Variable TensorInfoMessage : Type.
Variable PbTensorInfo_new :
  option Requests.pyval -> Requests.pyval -> nat -> result TensorInfoMessage.

(** When [tensor_inputs] or [tensor_outputs] is [None], both are replaced:
    the request describes one input, made of [shape] and [datum_type], and
    one output of type [dtype_out], each with index 0, and what the caller
    gave for the other argument is not used.  This holds for a shape and
    an output type that are not lists. *)
Theorem defaults_describe_one_input_and_one_output
    (tensor_inputs tensor_outputs shape datum_type dtype_out : Requests.pyval) :
  Requests.is_None tensor_inputs || Requests.is_None tensor_outputs = true ->
  Requests.is_list shape = false ->
  Requests.is_list dtype_out = false ->
  Requests._get_input_output_tensors PbTensorInfo_new tensor_inputs tensor_outputs
    shape datum_type dtype_out
  = match PbTensorInfo_new (Some shape) datum_type 0 with
    | Raise e => Raise e
    | Ok input =>
        match PbTensorInfo_new None dtype_out 0 with
        | Raise e => Raise e
        | Ok output => Ok ([input], [output])
        end
    end.
Proof.
  intros Hnone Hshape Hout. unfold Requests._get_input_output_tensors.
  rewrite Hnone. unfold Requests.wrap_unless_first_is_list. simpl.
  rewrite Hshape, Hout. simpl.
  destruct (PbTensorInfo_new (Some shape) datum_type 0); [|reflexivity].
  destruct (PbTensorInfo_new None dtype_out 0); reflexivity.
Qed.

(** With the defaults in use, a shape passed as a list and not as a tuple
    is taken for a list of inputs; the datum type that follows it is then
    indexed as if it were an input, and the call raises. *)
Theorem list_shape_is_refused
    (tensor_inputs tensor_outputs datum_type dtype_out : Requests.pyval)
    (dims : list Requests.pyval) :
  Requests.is_None tensor_inputs || Requests.is_None tensor_outputs = true ->
  Requests.getitem datum_type 0 = Raise Requests.not_subscriptable ->
  exists e,
    Requests._get_input_output_tensors PbTensorInfo_new tensor_inputs tensor_outputs
      (Requests.PyList dims) datum_type dtype_out
    = Raise e.
Proof.
  intros Hnone Hdatum. unfold Requests._get_input_output_tensors.
  rewrite Hnone. unfold Requests.wrap_unless_first_is_list. simpl.
  destruct dims as [|first [|second rest]]; simpl; try (eexists; reflexivity).
  destruct (PbTensorInfo_new _ _ 0); [|eexists; reflexivity].
  rewrite Hdatum. eexists. reflexivity.
Qed.

(** A flat list of output types is taken for the description of a single
    output: its first entry is used and the others are dropped. *)
Theorem flat_output_types_keep_first
    (tensor_inputs shape datum_type dtype_out : Requests.pyval) (d : ModelDatumType)
    (others : list Requests.pyval) :
  Requests._get_input_output_tensors PbTensorInfo_new tensor_inputs
    (Requests.PyList (Requests.PyDatum d :: others)) shape
    datum_type dtype_out
  = Requests._get_input_output_tensors PbTensorInfo_new tensor_inputs
      (Requests.PyList [Requests.PyDatum d]) shape datum_type
      dtype_out.
Proof.
  unfold Requests._get_input_output_tensors. simpl. rewrite orb_false_r.
  destruct (Requests.is_None tensor_inputs); reflexivity.
Qed.

(** A single datum type as [tensor_outputs], which is what the helper's
    annotation asks for, is indexed and the call raises. *)
Theorem bare_output_type_is_refused
    (tensor_inputs shape datum_type dtype_out : Requests.pyval) (d : ModelDatumType) :
  Requests.is_None tensor_inputs = false ->
  exists e,
    Requests._get_input_output_tensors PbTensorInfo_new tensor_inputs
      (Requests.PyDatum d) shape datum_type dtype_out
    = Raise e.
Proof.
  intros Hgiven. unfold Requests._get_input_output_tensors. simpl.
  rewrite Hgiven. simpl.
  destruct (Requests.wrap_unless_first_is_list tensor_inputs); eexists; reflexivity.
Qed.

End RequestTensors.

(** ** The datum type of a torch tensor *)

(** Whenever [convert_dt] returns, the first item of its argument is a
    Python float or a row of a tensor: for a Python int, as for an element
    of a tensor of one dimension, the first test already raises, so the
    [isinstance(tensor[0], int)] test never decides the result. *)
Theorem convert_dt_returns_for_floats_and_rows (tensor : Torch.argument)
    (r : option ModelDatumType) :
  Torch.convert_dt tensor = Ok r ->
  (tensor = Torch.FirstIs Torch.PythonFloat /\ r = Some F32)
  \/ exists d, tensor = Torch.FirstIs (Torch.Row d).
Proof.
  destruct tensor as [|[| |d|d]]; simpl; try discriminate.
  - intros E. left. split; [reflexivity|]. injection E as <-. reflexivity.
  - intros _. right. exists d. reflexivity.
Qed.

(** [convert_dt] knows six element types.  A datum type it returns is one
    of the six that correspond to them, and for the rows of a tensor of
    any other element type it falls off the end and returns [None]. *)
Theorem convert_dt_range :
  (forall tensor m,
     Torch.convert_dt tensor = Ok (Some m) -> In m [F32; F64; I32; I64; U8; I16])
  /\ (forall d,
        Torch.convert_dt (Torch.FirstIs (Torch.Row d)) = Ok None
        <-> In d [Torch.float16; Torch.bfloat16; Torch.int8; Torch.bool_;
                  Torch.complex64; Torch.complex128]).
Proof.
  split.
  - intros [|[| |d|d]] m; simpl; try discriminate.
    + intros E. injection E as <-. simpl. tauto.
    + destruct d; simpl; intros E; try discriminate; injection E as <-; simpl;
        tauto.
  - intros d. destruct d; simpl; split; intros E;
      try discriminate; try tauto;
      repeat (destruct E as [E|E]; try discriminate); try contradiction.
Qed.

(** * The statements on concrete inputs *)

#[local] Existing Instance Demo.external.

(** A forged signature on the attested upload: the log shows the one
    check, made with the supplied key over the payload bytes. *)
Lemma validate_signature_check_witness :
  let forged :=
    {| SignedResponse.payload := Some Demo.upload_payload;
       SignedResponse.signature := Some [x00; x00];
       SignedResponse.attestation := Some Demo.evidence |} in
  let res :=
    UploadModelResponse.validate (Demo.as_upload forged) Demo.model_hash None None
      false (Some Demo.key) false [] in
  fst res = [EvVerify Demo.key [x00; x00] Demo.upload_payload]
  /\ snd res = Raise (SignatureError "Invalid signature").
Proof.
  intros forged res.
  destruct (proj1 (@validate_signature_check Demo.external)
              forged [x00; x00] Demo.evidence Demo.upload_payload
              (PayloadSendModel
                 {| smp_model_hash := Demo.model_hash; smp_model_id := "m1" |})
              None None false (Some Demo.key) false [] [] Demo.key
              eq_refl eq_refl eq_refl eq_refl eq_refl) as [Hup _].
  destruct (Hup (Demo.as_upload forged) Demo.model_hash eq_refl) as [Hlog [Hbad _]].
  split; [exact Hlog|]. apply Hbad. reflexivity.
Defined.

(** C1, as stated, on a concrete input.  The attested upload is validly
    signed; one byte of its payload is changed and the signature kept.
    [validate], with the key supplied, raises the decoder's error, which is
    no [SignatureError], and the signature is never checked (the log is
    empty). *)
Lemma tampered_payload_raises_decode_error :
  ed25519_verify Demo.key (Demo.sign Demo.key Demo.upload_payload) Demo.upload_payload
  = true
  /\ Demo.differences Demo.tampered_payload Demo.upload_payload = 1
  /\ ed25519_verify Demo.key (Demo.sign Demo.key Demo.upload_payload)
       Demo.tampered_payload = false
  /\ UploadModelResponse.validate (Demo.as_upload Demo.tampered_upload)
       Demo.model_hash None None false (Some Demo.key) false []
     = ([], Raise (DecodeError "Error parsing message"))
  /\ is_SignatureError (DecodeError "Error parsing message") = false.
Proof. repeat split. Qed.



Lemma validate_simulation_gate_witness :
  (exists msg,
     UploadModelResponse.validate (Demo.as_upload Demo.simulated_upload)
       Demo.model_hash None None true None false []
     = ([], Raise (SignatureError msg)))
  /\ UploadModelResponse.validate (Demo.as_upload Demo.simulated_upload)
       Demo.model_hash None None true None true []
     = ([], Ok tt).
Proof.
  destruct (@validate_simulation_gate Demo.external Demo.simulated_upload
              None None true None [] eq_refl) as [Hup _].
  destruct (Hup (Demo.as_upload Demo.simulated_upload) Demo.model_hash eq_refl)
    as [Hrefuse [_ Hok]].
  split; [exact Hrefuse|].
  apply (Hok (Demo.sign Demo.key Demo.upload_payload) Demo.upload_payload
           (PayloadSendModel
              {| smp_model_hash := Demo.model_hash; smp_model_id := "m1" |}));
    reflexivity.
Defined.

(** The attested upload and the attested run.  Without a key and without
    quote validation, [validate] ends in the [AttributeError].  With quote
    validation and no key, the policy file is loaded, the quote validated,
    and the signature checked with the key of the quote; a policy file
    that does not exist, or an attestation the verifier refuses, ends
    [validate] before the signature is looked at. *)
Lemma validate_signing_key_precondition_witness :
  let refused :=
    {| SignedResponse.payload := Some Demo.upload_payload;
       SignedResponse.signature := Some (Demo.sign Demo.key Demo.upload_payload);
       SignedResponse.attestation :=
         Some {| quote := []; collateral := []; enclave_held_data := [] |} |} in
  (exists e,
     UploadModelResponse.validate (Demo.as_upload Demo.attested_upload)
       Demo.model_hash None None false None false []
     = ([], Raise e)
     /\ is_SignatureError e = false /\ in_taxonomy e = false
     /\ e = AttributeError "'NoneType' object has no attribute 'verify'")
  /\ UploadModelResponse.validate (Demo.as_upload Demo.attested_upload)
       Demo.model_hash (Some "policy.toml") None true None false []
     = ([EvPolicyFile "policy.toml"; EvQuoteVerification Demo.evidence;
         EvVerify Demo.key (Demo.sign Demo.key Demo.upload_payload)
           Demo.upload_payload],
        Ok tt)
  /\ UploadModelResponse.validate (Demo.as_upload Demo.attested_upload)
       Demo.model_hash (Some "nowhere.toml") (Some "policy") true (Some Demo.key)
       false []
     = ([EvPolicyFile "nowhere.toml"], Raise (FileNotFoundError "nowhere.toml"))
  /\ UploadModelResponse.validate (Demo.as_upload refused)
       Demo.model_hash None (Some "policy") true (Some Demo.key) false []
     = ([EvQuoteVerification
           {| quote := []; collateral := []; enclave_held_data := [] |}],
        Raise (AttestationError "empty quote"))
  /\ RunModelResponse.validate (Demo.as_run Demo.attested_run) "m1" Demo.input
       (One F32) (Flat [4]%Z) None (Some "policy") true None false []
     = ([EvQuoteVerification Demo.evidence;
         EvVerify Demo.key (Demo.sign Demo.key Demo.run_payload) Demo.run_payload],
        Ok tt).
Proof.
  intros refused. split; [|split; [|split; [|split]]].
  - destruct (proj1 (proj2 (@validate_signing_key_precondition Demo.external
                Demo.attested_upload (Demo.sign Demo.key Demo.upload_payload)
                Demo.evidence None None false [] eq_refl eq_refl))
                (Demo.as_upload Demo.attested_upload) Demo.model_hash eq_refl)
      as [e [Hres [Hsig [Htax Hattr]]]].
    exists e. repeat split; try assumption.
    apply (Hattr Demo.upload_payload
             (PayloadSendModel
                {| smp_model_hash := Demo.model_hash; smp_model_id := "m1" |}));
      reflexivity.
  - exact (proj1 (proj2 (proj2 (proj2 (proj2
             (@validate_signing_key_precondition Demo.external
                Demo.attested_upload (Demo.sign Demo.key Demo.upload_payload)
                Demo.evidence (Some "policy.toml") None false [] eq_refl eq_refl))))
             None)
             (Demo.as_upload Demo.attested_upload) Demo.model_hash eq_refl).
  - exact (proj1 (proj2 (proj2 (proj2 (proj2
             (@validate_signing_key_precondition Demo.external
                Demo.attested_upload (Demo.sign Demo.key Demo.upload_payload)
                Demo.evidence (Some "nowhere.toml") (Some "policy") false []
                eq_refl eq_refl))))
             (Some Demo.key))
             (Demo.as_upload Demo.attested_upload) Demo.model_hash eq_refl).
  - exact (proj1 (proj2 (proj2 (proj2 (proj2
             (@validate_signing_key_precondition Demo.external
                refused (Demo.sign Demo.key Demo.upload_payload)
                {| quote := []; collateral := []; enclave_held_data := [] |}
                None (Some "policy") false [] eq_refl eq_refl))))
             (Some Demo.key))
             (Demo.as_upload refused) Demo.model_hash eq_refl).
  - exact (proj2 (proj2 (proj2 (proj2 (proj2
             (@validate_signing_key_precondition Demo.external
                Demo.attested_run (Demo.sign Demo.key Demo.run_payload)
                Demo.evidence None (Some "policy") false [] eq_refl eq_refl))))
             None)
             (Demo.as_run Demo.attested_run) "m1" Demo.input (One F32) (Flat [4]%Z)
             eq_refl).
Defined.

(** C10, as stated, on concrete inputs.  The caller supplies the signing
    key and skips the quote validation, so the stated precondition holds.
    On the run response with one byte of its payload changed, [validate]
    raises the decoder's error; on the untouched response, validated
    against an empty list of tensors, it raises [IndexError] once the
    signature has been found valid.  Neither is a typed error of the
    specification. *)
Lemma supplied_key_leaves_untyped_failures :
  let tampered :=
    {| SignedResponse.payload := Some (Demo.set_byte 1 x7f Demo.run_payload);
       SignedResponse.signature := Some (Demo.sign Demo.key Demo.run_payload);
       SignedResponse.attestation := Some Demo.evidence |} in
  RunModelResponse.validate (Demo.as_run tampered) "m1" Demo.input (One F32)
    (Flat [4]%Z) None None false (Some Demo.key) false []
  = ([], Raise (DecodeError "Error parsing message"))
  /\ in_taxonomy (DecodeError "Error parsing message") = false
  /\ RunModelResponse.validate (Demo.as_run Demo.attested_run) "m1" (Flat [])
       (One F32) (Flat [4]%Z) None None false (Some Demo.key) false []
     = ([EvVerify Demo.key (Demo.sign Demo.key Demo.run_payload) Demo.run_payload],
        Raise (IndexError "list index out of range"))
  /\ in_taxonomy (IndexError "list index out of range") = false.
Proof. repeat split. Qed.

(** A session closed by the caller: every operation is refused. *)
Lemma closed_session_rejects_operations_witness :
  let srv := Demo.enclave "0.5.0" in
  @BlindAiConnection.upload_model Demo.external (Demo.platform srv)
    (Demo.closed_session srv) (Demo.model_file, true, tt) []
  = ([], Raise closed_connection_error)
  /\ @perform Demo.external (Demo.platform srv) (Demo.closed_session srv)
       (Delete "m1") []
     = ([], Raise closed_connection_error).
Proof.
  intros srv.
  destruct (@closed_session_rejects_operations Demo.external (Demo.platform srv)
              (Demo.closed_session srv) eq_refl) as [Hup [_ [Hdel _]]].
  split; [apply Hup|].
  unfold perform, bind. rewrite Hdel. reflexivity.
Defined.

(** C4, as stated, on a concrete input: the exception a closed session
    raises is a [ValueError]; its class is not [InvalidStateError], nor any
    class of the specification's taxonomy. *)
Lemma closed_session_raises_ValueError :
  @BlindAiConnection.delete_model Demo.external
    (Demo.platform (Demo.enclave "0.5.0"))
    (Demo.closed_session (Demo.enclave "0.5.0")) "m1" []
  = ([], Raise (ValueError "Illegal operation on closed connection."))
  /\ class_name (ValueError "Illegal operation on closed connection.")
     <> "InvalidStateError"
  /\ in_taxonomy (ValueError "Illegal operation on closed connection.") = false.
Proof. repeat split. discriminate. Qed.

Lemma close_releases_channel_and_policy_witness :
  let srv := Demo.enclave "0.5.0" in
  @BlindAiConnection.close Demo.external (Demo.open_session srv) []
  = ([EvChannelClose 1], Ok (Demo.closed_session srv))
  /\ @BlindAiConnection.close Demo.external (Demo.closed_session srv) [EvChannelClose 1]
     = ([EvChannelClose 1], Ok (Demo.closed_session srv)).
Proof.
  intros srv.
  destruct (@close_releases_channel_and_policy Demo.external
              (Demo.open_session srv) 1 [] eq_refl eq_refl)
    as [self' [Hclose [_ [_ [_ [_ [_ [Hagain _]]]]]]]].
  assert (E : self' = Demo.closed_session srv).
  { assert (Hc : @BlindAiConnection.close Demo.external (Demo.open_session srv) []
                 = ([EvChannelClose 1], Ok (Demo.closed_session srv)))
      by reflexivity.
    rewrite Hclose in Hc. injection Hc as Hc. exact Hc. }
  subst self'. split; [exact Hclose|apply Hagain].
Defined.

(** C5, as stated, on a concrete input: after [close] the session still
    holds the enclave signing key and the attestation evidence. *)
Lemma close_keeps_signing_key_and_attestation :
  exists self',
    @BlindAiConnection.close Demo.external
      (Demo.open_session (Demo.enclave "0.5.0")) []
    = ([EvChannelClose 1], Ok self')
    /\ BlindAiConnection.closed self' = true
    /\ BlindAiConnection.enclave_signing_key self' = Some Demo.key
    /\ BlindAiConnection.attestation self' = Some Demo.evidence.
Proof. eexists. repeat split. Qed.

(** A simulation-mode bootstrap against a server that reports version
    9.9.9. *)
Lemma unsupported_version_stops_bootstrap_witness :
  @BlindAiConnection.connect Demo.external (Demo.platform Demo.outdated)
    "enclave.example" "blindai-srv" None None true 50052%Z 50051%Z []
  = ([EvWarning "Untrusted server certificate check bypassed";
      EvTlsCertificateFetch "enclave.example" 50052%Z;
      EvChannelOpen 0 "enclave.example:50052";
      EvRpc 0 GetServerInfo],
     Raise version_error).
Proof.
  exact (proj1 (proj2 (@unsupported_version_stops_bootstrap Demo.external
           (Demo.platform Demo.outdated)
           (BlindAiConnection.set_client_info BlindAiConnection.new
              (Some (@this_client Demo.external (Demo.platform Demo.outdated))))
           "enclave.example" "blindai-srv" None None true 50052%Z 50051%Z "9.9.9" []
           eq_refl eq_refl))
         [EvWarning "Untrusted server certificate check bypassed";
          EvTlsCertificateFetch "enclave.example" 50052%Z]
         _ eq_refl).
Defined.

(** Three bootstraps: the first call fails in the transport and the
    channel is closed; the server reports version 9.9.9, or its quote is
    empty, and the discovery channel (number 0) stays open. *)
Lemma bootstrap_failure_leaves_channel_open_witness :
  let unreachable :=
    @BlindAiConnection.connect Demo.external (Demo.platform Demo.unreachable)
      "enclave.example" "blindai-srv" None None true 50052%Z 50051%Z [] in
  let outdated :=
    @BlindAiConnection.connect Demo.external (Demo.platform Demo.outdated)
      "enclave.example" "blindai-srv" None None true 50052%Z 50051%Z [] in
  let rogue :=
    @BlindAiConnection.connect Demo.external (Demo.platform Demo.rogue)
      "enclave.example" "blindai-srv" (Some "policy.toml") (Some "server.pem")
      false 50052%Z 50051%Z [] in
  (snd unreachable = Raise (ConnectionError "UNAVAILABLE")
   /\ ~ In 0 (open_channels (fst unreachable)))
  /\ (snd outdated = Raise version_error
      /\ In 0 (open_channels (fst outdated))
      /\ open_channels (fst outdated) = [0])
  /\ (snd rogue = Raise (AttestationError "empty quote")
      /\ In 0 (open_channels (fst rogue))
      /\ open_channels (fst rogue) = [0]).
Proof.
  intros unreachable outdated rogue.
  pose (simulated :=
          BlindAiConnection.set_mode
            (BlindAiConnection.set_client_info (@BlindAiConnection.new Demo.external)
               (Some (@this_client Demo.external (Demo.platform Demo.outdated))))
            true).
  pose (hardware :=
          BlindAiConnection.set_policy
            (BlindAiConnection.set_mode
               (BlindAiConnection.set_client_info (@BlindAiConnection.new Demo.external)
                  (Some (@this_client Demo.external (Demo.platform Demo.rogue))))
               false)
            (Some "policy")).
  pose (warned := [EvWarning "Untrusted server certificate check bypassed";
                   EvTlsCertificateFetch "enclave.example" 50052%Z]).
  split; [|split].
  - exact (proj1 (@bootstrap_failure_leaves_channel_open Demo.external
                    (Demo.platform Demo.unreachable) simulated
                    "enclave.example:50052" "enclave.example:50051"
                    (list_byte_of_string "certificate") "blindai-srv" warned)
             "UNAVAILABLE" eq_refl).
  - split; [|split; [|reflexivity]];
      apply (proj1 (proj2 (@bootstrap_failure_leaves_channel_open Demo.external
                    (Demo.platform Demo.outdated) simulated
                    "enclave.example:50052" "enclave.example:50051"
                    (list_byte_of_string "certificate") "blindai-srv" warned))
             "9.9.9" eq_refl eq_refl).
  - split; [|split; [|reflexivity]];
      apply (proj2 (proj2 (@bootstrap_failure_leaves_channel_open Demo.external
                    (Demo.platform Demo.rogue) hardware
                    "enclave.example:50052" "enclave.example:50051"
                    (list_byte_of_string "server.pem") "blindai-srv"
                    [EvPolicyFile "policy.toml"; EvFileRead "server.pem"]))
             "0.5.0" {| quote := []; collateral := []; enclave_held_data := [] |}
             (AttestationError "empty quote")
             eq_refl eq_refl eq_refl eq_refl eq_refl eq_refl).
Defined.

(** A response of a simulation-mode session, saved and loaded again: the
    loaded response holds an empty attestation and no longer counts as
    simulation mode. *)
Lemma reload_forgets_absent_fields_witness :
  SignedResponse.is_simulation_mode Demo.simulated_run = true
  /\ SignedResponse.load_from_bytes SignedResponse.new
       (SignedResponse.as_bytes Demo.simulated_run)
     = Ok {| SignedResponse.payload := Some Demo.run_payload;
             SignedResponse.signature := Some (Demo.sign Demo.key Demo.run_payload);
             SignedResponse.attestation := Some attestation_default |}
  /\ SignedResponse.is_simulation_mode (reloaded Demo.simulated_run) = false.
Proof.
  destruct (@reload_forgets_absent_fields Demo.external SignedResponse.new
              Demo.simulated_run eq_refl) as [Hload [_ [Hsim _]]].
  split; [reflexivity|]. split; [exact Hload|exact Hsim].
Defined.

(** The attested run response validates against the tensor [1, 2, 3, 4]
    whether its shape is given as [2, 2] or as [4]. *)
Lemma validate_ignores_shape_witness :
  RunModelResponse.validate (Demo.as_run Demo.attested_run) "m1" Demo.input (One F32)
    (Flat [2; 2]%Z) None None false (Some Demo.key) false []
  = RunModelResponse.validate (Demo.as_run Demo.attested_run) "m1" Demo.input (One F32)
      (Flat [4]%Z) None None false (Some Demo.key) false []
  /\ snd (RunModelResponse.validate (Demo.as_run Demo.attested_run) "m1" Demo.input
            (One F32) (Flat [4]%Z) None None false (Some Demo.key) false [])
     = Ok tt.
Proof.
  split; [|reflexivity].
  exact (@validate_ignores_shape Demo.external (Demo.as_run Demo.attested_run) "m1"
           Demo.input (One F32) (Flat [2; 2]%Z) (Flat [4]%Z) [[2; 2]%Z] [[4]%Z]
           None None false (Some Demo.key) false [] eq_refl eq_refl).
Defined.

(** ** Operations, bootstraps, files and requests on concrete inputs *)

(** An upload without signature in the attested session. *)
Lemma upload_model_without_signature_witness :
  let srv := Demo.enclave "0.5.0" in
  @BlindAiConnection.upload_model Demo.external (Demo.platform srv)
    (Demo.open_session srv) (Demo.model_file, false, tt) []
  = ([EvFileRead "model.onnx"; EvRpc 1 SendModel],
     Ok {| UploadModelResponse.base := SignedResponse.new;
           UploadModelResponse.model_id := Some "m1" |}).
Proof.
  intros srv.
  exact (proj1 (@upload_model_without_signature Demo.external (Demo.platform srv)
                  (Demo.open_session srv) 1 Demo.model_file tt
                  (list_byte_of_string Demo.model_file)
                  (Demo.signed_reply Demo.upload_payload)
                  (PayloadSendModel
                     {| smp_model_hash := Demo.model_hash; smp_model_id := "m1" |})
                  [] eq_refl eq_refl eq_refl eq_refl eq_refl)).
Defined.

(** A simulation-mode session accepts a reply whose signature is the
    single byte 0. *)
Lemma upload_model_in_simulation_skips_signature_witness :
  ed25519_verify Demo.key [x00] Demo.upload_payload = false
  /\ @BlindAiConnection.upload_model Demo.external (Demo.platform Scenario.forging)
       (Scenario.simulation_session Scenario.forging) (Demo.model_file, true, tt) []
     = ([EvFileRead "model.onnx"; EvRpc 1 SendModel],
        Ok {| UploadModelResponse.base :=
                {| SignedResponse.payload := Some Demo.upload_payload;
                   SignedResponse.signature := Some [x00];
                   SignedResponse.attestation := None |};
              UploadModelResponse.model_id := Some "m1" |}).
Proof.
  split; [reflexivity|].
  exact (@upload_model_in_simulation_skips_signature Demo.external
           (Demo.platform Scenario.forging)
           (Scenario.simulation_session Scenario.forging) 1 Demo.model_file tt
           (list_byte_of_string Demo.model_file) Scenario.forged_reply
           (PayloadSendModel
              {| smp_model_hash := Demo.model_hash; smp_model_id := "m1" |})
           [] eq_refl eq_refl eq_refl eq_refl eq_refl eq_refl eq_refl).
Defined.

(** The attested session accepts the enclave's reply and refuses the
    forged one, after one check of the signature each. *)
Lemma upload_model_in_attested_session_witness :
  let srv := Demo.enclave "0.5.0" in
  @BlindAiConnection.upload_model Demo.external (Demo.platform srv)
    (Demo.open_session srv) (Demo.model_file, true, tt) []
  = ([EvFileRead "model.onnx"; EvRpc 1 SendModel;
      EvVerify Demo.key (Demo.sign Demo.key Demo.upload_payload) Demo.upload_payload],
     Ok (Demo.as_upload Demo.attested_upload))
  /\ @BlindAiConnection.upload_model Demo.external (Demo.platform Scenario.forging)
       (Demo.open_session Scenario.forging) (Demo.model_file, true, tt) []
     = ([EvFileRead "model.onnx"; EvRpc 1 SendModel;
         EvVerify Demo.key [x00] Demo.upload_payload],
        Raise (SignatureError "Invalid signature")).
Proof.
  intros srv. split.
  - exact (@upload_model_in_attested_session Demo.external (Demo.platform srv)
             (Demo.open_session srv) 1 Demo.model_file tt
             (list_byte_of_string Demo.model_file)
             (Demo.signed_reply Demo.upload_payload)
             (PayloadSendModel
                {| smp_model_hash := Demo.model_hash; smp_model_id := "m1" |})
             Demo.evidence Demo.key [] eq_refl eq_refl eq_refl eq_refl eq_refl
             eq_refl eq_refl).
  - exact (@upload_model_in_attested_session Demo.external
             (Demo.platform Scenario.forging) (Demo.open_session Scenario.forging) 1
             Demo.model_file tt (list_byte_of_string Demo.model_file)
             Scenario.forged_reply
             (PayloadSendModel
                {| smp_model_hash := Demo.model_hash; smp_model_id := "m1" |})
             Demo.evidence Demo.key [] eq_refl eq_refl eq_refl eq_refl eq_refl
             eq_refl eq_refl).
Defined.

Lemma upload_model_unreadable_file_witness :
  let srv := Demo.enclave "0.5.0" in
  @BlindAiConnection.upload_model Demo.external (Demo.platform srv)
    (Demo.open_session srv) ("missing", true, tt) []
  = ([EvFileRead "missing"], Raise (FileNotFoundError "missing")).
Proof.
  intros srv.
  exact (@upload_model_unreadable_file Demo.external (Demo.platform srv)
           (Demo.open_session srv) "missing" true tt (FileNotFoundError "missing") []
           eq_refl eq_refl eq_refl).
Defined.

Lemma delete_model_makes_one_call_witness :
  @BlindAiConnection.delete_model Demo.external
    (Demo.platform (Demo.enclave "0.5.0"))
    (Demo.open_session (Demo.enclave "0.5.0")) "m1" []
  = ([EvRpc 1 DeleteModel], Ok DeleteModelResponse_new)
  /\ @BlindAiConnection.delete_model Demo.external (Demo.platform Demo.unreachable)
       (Demo.open_session Demo.unreachable) "m1" []
     = ([EvRpc 1 DeleteModel], Raise (ConnectionError "UNAVAILABLE")).
Proof.
  destruct (@delete_model_makes_one_call Demo.external
              (Demo.platform (Demo.enclave "0.5.0"))
              (Demo.open_session (Demo.enclave "0.5.0")) 1 "m1" [] eq_refl eq_refl)
    as [Hlog [Hok _]].
  destruct (@delete_model_makes_one_call Demo.external
              (Demo.platform Demo.unreachable)
              (Demo.open_session Demo.unreachable) 1 "m1" [] eq_refl eq_refl)
    as [Hlog' [_ Hfail]].
  split; apply injective_projections; simpl fst; simpl snd.
  - exact Hlog.
  - exact (Hok eq_refl).
  - exact Hlog'.
  - exact (Hfail "UNAVAILABLE" eq_refl).
Defined.

Lemma run_model_empty_input_witness :
  let srv := Demo.enclave "0.5.0" in
  @BlindAiConnection.run_model Demo.external (Demo.platform srv)
    (Demo.open_session srv) ("m1", Flat [], One F32, Flat [0%Z], true) []
  = ([], Raise (IndexError "list index out of range"))
  /\ @BlindAiConnection.run_model Demo.external (Demo.platform srv)
       (Demo.open_session srv) ("m1", Demo.input, One F32, Flat [], true) []
     = ([], Raise (IndexError "list index out of range")).
Proof.
  intros srv.
  destruct (@run_model_empty_input Demo.external (Demo.platform srv)
              (Demo.open_session srv) "m1" (One F32) true [] eq_refl)
    as [Hflat [_ Hshape]].
  split; [apply Hflat|apply (Hshape eq_refl)].
Defined.

(** The same session on a machine without torch: the tensor [1, 2, 3, 4]
    and the list that holds it. *)
Lemma run_model_without_torch_witness :
  let srv := Demo.enclave "0.5.0" in
  @BlindAiConnection.run_model Demo.external (Scenario.without_torch srv)
    (Demo.open_session srv) ("m1", Demo.input, One F32, Flat [4]%Z, true) []
  = ([], Raise (OtherError "UnboundLocalError"
                  "local variable 'torch' referenced before assignment"))
  /\ @BlindAiConnection.run_model Demo.external (Scenario.without_torch srv)
       (Demo.open_session srv)
       ("m1", Nested [[1; 2; 3; 4]%Z], Many [F32], Nested [[4]%Z], true) []
     = ([], Raise (OtherError "UnboundLocalError"
                     "local variable 'torch' referenced before assignment")).
Proof.
  intros srv.
  destruct (@run_model_without_torch Demo.external (Scenario.without_torch srv)
              (Demo.open_session srv) "m1" (One F32) (Flat [4]%Z) true [] eq_refl
              eq_refl) as [Hflat _].
  destruct (@run_model_without_torch Demo.external (Scenario.without_torch srv)
              (Demo.open_session srv) "m1" (Many [F32]) (Nested [[4]%Z]) true []
              eq_refl eq_refl) as [_ Hnested].
  split; [apply Hflat|apply Hnested].
Defined.

(** The tensor [1, 2, 3, 4] of shape [2, 2]: the digest of the list
    [run_model] makes of it. *)
Lemma wrapped_tensor_same_digest_witness :
  @RunModelResponse.input_digest Demo.external (Nested [[1; 2; 3; 4]%Z]) (Many [F32])
    (Nested [[2; 2]%Z])
  = @RunModelResponse.input_digest Demo.external Demo.input (One F32) (Flat [2; 2]%Z)
  /\ @RunModelResponse.input_digest Demo.external Demo.input (One F32) (Flat [2; 2]%Z)
     = Ok Demo.input_hash.
Proof.
  split; [|reflexivity].
  exact (@wrapped_tensor_same_digest Demo.external true Demo.input (One F32)
           (Flat [2; 2]%Z) (Nested [[1; 2; 3; 4]%Z]) (Many [F32]) (Nested [[2; 2]%Z])
           eq_refl).
Defined.

(** Two tensors and one datum type. *)
Lemma fewer_types_than_tensors_witness :
  @RunModelResponse.input_digest Demo.external (Nested [[1; 2]%Z; [3; 4]%Z]) (One F32)
    (Nested [[2]%Z; [2]%Z])
  = Raise (IndexError "list index out of range").
Proof.
  apply (@fewer_types_than_tensors Demo.external (Nested [[1; 2]%Z; [3; 4]%Z])
           (One F32) (Nested [[2]%Z; [2]%Z]) [[1; 2]%Z; [3; 4]%Z]).
  - intros tensor d. eexists. reflexivity.
  - reflexivity.
  - simpl. lia.
Defined.

(** The reply for model m1, received by a caller who asked for another
    model: the response is built and nothing is refused. *)
Lemma run_response_never_refused_for_model_id_witness :
  snd (@RunModelResponse.__init__ Demo.external (Nested [[1; 2; 3; 4]%Z]) (Many [F32])
         (Nested [[4]%Z]) (Demo.signed_reply Demo.run_payload) true
         (Some Demo.evidence) (Some Demo.key) false [])
  <> Raise (SignatureError "Invalid returned model_id")
  /\ snd (@BlindAiConnection.run_model Demo.external
            (Demo.platform (Demo.enclave "0.5.0"))
            (Demo.open_session (Demo.enclave "0.5.0"))
            ("another-model", Demo.input, One F32, Flat [4]%Z, true) [])
     = Ok (Demo.as_run Demo.attested_run).
Proof.
  split; [|reflexivity].
  exact (@run_response_never_refused_for_model_id Demo.external
           (Nested [[1; 2; 3; 4]%Z]) (Many [F32]) (Nested [[4]%Z])
           (Demo.signed_reply Demo.run_payload) (Some Demo.evidence) (Some Demo.key)
           false Demo.input_hash [] eq_refl).
Defined.

(** The simulation-mode bootstrap against the enclave of the examples. *)
Lemma simulation_bootstrap_succeeds_witness :
  let srv := Demo.enclave "0.5.0" in
  @BlindAiConnection.connect Demo.external (Demo.platform srv)
    "enclave.example" "blindai-srv" None None true 50052%Z 50051%Z []
  = ([EvWarning "Untrusted server certificate check bypassed";
      EvTlsCertificateFetch "enclave.example" 50052%Z;
      EvChannelOpen 0 "enclave.example:50052";
      EvRpc 0 GetServerInfo;
      EvWarning
        "Attestation process is bypassed: running without requesting and checking attestation";
      EvRpc 0 GetCertificate;
      EvChannelClose 0;
      EvChannelOpen 1 "enclave.example:50051"],
     Ok (Scenario.simulation_session srv)).
Proof.
  intros srv.
  exact (@simulation_bootstrap_succeeds Demo.external (Demo.platform srv)
           "enclave.example" "blindai-srv" None None 50052%Z 50051%Z "certificate"
           "0.5.0" (raw_key Demo.key) Demo.key [] eq_refl eq_refl eq_refl eq_refl
           eq_refl).
Defined.

(** The hardware-mode bootstrap against the same enclave. *)
Lemma hardware_bootstrap_succeeds_witness :
  let srv := Demo.enclave "0.5.0" in
  @BlindAiConnection.connect Demo.external (Demo.platform srv)
    "enclave.example" "blindai-srv" (Some "policy.toml") (Some "server.pem") false
    50052%Z 50051%Z []
  = ([EvPolicyFile "policy.toml";
      EvFileRead "server.pem";
      EvChannelOpen 0 "enclave.example:50052";
      EvRpc 0 GetServerInfo;
      EvRpc 0 GetSgxQuoteWithCollateral;
      EvQuoteVerification Demo.evidence;
      EvChannelClose 0;
      EvChannelOpen 1 "enclave.example:50051"],
     Ok (Demo.open_session srv)).
Proof.
  intros srv.
  exact (@hardware_bootstrap_succeeds Demo.external (Demo.platform srv)
           "enclave.example" "blindai-srv" "policy.toml" "server.pem" 50052%Z
           50051%Z "policy" (list_byte_of_string "server.pem") "0.5.0" Demo.evidence
           (raw_key Demo.key) Demo.key [] eq_refl eq_refl eq_refl eq_refl eq_refl
           eq_refl eq_refl eq_refl).
Defined.

(** Hardware mode without a policy, with a policy file that does not
    exist, and with a certificate file that does not exist. *)
Lemma hardware_bootstrap_reads_files_first_witness :
  let srv := Demo.enclave "0.5.0" in
  (exists e,
     @BlindAiConnection.connect Demo.external (Demo.platform srv)
       "enclave.example" "blindai-srv" None (Some "server.pem") false 50052%Z
       50051%Z []
     = ([], Raise e))
  /\ @BlindAiConnection.connect Demo.external (Demo.platform srv)
       "enclave.example" "blindai-srv" (Some "nowhere.toml") (Some "server.pem")
       false 50052%Z 50051%Z []
     = ([EvPolicyFile "nowhere.toml"], Raise (FileNotFoundError "nowhere.toml"))
  /\ @BlindAiConnection.connect Demo.external (Demo.platform srv)
       "enclave.example" "blindai-srv" (Some "policy.toml") (Some "missing") false
       50052%Z 50051%Z []
     = ([EvPolicyFile "policy.toml"; EvFileRead "missing"],
        Raise (FileNotFoundError "missing")).
Proof.
  intros srv. split; [|split].
  - exact (proj1 (@hardware_bootstrap_reads_files_first Demo.external
                    (Demo.platform srv) "enclave.example" "blindai-srv" None
                    (Some "server.pem") 50052%Z 50051%Z []) eq_refl).
  - exact (proj1 (proj2 (@hardware_bootstrap_reads_files_first Demo.external
                           (Demo.platform srv) "enclave.example" "blindai-srv"
                           (Some "nowhere.toml") (Some "server.pem") 50052%Z
                           50051%Z []))
             "nowhere.toml" (FileNotFoundError "nowhere.toml") eq_refl eq_refl).
  - exact (proj2 (proj2 (proj2 (@hardware_bootstrap_reads_files_first Demo.external
                                  (Demo.platform srv) "enclave.example"
                                  "blindai-srv" (Some "policy.toml")
                                  (Some "missing") 50052%Z 50051%Z []))
                    "policy.toml" "policy" eq_refl eq_refl)
             "missing" (FileNotFoundError "missing") eq_refl eq_refl).
Defined.

(** The session of the hardware-mode bootstrap above. *)
Lemma bootstrap_establishes_session_witness :
  let srv := Demo.enclave "0.5.0" in
  @bootstrapped Demo.external (Demo.platform srv) false (Demo.open_session srv)
  /\ @bootstrapped Demo.external (Demo.platform srv) true
       (Scenario.simulation_session srv).
Proof.
  intros srv. split.
  - exact (proj1 (@bootstrap_establishes_session Demo.external (Demo.platform srv)
                    "enclave.example" "blindai-srv" (Some "policy.toml")
                    (Some "server.pem") false 50052%Z 50051%Z [] _
                    (Demo.open_session srv) eq_refl)).
  - exact (proj1 (@bootstrap_establishes_session Demo.external (Demo.platform srv)
                    "enclave.example" "blindai-srv" None None true 50052%Z 50051%Z
                    [] _ (Scenario.simulation_session srv) eq_refl)).
Defined.


(** The response of an upload without signature holds the model id m1 and
    nothing else; saved and loaded again, its model id is the empty
    string. *)
Lemma loaded_upload_reads_model_id_from_payload_witness :
  let unsigned :=
    {| UploadModelResponse.base := SignedResponse.new;
       UploadModelResponse.model_id := Some "m1" |} in
  Files.upload_load_from_file UploadModelResponse.new "upload.bin"
    (fst (Files.save_to_file (UploadModelResponse.base unsigned) "upload.bin"
            Scenario.disk))
  = Ok {| UploadModelResponse.base :=
            {| SignedResponse.payload := Some [];
               SignedResponse.signature := Some [];
               SignedResponse.attestation := Some attestation_default |};
          UploadModelResponse.model_id := Some EmptyString |}.
Proof.
  intros unsigned.
  exact (@loaded_upload_reads_model_id_from_payload Demo.external
           UploadModelResponse.new unsigned "upload.bin" Scenario.disk PayloadUnset
           eq_refl eq_refl eq_refl).
Defined.

(** [upload_model(..., shape=(1, 3), dtype=F32, dtype_out=I64)] with a list
    of outputs that is not used. *)
Lemma defaults_describe_one_input_and_one_output_witness :
  let shape := Requests.PyTuple [Requests.PyInt 1; Requests.PyInt 3] in
  Requests._get_input_output_tensors Scenario.PbTensorInfo_new Requests.PyNone
    (Requests.PyList [Requests.PyList [Requests.PyDatum U8]]) shape
    (Requests.PyDatum F32) (Requests.PyDatum I64)
  = Ok ([(Some shape, Requests.PyDatum F32, 0)], [(None, Requests.PyDatum I64, 0)]).
Proof.
  intros shape.
  exact (@defaults_describe_one_input_and_one_output Scenario.TensorInfoMessage
           Scenario.PbTensorInfo_new Requests.PyNone
           (Requests.PyList [Requests.PyList [Requests.PyDatum U8]]) shape
           (Requests.PyDatum F32) (Requests.PyDatum I64) eq_refl eq_refl eq_refl).
Defined.

(** [upload_model(..., shape=[1, 3], dtype=F32, dtype_out=F32)] *)
Lemma list_shape_is_refused_witness :
  Requests._get_input_output_tensors Scenario.PbTensorInfo_new Requests.PyNone
    Requests.PyNone (Requests.PyList [Requests.PyInt 1; Requests.PyInt 3])
    (Requests.PyDatum F32) (Requests.PyDatum F32)
  = Raise (TypeError "object is not subscriptable").
Proof.
  destruct (@list_shape_is_refused Scenario.TensorInfoMessage
              Scenario.PbTensorInfo_new Requests.PyNone Requests.PyNone
              (Requests.PyDatum F32) (Requests.PyDatum F32)
              [Requests.PyInt 1; Requests.PyInt 3] eq_refl eq_refl) as [e He].
  rewrite He.
  assert (E : Requests._get_input_output_tensors Scenario.PbTensorInfo_new
                Requests.PyNone Requests.PyNone
                (Requests.PyList [Requests.PyInt 1; Requests.PyInt 3])
                (Requests.PyDatum F32) (Requests.PyDatum F32)
              = Raise (TypeError "object is not subscriptable")) by reflexivity.
  rewrite He in E. exact E.
Defined.

(** [tensor_outputs=ModelDatumType.F32] next to one described input. *)
Lemma bare_output_type_is_refused_witness :
  exists e,
    Requests._get_input_output_tensors Scenario.PbTensorInfo_new
      (Requests.PyList
         [Requests.PyTuple [Requests.PyInt 1; Requests.PyInt 3]; Requests.PyDatum F32])
      (Requests.PyDatum F32) Requests.PyNone Requests.PyNone Requests.PyNone
    = Raise e.
Proof.
  exact (@bare_output_type_is_refused Scenario.TensorInfoMessage
           Scenario.PbTensorInfo_new
           (Requests.PyList
              [Requests.PyTuple [Requests.PyInt 1; Requests.PyInt 3];
               Requests.PyDatum F32])
           Requests.PyNone Requests.PyNone Requests.PyNone F32 eq_refl).
Defined.

(** A tensor of two dimensions of 64-bit integers. *)
Lemma convert_dt_returns_for_floats_and_rows_witness :
  Torch.convert_dt (Torch.FirstIs (Torch.Row Torch.int64)) = Ok (Some I64)
  /\ exists d, Torch.FirstIs (Torch.Row Torch.int64) = Torch.FirstIs (Torch.Row d).
Proof.
  split; [reflexivity|].
  destruct (@convert_dt_returns_for_floats_and_rows
              (Torch.FirstIs (Torch.Row Torch.int64)) (Some I64) eq_refl)
    as [[E _]|E]; [discriminate|exact E].
Defined.
